(** * TradingViewDataFeed: the periodic back-test report of [periodic_backtest.py]

    A shallow embedding of the trade reducer ([DataFrameTV.__init__],
    [ConvertTradeTV.convert]) and of the metrics engine
    ([CalculatePerformanceSummary], [PerformanceSummary]), together with the
    properties of the report that the specification states.

    - Numbers are the binary64 floats of the source ([float], the float64
      columns of a pandas frame); a value that is absent is NaN, as the
      reducer reads it from the export and as pandas stores it.
    - A column reduction ([sum], [mean], [max], [min], [count]) skips the
      missing values; [sum] adds in the order of numpy's pairwise
      summation, and [mean] divides that sum by the count.
    - An exception is a value of [result]; a comprehension or a loop stops
      at the first one.
    - A frame is the list of its columns, each with the type pandas gives
      it, and the list of its rows, each row under its index label.  The
      column exit_date of a frame built from a list of trades holds times
      when one of the trades has an exit time, and objects otherwise; the
      durations of the report are taken on a column of times only, and
      raise [TypeError] on the other.
    - The one statement of the source that assigns to an object it
      received, [trades.index = ...], is modelled on a store of objects; so
      are the calls of the formulas, which read objects and build new ones.
    - Entry times are timestamps (never NaT), given by their calendar
      fields.
    - Parsing a date cell and averaging durations are left to an interface,
      [Pandas]; the properties are stated for every instance of it, and
      evaluated on the instance [PandasRef]. *)

From Stdlib Require Import ZArith List String Ascii Bool Lia Floats Permutation.
From Stdlib Require Import Uint63 QArith Sorted DecimalString.
Import ListNotations.

Close Scope Q_scope.

Local Open Scope string_scope.
Local Open Scope list_scope.

(** ** Exceptions *)

Inductive exn : Set :=
| IndexError
| AttributeError
| KeyError
| TypeError
| ValueError
| NameError.

Inductive result (A : Type) : Type :=
| Ok (a : A)
| Raise (e : exn).

Arguments Ok {A} a.
Arguments Raise {A} e.

Definition bind {A B : Type} (m : result A) (k : A -> result B) : result B :=
  match m with
  | Ok a => k a
  | Raise e => Raise e
  end.

Notation "x <- m ;; k" := (bind m (fun x => k))
  (at level 61, m at next level, right associativity).

(** A comprehension [[f(x) for x in xs]]: the elements are visited in order
    and the first exception ends the loop. *)
Fixpoint mapM {A B : Type} (f : A -> result B) (xs : list A) : result (list B) :=
  match xs with
  | [] => Ok []
  | x :: xs' => y <- f x ;; ys <- mapM f xs' ;; Ok (y :: ys)
  end.

(** ** Binary64 columns: the pandas reductions used by the formulas *)

Module Float64.
Local Open Scope float_scope.

Definition isnan (x : float) : bool := PrimFloat.is_nan x.

Definition of_nat (n : nat) : float :=
  PrimFloat.of_uint63 (Uint63.of_Z (Z.of_nat n)).

(** [Series.notna()] as a list of the values kept. *)
Definition dropna (xs : list float) : list float :=
  filter (fun x => negb (isnan x)) xs.

(** [Series.sum()] (skipna): a missing value counts as 0 and the column is
    added up by numpy's [add.reduce], which starts from 0 and adds the
    pairwise sum of the whole column. *)
Definition fillna0 (x : float) : float := if isnan x then 0 else x.

(** [for (...) res += a[i]] from a start value. *)
Definition add_all (start : float) (xs : list float) : float :=
  fold_left (fun res x => res + x) xs start.

(** The values at the positions [phase], [phase + 8], [phase + 16], ... *)
Fixpoint lane (phase : nat) (xs : list float) : list float :=
  match xs with
  | [] => []
  | x :: xs' =>
      match phase with
      | O => x :: lane 7 xs'
      | S p => lane p xs'
      end
  end.

(** One of the 8 accumulators of a block: [r[k] = a[k]], then
    [r[k] += a[i + k]] for [i = 8, 16, ...]. *)
Definition accumulator (k : nat) (xs : list float) : float :=
  match lane k xs with
  | [] => 0
  | x :: ys => add_all x ys
  end.

(** A block of 8 to 128 values: 8 accumulators over the multiple of 8, added
    as a tree, then the values that are left, one by one. *)
Definition block_sum (xs : list float) : float :=
  let n := List.length xs in
  let full := (n - n mod 8)%nat in
  let r k := accumulator k (firstn full xs) in
  let res := ((r 0%nat + r 1%nat) + (r 2%nat + r 3%nat))
             + ((r 4%nat + r 5%nat) + (r 6%nat + r 7%nat)) in
  add_all res (skipn full xs).

(** numpy's [pairwise_sum]: fewer than 8 values are added from the left
    starting from 0, up to 128 values are one block, more are halved, the
    first half cut down to a multiple of 8.  The recursion is counted down
    on [fuel]; the length of the column is enough of it. *)
Fixpoint pairwise_sum (fuel : nat) (xs : list float) : float :=
  let n := List.length xs in
  if (n <? 8)%nat then add_all 0 xs
  else if (n <=? 128)%nat then block_sum xs
  else
    match fuel with
    | O => block_sum xs
    | S fuel' =>
        let n2 := (n / 2)%nat in
        let n2 := (n2 - n2 mod 8)%nat in
        pairwise_sum fuel' (firstn n2 xs) + pairwise_sum fuel' (skipn n2 xs)
    end.

Definition sum (xs : list float) : float :=
  0 + pairwise_sum (List.length xs) (map fillna0 xs).

(** [Series.count()]: the number of values that are not missing. *)
Definition count (xs : list float) : nat := List.length (dropna xs).

(** [Series.mean()] (skipna): sum over count, NaN when nothing is left. *)
Definition mean (xs : list float) : float :=
  match count xs with
  | O => nan
  | S _ as n => sum xs / of_nat n
  end.

(** [Series.max()] and [Series.min()] (skipna): NaN when nothing is left; of
    two values that compare equal, a zero of either sign, the later one is
    kept. *)
Definition max (xs : list float) : float :=
  match dropna xs with
  | [] => nan
  | x :: ys => fold_left (fun acc y => if acc <=? y then y else acc) ys x
  end.

Definition min (xs : list float) : float :=
  match dropna xs with
  | [] => nan
  | x :: ys => fold_left (fun acc y => if y <=? acc then y else acc) ys x
  end.
End Float64.

(** ** Timestamps *)

Record Timestamp : Set := mkTimestamp {
  ts_year : Z;
  ts_month : Z;
  ts_day : Z;
  ts_nanos : Z  (* nanoseconds since midnight *)
}.

Module Calendar.
Definition lex (c1 c2 : comparison) : comparison :=
  match c1 with
  | Eq => c2
  | _ => c1
  end.

Definition compare (a b : Timestamp) : comparison :=
  lex (Z.compare (ts_year a) (ts_year b))
    (lex (Z.compare (ts_month a) (ts_month b))
       (lex (Z.compare (ts_day a) (ts_day b))
          (Z.compare (ts_nanos a) (ts_nanos b)))).

Definition leb (a b : Timestamp) : bool :=
  match compare a b with
  | Gt => false
  | _ => true
  end.

(** The calendar month of a timestamp, counted from year 0. *)
Definition month_key (t : Timestamp) : Z := ts_year t * 12 + (ts_month t - 1).

Definition key_year (k : Z) : Z := k / 12.
Definition key_month (k : Z) : Z := k mod 12 + 1.

Definition is_leap (y : Z) : bool :=
  ((y mod 4 =? 0) && negb (y mod 100 =? 0) || (y mod 400 =? 0))%Z.

Definition days_in_month (y m : Z) : Z :=
  if (m =? 2)%Z then (if is_leap y then 29 else 28)
  else if ((m =? 4) || (m =? 6) || (m =? 9) || (m =? 11))%Z then 30
  else 31.

(** The label of a monthly bin: the last day of the month, at midnight. *)
Definition month_end (k : Z) : Timestamp :=
  let y := key_year k in
  let m := key_month k in
  mkTimestamp y m (days_in_month y m) 0.

Definition digit (n : Z) : ascii := ascii_of_nat (48 + Z.to_nat (n mod 10)).

Definition pad2 (n : Z) : string :=
  String (digit (n / 10)) (String (digit n) EmptyString).

Definition pad4 (n : Z) : string :=
  String (digit (n / 1000)) (String (digit (n / 100)) (pad2 n)).

(** [t.strftime("%Y-%m-%d")] *)
Definition strftime_Ymd (t : Timestamp) : string :=
  pad4 (ts_year t) ++ "-" ++ pad2 (ts_month t) ++ "-" ++ pad2 (ts_day t).
End Calendar.

(** ** The data model *)

(** [class Type]: the two directions, stored as the strings ["long"] and
    ["short"]. *)
Inductive TradeType : Set := LONG | SHORT.

Definition TradeType_eqb (a b : TradeType) : bool :=
  match a, b with
  | LONG, LONG | SHORT, SHORT => true
  | _, _ => false
  end.

(** [@dataclass class Trade], the fields in the order of the source.  A float
    field that is absent holds NaN; an absent signal or exit time is [None]. *)
Record Trade : Set := mkTrade {
  type : TradeType;
  entry_date : Timestamp;
  entry_price : float;
  contract : float;
  entry_signal : option string;
  exit_date : option Timestamp;
  exit_price : float;
  exit_signal : option string;
  profit : float;
  profit_percent : float;
  draw_down : float;
  draw_down_percent : float;
  run_up : float;
  run_up_percent : float;
  cum_profit : float;
  cum_profit_percent : float
}.

Definition Trade_fields : list string :=
  ["type"; "entry_date"; "entry_price"; "contract"; "entry_signal";
   "exit_date"; "exit_price"; "exit_signal"; "profit"; "profit_percent";
   "draw_down"; "draw_down_percent"; "run_up"; "run_up_percent";
   "cum_profit"; "cum_profit_percent"].

(** ** The pandas objects the source relies on *)

(** What the source takes from pandas without the report depending on how it
    is computed: parsing a date cell, and the mean of a column of durations
    rounded to the second. *)
Class Pandas : Type := {
  (** [pd.to_datetime(cell)] on a cell of the raw table *)
  to_datetime : string -> result Timestamp;
  Timedelta : Set;
  (** [(exit_date - entry_date).mean().round("1s")] on two columns *)
  mean_duration_1s : list (option Timestamp) -> list Timestamp -> Timedelta
}.

(** The types of the columns of a frame of trades: Python objects, binary64
    numbers and times. *)
Inductive dtype : Set := object | float64 | datetime64.

(** The columns of a frame built from trades.  The column of exit times
    holds times ([datetime64], an absent one being NaT) as soon as one trade
    has an exit time; when none has, it holds the [None]s as they are
    ([object]). *)
Definition Trade_dtypes (exit : dtype) : list (string * dtype) :=
  [("type", object); ("entry_date", datetime64); ("entry_price", float64);
   ("contract", float64); ("entry_signal", object); ("exit_date", exit);
   ("exit_price", float64); ("exit_signal", object); ("profit", float64);
   ("profit_percent", float64); ("draw_down", float64);
   ("draw_down_percent", float64); ("run_up", float64);
   ("run_up_percent", float64); ("cum_profit", float64);
   ("cum_profit_percent", float64)].

Definition has_exit_date (trade : Trade) : bool :=
  match exit_date trade with
  | Some _ => true
  | None => false
  end.

Definition exit_date_dtype (trades : list Trade) : dtype :=
  if existsb has_exit_date trades then datetime64 else object.

(** An index label: a position of the default [RangeIndex], or a time. *)
Inductive Label : Set :=
| RangeLabel (i : nat)
| TimeLabel (t : Timestamp).

(** A frame of trades: its columns, by name and type, and its rows in
    order, each with its index label. *)
Record DataFrame : Set := mkDataFrame {
  columns : list (string * dtype);
  rows : list (Label * Trade)
}.

Definition len (df : DataFrame) : nat := List.length (rows df).

(** [pd.DataFrame(trades)] for a list of [Trade]: one column per field and a
    [RangeIndex]; the empty list gives a frame with no column at all. *)
Definition DataFrame_of_list (trades : list Trade) : DataFrame :=
  match trades with
  | [] => mkDataFrame [] []
  | _ :: _ =>
      mkDataFrame (Trade_dtypes (exit_date_dtype trades))
        (combine (map RangeLabel (seq 0 (List.length trades))) trades)
  end.

Definition has_column (df : DataFrame) (name : string) : bool :=
  existsb (fun column => String.eqb name (fst column)) (columns df).

(** [df.<name>.dtype] *)
Definition column_dtype (df : DataFrame) (name : string) : option dtype :=
  option_map snd (find (fun column => String.eqb name (fst column)) (columns df)).

(** [df.<name>]: the column, or [AttributeError] when the frame has none of
    that name. *)
Definition getattr {A : Type} (df : DataFrame) (name : string)
    (field : Trade -> A) : result (list A) :=
  if has_column df name then Ok (map (fun r => field (snd r)) (rows df))
  else Raise AttributeError.

(** [xs[i]] and [xs.iloc[i]]: positional, negative positions count from the
    end, [IndexError] outside. *)
Definition iloc {A : Type} (xs : list A) (i : Z) : result A :=
  let n := Z.of_nat (List.length xs) in
  let j := if (i <? 0)%Z then (n + i)%Z else i in
  if ((0 <=? j) && (j <? n))%Z then
    match nth_error xs (Z.to_nat j) with
    | Some x => Ok x
    | None => Raise IndexError
    end
  else Raise IndexError.

(** [df.iloc[i].<name>]: the row first, then its field. *)
Definition iloc_getattr {A : Type} (df : DataFrame) (i : Z) (name : string)
    (field : Trade -> A) : result A :=
  r <- iloc (rows df) i ;;
  if has_column df name then Ok (field (snd r)) else Raise AttributeError.

(** [df[df.<name> <cmp> 0]]: the rows whose mask is true, columns kept. *)
Definition where_ (df : DataFrame) (name : string) (field : Trade -> float)
    (mask : float -> bool) : result DataFrame :=
  _ <- getattr df name field ;;
  Ok (mkDataFrame (columns df) (filter (fun r => mask (field (snd r))) (rows df))).

(** [df.dropna(subset=[name])]: [KeyError] when the column is missing. *)
Definition dropna_subset (df : DataFrame) (name : string)
    (field : Trade -> float) : result DataFrame :=
  if has_column df name then
    Ok (mkDataFrame (columns df)
          (filter (fun r => negb (Float64.isnan (field (snd r)))) (rows df)))
  else Raise KeyError.

(** [df[df.type == t]] *)
Definition where_type (df : DataFrame) (t : TradeType) : result DataFrame :=
  _ <- getattr df "type" type ;;
  Ok (mkDataFrame (columns df)
        (filter (fun r => TradeType_eqb (type (snd r)) t) (rows df))).

Definition gt0 (x : float) : bool := (0 <? x)%float.
Definition lt0 (x : float) : bool := (x <? 0)%float.

(** The argument of every formula: [trades: list or pd.DataFrame]. *)
Inductive trades_arg : Set :=
| AsList (l : list Trade)
| AsFrame (df : DataFrame).

(** [if isinstance(trades, list): trades = pd.DataFrame(trades)] *)
Definition as_frame (trades : trades_arg) : DataFrame :=
  match trades with
  | AsList l => DataFrame_of_list l
  | AsFrame df => df
  end.

(** The trades of an argument, in order. *)
Definition trades_of (trades : trades_arg) : list Trade :=
  match trades with
  | AsList l => l
  | AsFrame df => map snd (rows df)
  end.

(** ** The formula library: [class CalculatePerformanceSummary] *)

Module CalculatePerformanceSummary.
Section Formulas.
Context {pandas : Pandas}.
Local Open Scope float_scope.

Definition initial_capital (trades : trades_arg) : result float :=
  match trades with
  | AsList l =>
      t0 <- iloc l 0 ;;
      t0' <- iloc l 0 ;;
      Ok (entry_price t0 * contract t0')
  | AsFrame df =>
      p <- iloc_getattr df 0 "entry_price" entry_price ;;
      c <- iloc_getattr df 0 "contract" contract ;;
      Ok (p * c)
  end.

Definition net_profit (trades : trades_arg) : result float :=
  let trades := as_frame trades in
  col <- getattr trades "profit" profit ;;
  Ok (Float64.sum col).

Definition net_profit_percent (trades : trades_arg) : result float :=
  net_profit <- net_profit trades ;;
  initial_capital <- initial_capital trades ;;
  Ok ((net_profit / initial_capital) * 100).

Definition gross_profit (trades : trades_arg) : result float :=
  let trades := as_frame trades in
  winners <- where_ trades "profit" profit gt0 ;;
  col <- getattr winners "profit" profit ;;
  Ok (Float64.sum col).

Definition gross_profit_percent (trades : trades_arg) : result float :=
  let trades := AsFrame (as_frame trades) in
  gross_profit <- gross_profit trades ;;
  initial_capital <- initial_capital trades ;;
  Ok ((gross_profit / initial_capital) * 100).

Definition gross_loss (trades : trades_arg) : result float :=
  let trades := as_frame trades in
  losers <- where_ trades "profit" profit lt0 ;;
  col <- getattr losers "profit" profit ;;
  Ok (Float64.sum col).

Definition gross_loss_percent (trades : trades_arg) : result float :=
  let trades := AsFrame (as_frame trades) in
  gross_loss <- gross_loss trades ;;
  initial_capital <- initial_capital trades ;;
  Ok ((gross_loss / initial_capital) * 100).

Definition max_run_up (trades : trades_arg) : result float :=
  let trades := as_frame trades in
  col <- getattr trades "run_up" run_up ;;
  Ok (Float64.max col).

Definition max_run_up_percent (trades : trades_arg) : result float :=
  let trades := as_frame trades in
  col <- getattr trades "run_up_percent" run_up_percent ;;
  Ok (Float64.max col).

Definition max_draw_down (trades : trades_arg) : result float :=
  let trades := as_frame trades in
  col <- getattr trades "draw_down" draw_down ;;
  Ok (- Float64.max col).

Definition max_draw_down_percent (trades : trades_arg) : result float :=
  let trades := as_frame trades in
  col <- getattr trades "draw_down_percent" draw_down_percent ;;
  Ok (- Float64.max col).

Definition buy_and_hold (trades : trades_arg) : result float :=
  let trades := as_frame trades in
  first_price <- (col <- getattr trades "entry_price" entry_price ;; iloc col 0) ;;
  last_price <- iloc_getattr trades (-1) "exit_price" exit_price ;;
  last_price <- (if Float64.isnan last_price
                 then iloc_getattr trades (-1) "entry_price" entry_price
                 else Ok last_price) ;;
  size <- (col <- getattr trades "contract" contract ;; iloc col 0) ;;
  Ok ((last_price - first_price) * size).

Definition buy_and_hold_percent (trades : trades_arg) : result float :=
  let trades := AsFrame (as_frame trades) in
  buy_and_hold <- buy_and_hold trades ;;
  initial_capital <- initial_capital trades ;;
  Ok ((buy_and_hold / initial_capital) * 100).

Definition profit_factor (trades : trades_arg) : result float :=
  let trades := AsFrame (as_frame trades) in
  gross_profit <- gross_profit trades ;;
  gross_loss <- gross_loss trades ;;
  let gross_loss := abs gross_loss in
  if negb (gross_profit =? 0) then Ok (gross_profit / gross_loss)
  else Ok gross_profit.

Definition max_contract_held (trades : trades_arg) : result float :=
  let trades := as_frame trades in
  col <- getattr trades "contract" contract ;;
  Ok (Float64.max col).

Definition total_closed_trades (trades : trades_arg) : result nat :=
  match trades with
  | AsList l =>
      let trades := DataFrame_of_list l in
      trades <- dropna_subset trades "contract" contract ;;
      Ok (len trades)
  | AsFrame trades => Ok (len trades)
  end.

Definition total_open_trades (trades : trades_arg) : result nat :=
  let trades := as_frame trades in
  col <- getattr trades "contract" contract ;;
  Ok (List.length (filter Float64.isnan col)).

Definition number_winning_trades (trades : trades_arg) : result nat :=
  let trades := as_frame trades in
  winners <- where_ trades "profit" profit gt0 ;;
  col <- getattr winners "contract" contract ;;
  Ok (Float64.count col).

Definition number_losing_trades (trades : trades_arg) : result nat :=
  let trades := as_frame trades in
  losers <- where_ trades "profit" profit lt0 ;;
  col <- getattr losers "contract" contract ;;
  Ok (Float64.count col).

Definition avg_trade (trades : trades_arg) : result float :=
  let trades := as_frame trades in
  col <- getattr trades "profit" profit ;;
  Ok (Float64.mean col).

Definition avg_trade_percent (trades : trades_arg) : result float :=
  let trades := as_frame trades in
  col <- getattr trades "profit_percent" profit_percent ;;
  Ok (Float64.mean col).

Definition avg_winning_trade (trades : trades_arg) : result float :=
  let trades := as_frame trades in
  winners <- where_ trades "profit" profit gt0 ;;
  col <- getattr winners "profit" profit ;;
  Ok (Float64.mean col).

Definition avg_winning_trade_percent (trades : trades_arg) : result float :=
  let trades := as_frame trades in
  winners <- where_ trades "profit" profit gt0 ;;
  col <- getattr winners "profit_percent" profit_percent ;;
  Ok (Float64.mean col).

Definition avg_losing_trade (trades : trades_arg) : result float :=
  let trades := as_frame trades in
  losers <- where_ trades "profit" profit lt0 ;;
  col <- getattr losers "profit" profit ;;
  Ok (Float64.mean col).

Definition avg_losing_trade_percent (trades : trades_arg) : result float :=
  let trades := as_frame trades in
  losers <- where_ trades "profit" profit lt0 ;;
  col <- getattr losers "profit_percent" profit_percent ;;
  Ok (Float64.mean col).

Definition ratio_avg_win_avg_loss (trades : trades_arg) : result float :=
  let trades := AsFrame (as_frame trades) in
  avg_winning_trade <- avg_winning_trade trades ;;
  avg_losing_trade <- avg_losing_trade trades ;;
  let avg_losing_trade := abs avg_losing_trade in
  Ok (avg_winning_trade / avg_losing_trade).

Definition largest_winning_trade (trades : trades_arg) : result float :=
  let trades := as_frame trades in
  winners <- where_ trades "profit" profit gt0 ;;
  col <- getattr winners "profit" profit ;;
  Ok (Float64.max col).

Definition largest_winning_trade_percent (trades : trades_arg) : result float :=
  let trades := as_frame trades in
  winners <- where_ trades "profit" profit gt0 ;;
  col <- getattr winners "profit_percent" profit_percent ;;
  Ok (Float64.max col).

Definition largest_losing_trade (trades : trades_arg) : result float :=
  let trades := as_frame trades in
  losers <- where_ trades "profit" profit lt0 ;;
  col <- getattr losers "profit" profit ;;
  Ok (Float64.min col).

Definition largest_losing_trade_percent (trades : trades_arg) : result float :=
  let trades := as_frame trades in
  losers <- where_ trades "profit" profit lt0 ;;
  col <- getattr losers "profit_percent" profit_percent ;;
  Ok (Float64.min col).

(** [duration = trades.exit_date - trades.entry_date] and
    [duration.mean().round("1s")].  The entry times are held in a column of
    times; pandas subtracts such a column from a column of times only: from
    a column of another type, the [None]s of trades without exit among
    them, the subtraction raises [TypeError]. *)
Definition duration_mean (trades : DataFrame) : result Timedelta :=
  exits <- getattr trades "exit_date" exit_date ;;
  entries <- getattr trades "entry_date" entry_date ;;
  match column_dtype trades "exit_date" with
  | Some datetime64 => Ok (mean_duration_1s exits entries)
  | _ => Raise TypeError
  end.

Definition avg_bars_in_trades (trades : trades_arg) : result Timedelta :=
  let trades := as_frame trades in
  duration_mean trades.

Definition avg_bars_in_winning_trades (trades : trades_arg) : result Timedelta :=
  let trades := as_frame trades in
  trades <- where_ trades "profit" profit gt0 ;;
  duration_mean trades.

Definition avg_bars_in_losing_trades (trades : trades_arg) : result Timedelta :=
  let trades := as_frame trades in
  trades <- where_ trades "profit" profit lt0 ;;
  duration_mean trades.
End Formulas.
End CalculatePerformanceSummary.

(** ** The orchestrator: [class PerformanceSummary] *)

Inductive Value {pandas : Pandas} : Type :=
| VFloat (x : float)
| VInt (n : nat)
| VTimedelta (d : Timedelta).

(** [pd.Series(data, index=index)]: the values with their labels, in order. *)
Definition Series {pandas : Pandas} : Type := list (string * Value).

(** The monthly table: one labelled [Series] per row, in order. *)
Definition Table {pandas : Pandas} : Type := list (string * Series).

(** Objects live in a store; a variable holds an address.  Only frames are
    ever assigned to. *)
Definition addr : Set := nat.
Definition store : Set := list trades_arg.

Definition M (A : Type) : Type := store -> result A * store.

Definition ret {A : Type} (a : A) : M A := fun s => (Ok a, s).

Definition lift {A : Type} (r : result A) : M A := fun s => (r, s).

Definition bindM {A B : Type} (m : M A) (k : A -> M B) : M B :=
  fun s =>
    match m s with
    | (Ok a, s') => k a s'
    | (Raise e, s') => (Raise e, s')
    end.

Notation "x <~ m ;; k" := (bindM m (fun x => k))
  (at level 61, m at next level, right associativity).

Definition load (a : addr) : M trades_arg :=
  fun s =>
    match nth_error s a with
    | Some o => (Ok o, s)
    | None => (Raise NameError, s)
    end.

Definition alloc (o : trades_arg) : M addr :=
  fun s => (Ok (List.length s), s ++ [o]).

Fixpoint update (s : store) (a : addr) (o : trades_arg) : store :=
  match s, a with
  | [], _ => []
  | _ :: s', O => o :: s'
  | o' :: s', S a' => o' :: update s' a' o
  end.

Definition assign (a : addr) (o : trades_arg) : M unit :=
  fun s => (Ok tt, update s a o).

Module Grouper.
Import Calendar.

(** The time of an index label; a [Grouper] with a frequency accepts a
    datetime index only. *)
Definition index_time (r : Label * Trade) : result Timestamp :=
  match fst r with
  | TimeLabel t => Ok t
  | RangeLabel _ => Raise TypeError
  end.

Definition timed_row : Set := Timestamp * (Label * Trade).

Fixpoint insert (r : timed_row) (rs : list timed_row) : list timed_row :=
  match rs with
  | [] => [r]
  | r' :: rs' =>
      if leb (fst r) (fst r') then r :: r' :: rs' else r' :: insert r rs'
  end.

(** The rows in index order; rows of equal time keep their order. *)
Definition sort_index (rs : list timed_row) : list timed_row :=
  fold_right insert [] rs.

Definition row_month (r : timed_row) : Z := month_key (fst r).

Definition first_month (rs : list timed_row) : Z :=
  match rs with
  | [] => 0%Z
  | r :: rs' => fold_left Z.min (map row_month rs') (row_month r)
  end.

Definition last_month (rs : list timed_row) : Z :=
  match rs with
  | [] => 0%Z
  | r :: rs' => fold_left Z.max (map row_month rs') (row_month r)
  end.

(** The monthly bins from the first to the last month of the index, one
    per calendar month. *)
Definition bins (rs : list timed_row) : list Z :=
  match rs with
  | [] => []
  | _ :: _ =>
      let lo := first_month rs in
      let hi := last_month rs in
      map (fun i => (lo + Z.of_nat i)%Z) (seq 0 (Z.to_nat (hi - lo + 1)))
  end.

Definition bucket (rs : list timed_row) (k : Z) : list (Label * Trade) :=
  map snd (filter (fun r => (row_month r =? k)%Z) rs).

(** Iterating [df.groupby(pd.Grouper(freq="M"))]: every bin in time order
    with the slice of the frame that falls in it, empty or not. *)
Definition groupby_month (df : DataFrame) : result (list (Timestamp * DataFrame)) :=
  timed <- mapM (fun r => t <- index_time r ;; Ok (t, r)) (rows df) ;;
  let sorted := sort_index timed in
  Ok (map (fun k => (month_end k, mkDataFrame (columns df) (bucket sorted k)))
        (bins sorted)).
End Grouper.

Module PerformanceSummary.
Section Orchestrator.
Context {pandas : Pandas}.
Import CalculatePerformanceSummary.

Definition index : list string :=
  ["Net Profit"; "Net Profit %"; "Gross Profit"; "Gross Profit %";
   "Gross Loss"; "Gross Loss %"; "Max Run Up"; "Max Run Up %";
   "Max Draw Down"; "Max Draw Down %"; "Buy and Hold";
   "Buy and Hold %"; "Profit Factor"; "Max Contract Held";
   "Total Closed Trades"; "Total Open Trades";
   "Number Winning Trades"; "Number Losing Trades"; "Avg Trade";
   "Avg Trade %"; "Avg Winning Trade"; "Avg Winning Trade %";
   "Avg Losing Trade"; "Avg Losing Trade %"; "Ratio Avg Win Avg Loss";
   "Largest Winning Trade"; "Largest Winning Trade %";
   "Largest Losing Trade"; "Largest Losing Trade %";
   "Avg Bars in Trades"; "Avg Bars in Winning Trades";
   "Avg Bars in Losing Trades"].

Definition performance_summary (trades : trades_arg) : result Series :=
  net_profit <- net_profit trades ;;
  net_profit_percent <- net_profit_percent trades ;;
  gross_profit <- gross_profit trades ;;
  gross_profit_percent <- gross_profit_percent trades ;;
  gross_loss <- gross_loss trades ;;
  gross_loss_percent <- gross_loss_percent trades ;;
  max_run_up <- max_run_up trades ;;
  max_run_up_percent <- max_run_up_percent trades ;;
  max_draw_down <- max_draw_down trades ;;
  max_draw_down_percent <- max_draw_down_percent trades ;;
  buy_and_hold <- buy_and_hold trades ;;
  buy_and_hold_percent <- buy_and_hold_percent trades ;;
  profit_factor <- profit_factor trades ;;
  max_contract_held <- max_contract_held trades ;;
  total_closed_trades <- total_closed_trades trades ;;
  total_open_trades <- total_open_trades trades ;;
  number_winning_trades <- number_winning_trades trades ;;
  number_losing_trades <- number_losing_trades trades ;;
  avg_trade <- avg_trade trades ;;
  avg_trade_percent <- avg_trade_percent trades ;;
  avg_winning_trade <- avg_winning_trade trades ;;
  avg_winning_trade_percent <- avg_winning_trade_percent trades ;;
  avg_losing_trade <- avg_losing_trade trades ;;
  avg_losing_trade_percent <- avg_losing_trade_percent trades ;;
  ratio_avg_win_avg_loss <- ratio_avg_win_avg_loss trades ;;
  largest_winning_trade <- largest_winning_trade trades ;;
  largest_winning_trade_percent <- largest_winning_trade_percent trades ;;
  largest_losing_trade <- largest_losing_trade trades ;;
  largest_losing_trade_percent <- largest_losing_trade_percent trades ;;
  avg_bars_in_trades <- avg_bars_in_trades trades ;;
  avg_bars_in_winning_trades <- avg_bars_in_winning_trades trades ;;
  avg_bars_in_losing_trades <- avg_bars_in_losing_trades trades ;;
  let data :=
    [VFloat net_profit; VFloat net_profit_percent; VFloat gross_profit;
     VFloat gross_profit_percent; VFloat gross_loss;
     VFloat gross_loss_percent; VFloat max_run_up;
     VFloat max_run_up_percent; VFloat max_draw_down;
     VFloat max_draw_down_percent; VFloat buy_and_hold;
     VFloat buy_and_hold_percent; VFloat profit_factor;
     VFloat max_contract_held; VInt total_closed_trades;
     VInt total_open_trades; VInt number_winning_trades;
     VInt number_losing_trades; VFloat avg_trade; VFloat avg_trade_percent;
     VFloat avg_winning_trade; VFloat avg_winning_trade_percent;
     VFloat avg_losing_trade; VFloat avg_losing_trade_percent;
     VFloat ratio_avg_win_avg_loss; VFloat largest_winning_trade;
     VFloat largest_winning_trade_percent; VFloat largest_losing_trade;
     VFloat largest_losing_trade_percent; VTimedelta avg_bars_in_trades;
     VTimedelta avg_bars_in_winning_trades;
     VTimedelta avg_bars_in_losing_trades] in
  Ok (combine index data).

(** [trades.index = pd.to_datetime(trades.entry_date)] on the frame
    itself: the column is read, then every label is replaced. *)
Definition set_index_entry_date (df : DataFrame) : result DataFrame :=
  dates <- getattr df "entry_date" entry_date ;;
  Ok (mkDataFrame (columns df)
        (map (fun r => (TimeLabel (entry_date (snd r)), snd r)) (rows df))).

(** The body of the loop over the monthly groups. *)
Definition monthly_rows (with_separate_long_short : bool)
    (g : Timestamp * DataFrame) : result Table :=
  let name := Calendar.strftime_Ymd (fst g) in
  let group := snd g in
  performance <- performance_summary (AsFrame group) ;;
  if with_separate_long_short then
    long <- where_type group LONG ;;
    performance_long <- performance_summary (AsFrame long) ;;
    short <- where_type group SHORT ;;
    performance_short <- performance_summary (AsFrame short) ;;
    Ok [(name, performance);
        ((name ++ " Long")%string, performance_long);
        ((name ++ " Short")%string, performance_short)]
  else Ok [(name, performance)].

(** [monthly_performance] on the store.  The calls of
    [performance_summary] in the loop are taken at what they return: on the
    store they return the same and assign to no object (see [OnStore]). *)
Definition monthly_performance (trades : addr)
    (with_separate_long_short : bool) : M Table :=
  o <~ load trades ;;
  trades <~ match o with
            | AsList l => alloc (AsFrame (DataFrame_of_list l))
            | AsFrame _ => ret trades
            end ;;
  o <~ load trades ;;
  df <~ lift (set_index_entry_date (as_frame o)) ;;
  _ <~ assign trades (AsFrame df) ;;
  monthly <~ lift (Grouper.groupby_month df) ;;
  res <~ lift (mapM (monthly_rows with_separate_long_short) monthly) ;;
  ret (List.concat res).
End Orchestrator.
End PerformanceSummary.

(** ** The calls on the store

    A call receives the address of its argument.  [pd.DataFrame(trades)]
    and a selection [trades[mask]] build a new object, and the local name is
    bound to its address; a formula reads objects and builds new ones, and
    assigns to none. *)

(** A computation keeps the store when it leaves every object in it as it
    was; it may add new ones. *)
Definition keeps {A : Type} (m : M A) : Prop :=
  forall s, exists fresh, snd (m s) = s ++ fresh.

(** A call computes a function of the object it is given, and keeps the
    store. *)
Definition computes {A : Type} (m : addr -> M A)
    (f : trades_arg -> result A) : Prop :=
  forall s a o, nth_error s a = Some o ->
    exists fresh, m a s = (f o, s ++ fresh).

Module OnStore.
Section Calls.
Context {pandas : Pandas}.
Local Open Scope float_scope.

(** [if isinstance(trades, list): trades = pd.DataFrame(trades)] *)
Definition DataFrame_if_list (trades : addr) : M addr :=
  o <~ load trades ;;
  match o with
  | AsList l => alloc (AsFrame (DataFrame_of_list l))
  | AsFrame _ => ret trades
  end.

(** The frame a name is bound to; a list has no column. *)
Definition frame (trades : addr) : M DataFrame :=
  o <~ load trades ;;
  match o with
  | AsFrame df => ret df
  | AsList _ => lift (Raise AttributeError)
  end.

(** [trades.<name>] *)
Definition column {A : Type} (trades : addr) (name : string)
    (field : Trade -> A) : M (list A) :=
  df <~ frame trades ;;
  lift (getattr df name field).

(** [trades.iloc[i].<name>] *)
Definition row_field {A : Type} (trades : addr) (i : Z) (name : string)
    (field : Trade -> A) : M A :=
  df <~ frame trades ;;
  lift (iloc_getattr df i name field).

(** [trades[trades.<name> > 0]] and the like: a new frame. *)
Definition select (trades : addr) (name : string) (field : Trade -> float)
    (mask : float -> bool) : M addr :=
  df <~ frame trades ;;
  selected <~ lift (where_ df name field mask) ;;
  alloc (AsFrame selected).

Definition initial_capital (trades : addr) : M float :=
  o <~ load trades ;;
  match o with
  | AsList l =>
      t0 <~ lift (iloc l 0) ;;
      t0' <~ lift (iloc l 0) ;;
      ret (entry_price t0 * contract t0')
  | AsFrame df =>
      p <~ lift (iloc_getattr df 0 "entry_price" entry_price) ;;
      c <~ lift (iloc_getattr df 0 "contract" contract) ;;
      ret (p * c)
  end.

Definition net_profit (trades : addr) : M float :=
  trades <~ DataFrame_if_list trades ;;
  col <~ column trades "profit" profit ;;
  ret (Float64.sum col).

Definition net_profit_percent (trades : addr) : M float :=
  net_profit <~ net_profit trades ;;
  initial_capital <~ initial_capital trades ;;
  ret ((net_profit / initial_capital) * 100).

Definition gross_profit (trades : addr) : M float :=
  trades <~ DataFrame_if_list trades ;;
  winners <~ select trades "profit" profit gt0 ;;
  col <~ column winners "profit" profit ;;
  ret (Float64.sum col).

Definition gross_profit_percent (trades : addr) : M float :=
  trades <~ DataFrame_if_list trades ;;
  gross_profit <~ gross_profit trades ;;
  initial_capital <~ initial_capital trades ;;
  ret ((gross_profit / initial_capital) * 100).

Definition gross_loss (trades : addr) : M float :=
  trades <~ DataFrame_if_list trades ;;
  losers <~ select trades "profit" profit lt0 ;;
  col <~ column losers "profit" profit ;;
  ret (Float64.sum col).

Definition gross_loss_percent (trades : addr) : M float :=
  trades <~ DataFrame_if_list trades ;;
  gross_loss <~ gross_loss trades ;;
  initial_capital <~ initial_capital trades ;;
  ret ((gross_loss / initial_capital) * 100).

Definition max_run_up (trades : addr) : M float :=
  trades <~ DataFrame_if_list trades ;;
  col <~ column trades "run_up" run_up ;;
  ret (Float64.max col).

Definition max_run_up_percent (trades : addr) : M float :=
  trades <~ DataFrame_if_list trades ;;
  col <~ column trades "run_up_percent" run_up_percent ;;
  ret (Float64.max col).

Definition max_draw_down (trades : addr) : M float :=
  trades <~ DataFrame_if_list trades ;;
  col <~ column trades "draw_down" draw_down ;;
  ret (- Float64.max col).

Definition max_draw_down_percent (trades : addr) : M float :=
  trades <~ DataFrame_if_list trades ;;
  col <~ column trades "draw_down_percent" draw_down_percent ;;
  ret (- Float64.max col).

Definition buy_and_hold (trades : addr) : M float :=
  trades <~ DataFrame_if_list trades ;;
  col <~ column trades "entry_price" entry_price ;;
  first_price <~ lift (iloc col 0) ;;
  last_price <~ row_field trades (-1) "exit_price" exit_price ;;
  last_price <~ (if Float64.isnan last_price
                 then row_field trades (-1) "entry_price" entry_price
                 else ret last_price) ;;
  col <~ column trades "contract" contract ;;
  size <~ lift (iloc col 0) ;;
  ret ((last_price - first_price) * size).

Definition buy_and_hold_percent (trades : addr) : M float :=
  trades <~ DataFrame_if_list trades ;;
  buy_and_hold <~ buy_and_hold trades ;;
  initial_capital <~ initial_capital trades ;;
  ret ((buy_and_hold / initial_capital) * 100).

Definition profit_factor (trades : addr) : M float :=
  trades <~ DataFrame_if_list trades ;;
  gross_profit <~ gross_profit trades ;;
  gross_loss <~ gross_loss trades ;;
  let gross_loss := abs gross_loss in
  if negb (gross_profit =? 0) then ret (gross_profit / gross_loss)
  else ret gross_profit.

Definition max_contract_held (trades : addr) : M float :=
  trades <~ DataFrame_if_list trades ;;
  col <~ column trades "contract" contract ;;
  ret (Float64.max col).

Definition total_closed_trades (trades : addr) : M nat :=
  o <~ load trades ;;
  match o with
  | AsList l =>
      trades <~ alloc (AsFrame (DataFrame_of_list l)) ;;
      df <~ frame trades ;;
      kept <~ lift (dropna_subset df "contract" contract) ;;
      trades <~ alloc (AsFrame kept) ;;
      df <~ frame trades ;;
      ret (len df)
  | AsFrame df => ret (len df)
  end.

Definition total_open_trades (trades : addr) : M nat :=
  trades <~ DataFrame_if_list trades ;;
  col <~ column trades "contract" contract ;;
  ret (List.length (filter Float64.isnan col)).

Definition number_winning_trades (trades : addr) : M nat :=
  trades <~ DataFrame_if_list trades ;;
  winners <~ select trades "profit" profit gt0 ;;
  col <~ column winners "contract" contract ;;
  ret (Float64.count col).

Definition number_losing_trades (trades : addr) : M nat :=
  trades <~ DataFrame_if_list trades ;;
  losers <~ select trades "profit" profit lt0 ;;
  col <~ column losers "contract" contract ;;
  ret (Float64.count col).

Definition avg_trade (trades : addr) : M float :=
  trades <~ DataFrame_if_list trades ;;
  col <~ column trades "profit" profit ;;
  ret (Float64.mean col).

Definition avg_trade_percent (trades : addr) : M float :=
  trades <~ DataFrame_if_list trades ;;
  col <~ column trades "profit_percent" profit_percent ;;
  ret (Float64.mean col).

Definition avg_winning_trade (trades : addr) : M float :=
  trades <~ DataFrame_if_list trades ;;
  winners <~ select trades "profit" profit gt0 ;;
  col <~ column winners "profit" profit ;;
  ret (Float64.mean col).

Definition avg_winning_trade_percent (trades : addr) : M float :=
  trades <~ DataFrame_if_list trades ;;
  winners <~ select trades "profit" profit gt0 ;;
  col <~ column winners "profit_percent" profit_percent ;;
  ret (Float64.mean col).

Definition avg_losing_trade (trades : addr) : M float :=
  trades <~ DataFrame_if_list trades ;;
  losers <~ select trades "profit" profit lt0 ;;
  col <~ column losers "profit" profit ;;
  ret (Float64.mean col).

Definition avg_losing_trade_percent (trades : addr) : M float :=
  trades <~ DataFrame_if_list trades ;;
  losers <~ select trades "profit" profit lt0 ;;
  col <~ column losers "profit_percent" profit_percent ;;
  ret (Float64.mean col).

Definition ratio_avg_win_avg_loss (trades : addr) : M float :=
  trades <~ DataFrame_if_list trades ;;
  avg_winning_trade <~ avg_winning_trade trades ;;
  avg_losing_trade <~ avg_losing_trade trades ;;
  let avg_losing_trade := abs avg_losing_trade in
  ret (avg_winning_trade / avg_losing_trade).

Definition largest_winning_trade (trades : addr) : M float :=
  trades <~ DataFrame_if_list trades ;;
  winners <~ select trades "profit" profit gt0 ;;
  col <~ column winners "profit" profit ;;
  ret (Float64.max col).

Definition largest_winning_trade_percent (trades : addr) : M float :=
  trades <~ DataFrame_if_list trades ;;
  winners <~ select trades "profit" profit gt0 ;;
  col <~ column winners "profit_percent" profit_percent ;;
  ret (Float64.max col).

Definition largest_losing_trade (trades : addr) : M float :=
  trades <~ DataFrame_if_list trades ;;
  losers <~ select trades "profit" profit lt0 ;;
  col <~ column losers "profit" profit ;;
  ret (Float64.min col).

Definition largest_losing_trade_percent (trades : addr) : M float :=
  trades <~ DataFrame_if_list trades ;;
  losers <~ select trades "profit" profit lt0 ;;
  col <~ column losers "profit_percent" profit_percent ;;
  ret (Float64.min col).

Definition avg_bars_in_trades (trades : addr) : M Timedelta :=
  trades <~ DataFrame_if_list trades ;;
  df <~ frame trades ;;
  lift (CalculatePerformanceSummary.duration_mean df).

Definition avg_bars_in_winning_trades (trades : addr) : M Timedelta :=
  trades <~ DataFrame_if_list trades ;;
  trades <~ select trades "profit" profit gt0 ;;
  df <~ frame trades ;;
  lift (CalculatePerformanceSummary.duration_mean df).

Definition avg_bars_in_losing_trades (trades : addr) : M Timedelta :=
  trades <~ DataFrame_if_list trades ;;
  trades <~ select trades "profit" profit lt0 ;;
  df <~ frame trades ;;
  lift (CalculatePerformanceSummary.duration_mean df).

Definition performance_summary (trades : addr) : M Series :=
  net_profit <~ net_profit trades ;;
  net_profit_percent <~ net_profit_percent trades ;;
  gross_profit <~ gross_profit trades ;;
  gross_profit_percent <~ gross_profit_percent trades ;;
  gross_loss <~ gross_loss trades ;;
  gross_loss_percent <~ gross_loss_percent trades ;;
  max_run_up <~ max_run_up trades ;;
  max_run_up_percent <~ max_run_up_percent trades ;;
  max_draw_down <~ max_draw_down trades ;;
  max_draw_down_percent <~ max_draw_down_percent trades ;;
  buy_and_hold <~ buy_and_hold trades ;;
  buy_and_hold_percent <~ buy_and_hold_percent trades ;;
  profit_factor <~ profit_factor trades ;;
  max_contract_held <~ max_contract_held trades ;;
  total_closed_trades <~ total_closed_trades trades ;;
  total_open_trades <~ total_open_trades trades ;;
  number_winning_trades <~ number_winning_trades trades ;;
  number_losing_trades <~ number_losing_trades trades ;;
  avg_trade <~ avg_trade trades ;;
  avg_trade_percent <~ avg_trade_percent trades ;;
  avg_winning_trade <~ avg_winning_trade trades ;;
  avg_winning_trade_percent <~ avg_winning_trade_percent trades ;;
  avg_losing_trade <~ avg_losing_trade trades ;;
  avg_losing_trade_percent <~ avg_losing_trade_percent trades ;;
  ratio_avg_win_avg_loss <~ ratio_avg_win_avg_loss trades ;;
  largest_winning_trade <~ largest_winning_trade trades ;;
  largest_winning_trade_percent <~ largest_winning_trade_percent trades ;;
  largest_losing_trade <~ largest_losing_trade trades ;;
  largest_losing_trade_percent <~ largest_losing_trade_percent trades ;;
  avg_bars_in_trades <~ avg_bars_in_trades trades ;;
  avg_bars_in_winning_trades <~ avg_bars_in_winning_trades trades ;;
  avg_bars_in_losing_trades <~ avg_bars_in_losing_trades trades ;;
  let data :=
    [VFloat net_profit;
     VFloat net_profit_percent;
     VFloat gross_profit;
     VFloat gross_profit_percent;
     VFloat gross_loss;
     VFloat gross_loss_percent;
     VFloat max_run_up;
     VFloat max_run_up_percent;
     VFloat max_draw_down;
     VFloat max_draw_down_percent;
     VFloat buy_and_hold;
     VFloat buy_and_hold_percent;
     VFloat profit_factor;
     VFloat max_contract_held;
     VInt total_closed_trades;
     VInt total_open_trades;
     VInt number_winning_trades;
     VInt number_losing_trades;
     VFloat avg_trade;
     VFloat avg_trade_percent;
     VFloat avg_winning_trade;
     VFloat avg_winning_trade_percent;
     VFloat avg_losing_trade;
     VFloat avg_losing_trade_percent;
     VFloat ratio_avg_win_avg_loss;
     VFloat largest_winning_trade;
     VFloat largest_winning_trade_percent;
     VFloat largest_losing_trade;
     VFloat largest_losing_trade_percent;
     VTimedelta avg_bars_in_trades;
     VTimedelta avg_bars_in_winning_trades;
     VTimedelta avg_bars_in_losing_trades] in
  ret (combine PerformanceSummary.index data).
End Calls.
End OnStore.

(** ** The trade reducer: [class ConvertTradeTV] and [class DataFrameTV] *)

(** One row of the exported list of trades, by column. *)
Record RawRow : Set := mkRawRow {
  raw_trade_no : Z;               (* "Trade #" *)
  raw_type : string;              (* "Type" *)
  raw_signal : option string;     (* "Signal" *)
  raw_date_time : string;         (* "Date/Time" *)
  raw_price : float;              (* "Price" *)
  raw_contracts : float;          (* "Contracts" *)
  raw_profit : float;             (* "Profit USDT" *)
  raw_profit_percent : float;     (* "Profit %" *)
  raw_cum_profit : float;         (* "Cum. Profit USDT" *)
  raw_cum_profit_percent : float; (* "Cum. Profit %" *)
  raw_run_up : float;             (* "Run-up USDT" *)
  raw_run_up_percent : float;     (* "Run-up %" *)
  raw_draw_down : float;          (* "Drawdown USDT" *)
  raw_draw_down_percent : float   (* "Drawdown %" *)
}.

Module Str.
(** [s.split(sep)] for a separator of one character: every occurrence
    separates, so two separators in a row enclose an empty token. *)
Fixpoint split (sep : ascii) (s : string) : list string :=
  match s with
  | EmptyString => [EmptyString]
  | String c s' =>
      if Ascii.eqb c sep then EmptyString :: split sep s'
      else
        match split sep s' with
        | [] => [String c EmptyString]
        | tok :: toks => String c tok :: toks
        end
  end.

Definition lower_ascii (c : ascii) : ascii :=
  let n := nat_of_ascii c in
  if ((65 <=? n) && (n <=? 90))%nat then ascii_of_nat (n + 32) else c.

(** [s.lower()] on ASCII text. *)
Fixpoint lower (s : string) : string :=
  match s with
  | EmptyString => EmptyString
  | String c s' => String (lower_ascii c) (lower s')
  end.
End Str.

Definition space : ascii := " "%char.

Module ConvertTradeTV.
Section Convert.
Context {pandas : Pandas}.

Definition convert (pair_trade : list RawRow) : result Trade :=
  _entry <- iloc pair_trade 1 ;;
  _exit <- iloc pair_trade 0 ;;
  _type <- (tok <- iloc (Str.split space (raw_type _entry)) 1 ;; Ok (Str.lower tok)) ;;
  entry_date <- to_datetime (raw_date_time _entry) ;;
  exit_date <- to_datetime (raw_date_time _exit) ;;
  Ok {| type := if String.eqb _type "long" then LONG else SHORT;
        entry_date := entry_date;
        exit_date := Some exit_date;
        entry_price := raw_price _entry;
        exit_price := raw_price _exit;
        contract := raw_contracts _entry;
        entry_signal := raw_signal _entry;
        exit_signal := raw_signal _exit;
        profit := raw_profit _entry;
        profit_percent := raw_profit_percent _entry;
        draw_down := raw_draw_down _entry;
        draw_down_percent := raw_draw_down_percent _entry;
        run_up := raw_run_up _entry;
        run_up_percent := raw_run_up_percent _entry;
        cum_profit := raw_cum_profit _entry;
        cum_profit_percent := raw_cum_profit_percent _entry |}.
End Convert.
End ConvertTradeTV.

Module DataFrameTV.
Section Reducer.
Context {pandas : Pandas}.

Fixpoint insert_key (k : Z) (ks : list Z) : list Z :=
  match ks with
  | [] => [k]
  | k' :: ks' =>
      if (k <? k')%Z then k :: k' :: ks'
      else if (k =? k')%Z then k' :: ks'
      else k' :: insert_key k ks'
  end.

(** The distinct values of "Trade #", ascending. *)
Definition group_keys (trades : list RawRow) : list Z :=
  fold_right insert_key [] (map raw_trade_no trades).

(** Iterating [trades.groupby("Trade #")]: one pair (key, rows of that
    key in their order) per distinct key, keys ascending. *)
Definition groupby_trade_no (trades : list RawRow) : list (Z * list RawRow) :=
  map (fun k => (k, filter (fun r => (raw_trade_no r =? k)%Z) trades))
    (group_keys trades).

(** [len(t)] of a pair [t = (a, b)]. *)
Definition len_tuple {A B : Type} (t : A * B) : nat := 2.

(** [DataFrameTV.__init__]: the value of [self.trades]. *)
Definition init (trades : list RawRow) : result (list Trade) :=
  mapM (fun trade => ConvertTradeTV.convert (snd trade))
    (filter (fun trade => (len_tuple trade =? 2)%nat) (groupby_trade_no trades)).

Definition performance_summary (self_trades : list Trade) : result Series :=
  PerformanceSummary.performance_summary (AsList self_trades).


Definition performance_summary_short (self_trades : list Trade) : result Series :=
  let short_trades := filter (fun trade => TradeType_eqb (type trade) SHORT) self_trades in
  PerformanceSummary.performance_summary (AsList short_trades).

(** [self.monthly_performance(flag)], with [self.trades] at address 0 of
    the store: the table or the exception, and the store after the call. *)
Definition monthly_performance (self_trades : list Trade)
    (with_separate_long_short : bool) : result Table * store :=
  PerformanceSummary.monthly_performance 0 with_separate_long_short
    [AsList self_trades].
End Reducer.
End DataFrameTV.

(** ** A concrete instance of the pandas interface

    Dates are read in the layout of the export, ["YYYY-MM-DD HH:MM"], and
    are dates of the calendar within the range of [datetime64[ns]]; a
    duration is a number of nanoseconds, [None] for NaT, and the mean of a
    column of durations is taken in binary64 as pandas takes it.  The
    statements below hold for every instance; this one serves to evaluate
    the report on concrete tables. *)

Module PandasRef.
Definition digit_val (c : ascii) : option Z :=
  let n := nat_of_ascii c in
  if ((48 <=? n) && (n <=? 57))%nat then Some (Z.of_nat (n - 48)) else None.

Fixpoint number (cs : list ascii) (acc : Z) : option Z :=
  match cs with
  | [] => Some acc
  | c :: cs' =>
      match digit_val c with
      | Some d => number cs' (acc * 10 + d)%Z
      | None => None
      end
  end.

(** Days since 1970-01-01 of a civil date. *)
Definition days_from_civil (y m d : Z) : Z :=
  let y' := if (m <=? 2)%Z then (y - 1)%Z else y in
  let era := (y' / 400)%Z in
  let yoe := (y' - era * 400)%Z in
  let mp := if (2 <? m)%Z then (m - 3)%Z else (m + 9)%Z in
  let doy := ((153 * mp + 2) / 5 + d - 1)%Z in
  let doe := (yoe * 365 + yoe / 4 - yoe / 100 + doy)%Z in
  (era * 146097 + doe - 719468)%Z.

(** Nanoseconds since 1970-01-01 00:00, the value a [datetime64[ns]] holds. *)
Definition nanos (t : Timestamp) : Z :=
  (days_from_civil (ts_year t) (ts_month t) (ts_day t) * 86400000000000
   + ts_nanos t)%Z.

(** A date of the calendar, at a time of the day, within the range of
    [datetime64[ns]]; [pd.to_datetime] raises on any other. *)
Definition valid (y m d h n : Z) : bool :=
  ((1 <=? m) && (m <=? 12) && (1 <=? d) && (d <=? Calendar.days_in_month y m)
   && (h <=? 23) && (n <=? 59)
   && (- 2 ^ 63 <? nanos (mkTimestamp y m d ((h * 60 + n) * 60 * 1000000000)))
   && (nanos (mkTimestamp y m d ((h * 60 + n) * 60 * 1000000000)) <? 2 ^ 63))%Z.

Definition parse (s : string) : option Timestamp :=
  match list_ascii_of_string s with
  | [y1; y2; y3; y4; d1; m1; m2; d2; a1; a2; sp; h1; h2; c; n1; n2] =>
      if (Ascii.eqb d1 "-" && Ascii.eqb d2 "-" && Ascii.eqb sp " " && Ascii.eqb c ":")%bool
      then
        match number [y1; y2; y3; y4] 0, number [m1; m2] 0,
              number [a1; a2] 0, number [h1; h2] 0, number [n1; n2] 0 with
        | Some y, Some m, Some d, Some h, Some n =>
            if valid y m d h n
            then Some (mkTimestamp y m d ((h * 60 + n) * 60 * 1000000000)%Z)
            else None
        | _, _, _, _, _ => None
        end
      else None
  | _ => None
  end.

Definition parse_datetime (s : string) : result Timestamp :=
  match parse s with
  | Some t => Ok t
  | None => Raise ValueError
  end.

(** [trades.exit_date - trades.entry_date]: NaT where the exit is NaT. *)
Definition durations (exits : list (option Timestamp)) (entries : list Timestamp)
    : list (option Z) :=
  map (fun p => match fst p with
                | Some x => Some (nanos x - nanos (snd p))%Z
                | None => None
                end)
    (combine exits entries).

(** A 64-bit integer as a binary64, to nearest. *)
Definition float_of_Z (z : Z) : float :=
  if (z <? 0)%Z then (- PrimFloat.of_uint63 (Uint63.of_Z (- z)))%float
  else PrimFloat.of_uint63 (Uint63.of_Z z).

(** [np.int64(x)] of a finite binary64: the fraction is dropped. *)
Definition Z_of_float (x : float) : Z :=
  match Prim2SF x with
  | S754_finite neg m e =>
      let magnitude :=
        match e with
        | Zneg k => Z.shiftr (Zpos m) (Zpos k)
        | _ => Z.shiftl (Zpos m) e
        end in
      if neg then (- magnitude)%Z else magnitude
  | _ => 0%Z
  end.

(** To the nearest multiple of [unit], ties to the even multiple. *)
Definition round_half_even (x unit : Z) : Z :=
  let q := (x / unit)%Z in
  let r := (x mod unit)%Z in
  match (2 * r ?= unit)%Z with
  | Lt => (q * unit)%Z
  | Gt => ((q + 1) * unit)%Z
  | Eq => if Z.even q then (q * unit)%Z else ((q + 1) * unit)%Z
  end.

(** [duration.mean().round("1s")]: the durations are added as binary64
    numbers, NaT counting for nothing, the sum is divided by the number of
    durations that are not NaT, the quotient is cut to whole nanoseconds and
    then rounded to the second.  Without any duration the mean is NaT. *)
Definition mean_duration (exits : list (option Timestamp))
    (entries : list Timestamp) : option Z :=
  let duration := durations exits entries in
  let count :=
    List.length (filter (fun d => match d with Some _ => true | None => false end)
                   duration) in
  match count with
  | O => None
  | S _ =>
      let the_sum :=
        Float64.sum (map (fun d => match d with
                                   | Some z => float_of_Z z
                                   | None => 0%float
                                   end) duration) in
      let the_mean := (the_sum / float_of_Z (Z.of_nat count))%float in
      Some (round_half_even (Z_of_float the_mean) 1000000000)
  end.

#[global] Instance pandas : Pandas := {|
  to_datetime := parse_datetime;
  Timedelta := option Z;
  mean_duration_1s := mean_duration
  |}.
End PandasRef.

(** ** Notions used to state the properties *)

(** The exact value of a finite binary64 number, as a rational; a missing
    value counts as 0, as it does in a pandas sum, and so does an infinity,
    which has no rational value. *)
Module Exact.
Definition value (x : float) : Q :=
  match Prim2SF x with
  | S754_finite s m e =>
      ((if s then inject_Z (Zneg m) else inject_Z (Zpos m)) * Qpower 2 e)%Q
  | _ => 0%Q
  end.

Fixpoint sum (xs : list float) : Q :=
  match xs with
  | [] => 0%Q
  | x :: xs' => (value x + sum xs')%Q
  end.
End Exact.

(** The sign of a binary64 number: [signed false] holds of what is [>= 0],
    [signed true] of what is [<= 0]; NaN has neither. *)
Definition signed (s : bool) (x : spec_float) : bool :=
  match x with
  | S754_zero _ => true
  | S754_infinity s' | S754_finite s' _ _ => Bool.eqb s s'
  | S754_nan => false
  end.

(** The sign bit of a binary64 number, zeros included; NaN has none. *)
Definition sign_bit (s : bool) (x : spec_float) : bool :=
  match x with
  | S754_zero s' | S754_infinity s' | S754_finite s' _ _ => Bool.eqb s s'
  | S754_nan => false
  end.

(** A non-empty list, or a frame that has rows and the columns of [Trade]:
    what [pd.DataFrame(trades)] builds from a non-empty list, and what each
    monthly group of such a frame is. *)
Definition has_trade_columns (df : DataFrame) : bool :=
  forallb (has_column df) Trade_fields.

Definition populated (trades : trades_arg) : Prop :=
  match trades with
  | AsList l => l <> []
  | AsFrame df => has_trade_columns df = true /\ rows df <> []
  end.



(** The entry of a labelled vector. *)
Fixpoint lookup {pandas : Pandas} (label : string) (s : Series) : option Value :=
  match s with
  | [] => None
  | (l, v) :: s' => if String.eqb l label then Some v else lookup label s'
  end.

(** ** Sample tables

    Small inputs on which the report is evaluated below.  A decimal that
    binary64 cannot hold is written as the binary64 number nearest to it,
    which is what reading the decimal yields. *)

Module Sample.
Local Open Scope float_scope.

Definition tenth : float := 0x1.999999999999ap-4.        (* 0.1 *)
Definition fifth : float := 0x1.999999999999ap-3.        (* 0.2 *)
Definition three_tenths : float := 0x1.3333333333333p-2. (* 0.3 *)

Definition day (y m d : Z) : Timestamp := mkTimestamp y m d 0.

(** A closed trade: direction, entry and exit day, prices, size, profit. *)
Definition trade (t : TradeType) (entered exited : Timestamp)
    (entry exit size gain : float) : Trade :=
  {| type := t; entry_date := entered; entry_price := entry;
     contract := size; entry_signal := None; exit_date := Some exited;
     exit_price := exit; exit_signal := None; profit := gain;
     profit_percent := gain / (entry * size) * 100;
     draw_down := 0; draw_down_percent := 0; run_up := 0;
     run_up_percent := 0; cum_profit := 0; cum_profit_percent := 0 |}.

(** Two winning trades and no losing one. *)
Definition two_winners : list Trade :=
  [trade LONG (day 2022 6 1) (day 2022 6 2) 100 110 1 10;
   trade SHORT (day 2022 6 3) (day 2022 6 4) 200 190 1 10].

(** Profits 0.1, -0.3 and 0.2, all in one month. *)
Definition small_profits : list Trade :=
  [trade LONG (day 2022 6 1) (day 2022 6 2) 100 110 1 tenth;
   trade SHORT (day 2022 6 3) (day 2022 6 4) 100 110 1 (- three_tenths);
   trade LONG (day 2022 6 5) (day 2022 6 6) 100 110 1 fifth].


(** The largest power of 2 that binary64 holds, 2^1023: twice this number
    is beyond every finite one. *)
Definition huge : float := 0x1p+1023.

(** Profits 2^1023, 2^1023, -2^1023 and -2^1023, all in one month. *)
Definition huge_profits : list Trade :=
  [trade LONG (day 2022 6 1) (day 2022 6 2) 100 110 1 huge;
   trade LONG (day 2022 6 3) (day 2022 6 4) 100 110 1 huge;
   trade SHORT (day 2022 6 5) (day 2022 6 6) 100 110 1 (- huge);
   trade SHORT (day 2022 6 7) (day 2022 6 8) 100 110 1 (- huge)].


(** From an entry at 100 with size 2 to a last exit at 90. *)
Definition falling_market : list Trade :=
  [trade LONG (day 2022 6 1) (day 2022 6 2) 100 95 2 (-10);
   trade LONG (day 2022 6 3) (day 2022 6 4) 95 90 1 (-5)].

(** A trade in January and one in March, none in February. *)
Definition skipped_month : list Trade :=
  [trade LONG (day 2022 1 10) (day 2022 1 11) 100 110 1 10;
   trade SHORT (day 2022 3 10) (day 2022 3 11) 100 90 1 10].

(** One month of long trades only. *)
Definition long_only : list Trade :=
  [trade LONG (day 2022 1 10) (day 2022 1 11) 100 110 1 10;
   trade LONG (day 2022 1 12) (day 2022 1 13) 100 90 1 (-10)].

(** A trade whose size is missing, and the frame that holds it alone. *)
Definition open_trade : Trade :=
  trade LONG (day 2022 6 1) (day 2022 6 2) 100 110 nan nan.

Definition open_frame : DataFrame :=
  mkDataFrame (Trade_dtypes datetime64) [(RangeLabel 0, open_trade)].

(** A frame of two trades under the default index. *)
Definition ranged_frame : DataFrame := DataFrame_of_list two_winners.

Definition row (n : Z) (kind when : string) (price size gain : float) : RawRow :=
  {| raw_trade_no := n; raw_type := kind; raw_signal := None;
     raw_date_time := when; raw_price := price; raw_contracts := size;
     raw_profit := gain; raw_profit_percent := 0; raw_cum_profit := 0;
     raw_cum_profit_percent := 0; raw_run_up := 0; raw_run_up_percent := 0;
     raw_draw_down := 0; raw_draw_down_percent := 0 |}.

(** A trade identifier with a single row. *)
Definition one_leg : list RawRow :=
  [row 1 "Entry Long" "2022-06-01 10:00" 100 1 nan].

(** A trade identifier with three rows. *)
Definition three_legs : list RawRow :=
  [row 1 "Exit Long" "2022-06-02 10:00" 110 1 10;
   row 1 "Entry Long" "2022-06-01 10:00" 100 1 10;
   row 1 "Entry Long" "2022-06-01 10:00" 100 1 10].

(** A well-formed pair: the exit row, then the entry row. *)
Definition one_pair : list RawRow :=
  [row 7 "Exit Short" "2022-06-02 10:00" 190 1 10;
   row 7 "Entry Short" "2022-06-01 10:00" 200 1 10].
End Sample.

(** The "Net Profit" entry of a row of the report. *)
Definition net_profit_of {pandas : Pandas} (s : Series) : float :=
  match lookup "Net Profit" s with
  | Some (VFloat x) => x
  | _ => nan
  end.

(** The part of [monthly_performance] that follows the assignment of the
    index: the loop over the monthly groups of the frame. *)
Definition monthly_report {pandas : Pandas} (with_separate_long_short : bool)
    (df : DataFrame) : result Table :=
  monthly <- Grouper.groupby_month df ;;
  res <- mapM (PerformanceSummary.monthly_rows with_separate_long_short) monthly ;;
  Ok (List.concat res).

(** The trades of a list under their entry time, in index order; the
    calendar months from the first to the last of them; and the trades of
    one month, in index order. *)
Definition timed_rows (l : list Trade) : list Grouper.timed_row :=
  Grouper.sort_index
    (map (fun t => (entry_date t, (TimeLabel (entry_date t), t))) l).

Definition months (l : list Trade) : list Z := Grouper.bins (timed_rows l).

Definition month_trades (l : list Trade) (k : Z) : list Trade :=
  map snd (Grouper.bucket (timed_rows l) k).





(** The order of the binary64 numbers that are not NaN, as an order on
    triples of integers: the kind of number first (negative infinity,
    negative, zero, positive, positive infinity), then exponent and
    mantissa, reversed for the negative numbers. *)
Definition rank (x : spec_float) : Z * Z * Z :=
  match x with
  | S754_nan => (0, 0, 0)
  | S754_zero _ => (0, 0, 0)
  | S754_infinity true => (-2, 0, 0)
  | S754_infinity false => (2, 0, 0)
  | S754_finite true m e => (-1, - e, - Z.pos m)
  | S754_finite false m e => (1, e, Z.pos m)
  end%Z.

Definition rank_le (a b : Z * Z * Z) : Prop :=
  let '(c1, e1, m1) := a in
  let '(c2, e2, m2) := b in
  (c1 < c2 \/ (c1 = c2 /\ (e1 < e2 \/ (e1 = e2 /\ m1 <= m2))))%Z.

(** [m] is the largest value of a column, missing values skipped: NaN when
    every value is missing, else a value of the column that is not missing
    and that none of the others exceeds.  Likewise the smallest. *)
Definition largest_of (xs : list float) (m : float) : Prop :=
  (Float64.dropna xs = [] -> m = nan) /\
  (Float64.dropna xs <> [] ->
   In m xs /\ Float64.isnan m = false /\
   forall x, In x xs -> Float64.isnan x = false -> (x <=? m)%float = true).

Definition smallest_of (xs : list float) (m : float) : Prop :=
  (Float64.dropna xs = [] -> m = nan) /\
  (Float64.dropna xs <> [] ->
   In m xs /\ Float64.isnan m = false /\
   forall x, In x xs -> Float64.isnan x = false -> (m <=? x)%float = true).

(** A labelled vector reports the value of a formula under a label. *)
Definition reports {pandas : Pandas} {A : Type} (s : Series) (label : string)
    (wrap : A -> Value) (formula : result A) : Prop :=
  exists x, formula = Ok x /\ lookup label s = Some (wrap x).

(** Whether a string holds a character. *)
Fixpoint contains (c : ascii) (s : string) : bool :=
  match s with
  | EmptyString => false
  | String c' s' => Ascii.eqb c' c || contains c s'
  end.

(** The rows of a raw table that carry the identifier of a given row. *)
Definition group_of (trades : list RawRow) (r : RawRow) : list RawRow :=
  filter (fun r' => (raw_trade_no r' =? raw_trade_no r)%Z) trades.



(** Splitting on whitespace as the specification words it: runs of blanks
    separate and enclose no token, as in [s.split()].  It is compared below
    with the split at single spaces that [convert] performs. *)
Module AsSpecified.
Definition is_whitespace (c : ascii) : bool :=
  let n := nat_of_ascii c in
  ((n =? 32) || ((9 <=? n) && (n <=? 13)))%nat.

Definition push (token : string) (tokens : list string) : list string :=
  match token with
  | EmptyString => tokens
  | String _ _ => token :: tokens
  end.

Fixpoint tokens_from (s : string) : string * list string :=
  match s with
  | EmptyString => (EmptyString, [])
  | String c s' =>
      let (token, tokens) := tokens_from s' in
      if is_whitespace c then (EmptyString, push token tokens)
      else (String c token, tokens)
  end.

Definition split_whitespace (s : string) : list string :=
  let (token, tokens) := tokens_from s in push token tokens.

(** A word: at least one character, none of them a blank. *)
Fixpoint no_whitespace (s : string) : bool :=
  match s with
  | EmptyString => true
  | String c s' => negb (is_whitespace c) && no_whitespace s'
  end.

Definition word (s : string) : Prop := s <> EmptyString /\ no_whitespace s = true.








(** The case variants of the word long. *)
Definition spells_long (s : string) : Prop :=
  exists c1 c2 c3 c4,
    s = String c1 (String c2 (String c3 (String c4 EmptyString))) /\
    (c1 = "l" \/ c1 = "L")%char /\ (c2 = "o" \/ c2 = "O")%char /\
    (c3 = "n" \/ c3 = "N")%char /\ (c4 = "g" \/ c4 = "G")%char.
End AsSpecified.





(** * Properties *)

(** ** Binary64 facts *)

Section Sign.
Variables prec emax : Z.

Lemma shr_1_nonneg mrs : (0 <= shr_m mrs)%Z -> (0 <= shr_m (shr_1 mrs))%Z.
Proof.
  destruct mrs as [m r s]; simpl.
  destruct m as [|p|p]; simpl; try lia.
  destruct p; simpl; lia.
Qed.

Lemma iter_shr_1_nonneg p : forall mrs,
  (0 <= shr_m mrs)%Z -> (0 <= shr_m (SpecFloat.iter_pos shr_1 p mrs))%Z.
Proof.
  induction p; intros mrs H; simpl; auto using shr_1_nonneg.
Qed.

Lemma shr_fexp_nonneg m e l :
  (0 <= m)%Z -> (0 <= shr_m (fst (shr_fexp prec emax m e l)))%Z.
Proof.
  intros H. unfold shr_fexp, shr.
  assert (H0 : (0 <= shr_m (shr_record_of_loc m l))%Z).
  { destruct l as [|[]]; simpl; exact H. }
  destruct (fexp prec emax (Zdigits2 m + e) - e)%Z; simpl; auto.
  apply iter_shr_1_nonneg; exact H0.
Qed.

Lemma round_nearest_even_nonneg m l :
  (0 <= m)%Z -> (0 <= round_nearest_even m l)%Z.
Proof.
  intros H. destruct l as [|[]]; simpl; try lia.
  destruct (Z.even m); lia.
Qed.

Lemma binary_round_aux_signed s m e l :
  (0 <= m)%Z -> signed s (binary_round_aux prec emax s m e l) = true.
Proof.
  intros H. unfold binary_round_aux.
  pose proof (shr_fexp_nonneg m e l H) as H1.
  destruct (shr_fexp prec emax m e l) as [mrs' e']; simpl in H1.
  pose proof (shr_fexp_nonneg _ e' loc_Exact
                (round_nearest_even_nonneg _ (loc_of_shr_record mrs') H1)) as H2.
  destruct (shr_fexp prec emax _ e' loc_Exact) as [mrs'' e'']; simpl in H2.
  destruct (shr_m mrs'') as [|p|p]; simpl.
  - reflexivity.
  - destruct (e'' <=? emax - prec)%Z; simpl; apply eqb_reflx.
  - lia.
Qed.

Lemma binary_round_signed s m e :
  signed s (binary_round prec emax s m e) = true.
Proof.
  unfold binary_round.
  destruct (shl_align m e _) as [mz ez].
  apply binary_round_aux_signed. lia.
Qed.

(** Adding two numbers of one sign gives a number of that sign (possibly
    an infinity of that sign), never NaN. *)
Lemma SFadd_signed s x y :
  signed s x = true -> signed s y = true ->
  signed s (SFadd prec emax x y) = true.
Proof.
  destruct x as [sx|sx| |sx mx ex], y as [sy|sy| |sy my ey]; simpl;
    intros Hx Hy; try discriminate; auto.
  - destruct sx, sy; reflexivity.
  - apply eqb_prop in Hx, Hy; subst sx sy. destruct s; reflexivity.
  - apply eqb_prop in Hx, Hy; subst sx sy.
    destruct s; simpl; apply binary_round_signed.
Qed.
End Sign.

Section Float64Facts.
Local Open Scope float_scope.

Lemma Prim2SF_zero : Prim2SF 0 = S754_zero false.
Proof. reflexivity. Qed.

Lemma Prim2SF_infinity : Prim2SF infinity = S754_infinity false.
Proof. reflexivity. Qed.

Lemma leb0_signed x : (0 <=? x) = signed false (Prim2SF x).
Proof.
  rewrite FloatAxioms.leb_spec, Prim2SF_zero.
  destruct (Prim2SF x) as [s|[]| |[] m e]; reflexivity.
Qed.

Lemma leb_0_signed x : (x <=? 0) = signed true (Prim2SF x).
Proof.
  rewrite FloatAxioms.leb_spec, Prim2SF_zero.
  destruct (Prim2SF x) as [s|[]| |[] m e]; reflexivity.
Qed.

Lemma gt0_inv x :
  gt0 x = true ->
  exists m, Prim2SF x = S754_infinity false \/ exists e, Prim2SF x = S754_finite false m e.
Proof.
  unfold gt0. rewrite FloatAxioms.ltb_spec, Prim2SF_zero.
  destruct (Prim2SF x) as [s|[]| |[] m e]; try discriminate; intros _.
  - exists 1%positive; now left.
  - exists m; right; now exists e.
Qed.

Lemma lt0_inv x :
  lt0 x = true ->
  exists m, Prim2SF x = S754_infinity true \/ exists e, Prim2SF x = S754_finite true m e.
Proof.
  unfold lt0. rewrite FloatAxioms.ltb_spec, Prim2SF_zero.
  destruct (Prim2SF x) as [s|[]| |[] m e]; try discriminate; intros _.
  - exists 1%positive; now left.
  - exists m; right; now exists e.
Qed.

Lemma gt0_signed x : gt0 x = true -> signed false (Prim2SF x) = true.
Proof.
  intros H. destruct (gt0_inv x H) as [m [E|[e E]]]; rewrite E; reflexivity.
Qed.

Lemma lt0_signed x : lt0 x = true -> signed true (Prim2SF x) = true.
Proof.
  intros H. destruct (lt0_inv x H) as [m [E|[e E]]]; rewrite E; reflexivity.
Qed.

Lemma gt0_not_lt0 x : gt0 x = true -> lt0 x = false.
Proof.
  intros H. unfold lt0. rewrite FloatAxioms.ltb_spec, Prim2SF_zero.
  destruct (gt0_inv x H) as [m [E|[e E]]]; rewrite E; reflexivity.
Qed.

(** A number that is neither above nor below 0 is a zero or missing. *)
Lemma neither_exact_zero x :
  gt0 x = false -> lt0 x = false -> Exact.value x = 0%Q.
Proof.
  unfold gt0, lt0, Exact.value. rewrite !FloatAxioms.ltb_spec, Prim2SF_zero.
  destruct (Prim2SF x) as [s|s| |[] m e]; simpl; try reflexivity; discriminate.
Qed.

Lemma fillna0_signed s x :
  signed s (Prim2SF x) = true -> signed s (Prim2SF (Float64.fillna0 x)) = true.
Proof.
  intros H. unfold Float64.fillna0. destruct (Float64.isnan x); auto.
Qed.

Lemma add_signed s x y :
  signed s (Prim2SF x) = true -> signed s (Prim2SF y) = true ->
  signed s (Prim2SF (x + y)) = true.
Proof.
  intros Hx Hy. rewrite FloatAxioms.add_spec. now apply SFadd_signed.
Qed.

Lemma add_all_signed s xs : forall start,
  signed s (Prim2SF start) = true ->
  Forall (fun x => signed s (Prim2SF x) = true) xs ->
  signed s (Prim2SF (Float64.add_all start xs)) = true.
Proof.
  unfold Float64.add_all.
  induction xs as [|x xs IH]; intros start Hstart Hxs; simpl; auto.
  inversion Hxs; subst.
  apply IH; auto. now apply add_signed.
Qed.

Lemma lane_Forall (P : float -> Prop) xs : forall k,
  Forall P xs -> Forall P (Float64.lane k xs).
Proof.
  induction xs as [|x xs IH]; intros k H; simpl; [constructor|].
  inversion H; subst. destruct k; [constructor|]; auto.
Qed.

Lemma accumulator_signed s k xs :
  Forall (fun x => signed s (Prim2SF x) = true) xs ->
  signed s (Prim2SF (Float64.accumulator k xs)) = true.
Proof.
  intros H. unfold Float64.accumulator.
  pose proof (lane_Forall _ xs k H) as Hl.
  destruct (Float64.lane k xs) as [|x ys]; [reflexivity|].
  inversion Hl; subst. now apply add_all_signed.
Qed.

Lemma firstn_Forall {A : Type} (P : A -> Prop) n : forall xs,
  Forall P xs -> Forall P (firstn n xs).
Proof.
  induction n as [|n IH]; intros xs H; simpl; [constructor|].
  destruct xs as [|x xs]; [constructor|].
  inversion H; subst. constructor; auto.
Qed.

Lemma skipn_Forall {A : Type} (P : A -> Prop) n : forall xs,
  Forall P xs -> Forall P (skipn n xs).
Proof.
  induction n as [|n IH]; intros xs H; simpl; [exact H|].
  destruct xs as [|x xs]; [constructor|].
  inversion H; subst. auto.
Qed.

Lemma block_sum_signed s xs :
  Forall (fun x => signed s (Prim2SF x) = true) xs ->
  signed s (Prim2SF (Float64.block_sum xs)) = true.
Proof.
  intros H. unfold Float64.block_sum.
  apply add_all_signed; [|now apply skipn_Forall].
  repeat apply add_signed; apply accumulator_signed; now apply firstn_Forall.
Qed.

Lemma pairwise_sum_signed s fuel : forall xs,
  Forall (fun x => signed s (Prim2SF x) = true) xs ->
  signed s (Prim2SF (Float64.pairwise_sum fuel xs)) = true.
Proof.
  induction fuel as [|fuel IH]; intros xs H; simpl.
  - destruct (List.length xs <? 8)%nat; [now apply add_all_signed|].
    destruct (List.length xs <=? 128)%nat; now apply block_sum_signed.
  - destruct (List.length xs <? 8)%nat; [now apply add_all_signed|].
    destruct (List.length xs <=? 128)%nat; [now apply block_sum_signed|].
    apply add_signed; apply IH; [now apply firstn_Forall | now apply skipn_Forall].
Qed.

(** The sum of a column whose values all have one sign has that sign,
    whatever the order in which the values are added. *)
Lemma sum_signed s xs :
  Forall (fun x => signed s (Prim2SF x) = true) xs ->
  signed s (Prim2SF (Float64.sum xs)) = true.
Proof.
  intros H. unfold Float64.sum.
  apply add_signed; [reflexivity|].
  apply pairwise_sum_signed. apply Forall_forall. intros y Hy.
  apply in_map_iff in Hy. destruct Hy as (x & <- & Hx).
  apply fillna0_signed. exact (proj1 (Forall_forall _ xs) H x Hx).
Qed.

(** The recursion of [pairwise_sum] never runs out: any fuel from the length
    of the column on gives the same sum. *)
Lemma pairwise_sum_fuel fuel : forall xs fuel',
  List.length xs <= fuel -> List.length xs <= fuel' ->
  Float64.pairwise_sum fuel xs = Float64.pairwise_sum fuel' xs.
Proof.
  induction fuel as [|fuel IH]; intros xs fuel' H H'.
  - destruct xs; [|simpl in H; lia]. destruct fuel'; reflexivity.
  - destruct fuel' as [|fuel'].
    + destruct xs; [reflexivity | simpl in H'; lia].
    + cbn [Float64.pairwise_sum]. cbv zeta.
      destruct (List.length xs <? 8)%nat; [reflexivity|].
      destruct (List.length xs <=? 128)%nat eqn:E; [reflexivity|].
      apply Nat.leb_gt in E.
      set (n2 := (List.length xs / 2 - (List.length xs / 2) mod 8)%nat).
      assert (Hn2 : 1 <= n2 < List.length xs).
      { unfold n2.
        pose proof (Nat.mod_upper_bound (List.length xs / 2) 8 ltac:(lia)).
        assert (List.length xs / 2 < List.length xs)
          by (apply Nat.div_lt; lia).
        assert (64 <= List.length xs / 2)
          by (apply Nat.div_le_lower_bound; lia).
        lia. }
      f_equal; apply IH; rewrite ?length_firstn, ?length_skipn; lia.
Qed.

Lemma eqb0_true_inv x : (x =? 0) = true -> exists s, Prim2SF x = S754_zero s.
Proof.
  rewrite FloatAxioms.eqb_spec, Prim2SF_zero.
  destruct (Prim2SF x) as [s|[]| |[] m e]; try discriminate.
  intros _; now exists s.
Qed.

(** A positive number, finite or not, divided by a zero of either sign
    taken in absolute value is [+infinity]. *)
Lemma div_by_abs_zero x y :
  signed false (Prim2SF x) = true -> (x =? 0) = false -> (y =? 0) = true ->
  x / abs y = infinity.
Proof.
  intros Hs Hx Hy. apply Prim2SF_inj.
  rewrite FloatAxioms.div_spec, FloatAxioms.abs_spec, Prim2SF_infinity.
  destruct (eqb0_true_inv y Hy) as [sy Ey]. rewrite Ey.
  rewrite FloatAxioms.eqb_spec, Prim2SF_zero in Hx.
  destruct (Prim2SF x) as [s|[]| |[] m e]; try discriminate; reflexivity.
Qed.
End Float64Facts.

(** ** Frames *)

Section FrameFacts.
Lemma has_trade_columns_In df name :
  has_trade_columns df = true -> In name Trade_fields -> has_column df name = true.
Proof.
  unfold has_trade_columns. rewrite forallb_forall. auto.
Qed.

Lemma getattr_ok {A : Type} df name (field : Trade -> A) :
  has_column df name = true ->
  getattr df name field = Ok (map (fun r => field (snd r)) (rows df)).
Proof.
  intros H. unfold getattr. now rewrite H.
Qed.

Lemma map_snd_combine {A B : Type} (xs : list A) (ys : list B) :
  List.length xs = List.length ys -> map snd (combine xs ys) = ys.
Proof.
  revert ys; induction xs as [|x xs IH]; intros [|y ys] H; simpl in *;
    try discriminate; auto.
  f_equal. apply IH. lia.
Qed.

Lemma rows_of_list l : map snd (rows (DataFrame_of_list l)) = l.
Proof.
  destruct l as [|t l]; [reflexivity|].
  unfold DataFrame_of_list, rows.
  apply map_snd_combine. now rewrite length_map, length_seq.
Qed.

Lemma columns_of_list l :
  l <> [] -> columns (DataFrame_of_list l) = Trade_dtypes (exit_date_dtype l).
Proof.
  destruct l; [congruence | reflexivity].
Qed.

Lemma trades_of_as_frame trades :
  map snd (rows (as_frame trades)) = trades_of trades.
Proof.
  destruct trades as [l|df]; simpl; [apply rows_of_list | reflexivity].
Qed.

(** Converting a populated argument gives a frame with every column of
    [Trade] and at least one row. *)
Lemma populated_as_frame trades :
  populated trades ->
  has_trade_columns (as_frame trades) = true /\ rows (as_frame trades) <> [].
Proof.
  destruct trades as [l|df]; simpl; auto.
  intros Hl. split.
  - destruct l; [congruence | reflexivity].
  - intros E. apply Hl. rewrite <- (rows_of_list l), E. reflexivity.
Qed.

Lemma filter_map_comm {A B : Type} (f : A -> B) (p : B -> bool) xs :
  map f (filter (fun x => p (f x)) xs) = filter p (map f xs).
Proof.
  induction xs as [|x xs IH]; simpl; auto.
  destruct (p (f x)); simpl; now rewrite IH.
Qed.

Lemma map_map_snd {A : Type} (field : Trade -> A) (rs : list (Label * Trade)) :
  map (fun r => field (snd r)) rs = map field (map snd rs).
Proof. now rewrite map_map. Qed.

Lemma iloc_0_cons {A : Type} (x : A) xs : iloc (x :: xs) 0 = Ok x.
Proof.
  unfold iloc. cbn [Z.ltb Z.compare].
  assert (E : ((0 <=? 0)%Z && (0 <? Z.of_nat (List.length (x :: xs)))%Z) = true).
  { apply andb_true_intro. split; [reflexivity | apply Z.ltb_lt; simpl List.length; lia]. }
  rewrite E. reflexivity.
Qed.

Lemma last_default {A : Type} (xs : list A) x d d' :
  last (x :: xs) d = last (x :: xs) d'.
Proof.
  revert x; induction xs as [|y xs IH]; intros x; [reflexivity|].
  change (last (y :: xs) d = last (y :: xs) d'). apply IH.
Qed.

Lemma nth_error_last {A : Type} (xs : list A) : forall x,
  nth_error (x :: xs) (List.length xs) = Some (last xs x).
Proof.
  induction xs as [|y xs IH]; intros x; [reflexivity|].
  change (nth_error (y :: xs) (List.length xs) = Some (last (y :: xs) x)).
  rewrite IH. f_equal. destruct xs as [|z xs]; [reflexivity|].
  change (last (z :: xs) y = last (z :: xs) x). apply last_default.
Qed.

Lemma iloc_last {A : Type} (x : A) xs : iloc (x :: xs) (-1) = Ok (last xs x).
Proof.
  unfold iloc. cbn [Z.ltb Z.compare].
  assert (E : (Z.of_nat (List.length (x :: xs)) + -1)%Z = Z.of_nat (List.length xs)).
  { simpl List.length. lia. }
  rewrite E.
  assert (E' : ((0 <=? Z.of_nat (List.length xs))%Z
           && (Z.of_nat (List.length xs) <? Z.of_nat (List.length (x :: xs)))%Z) = true).
  { apply andb_true_intro. split;
      [apply Z.leb_le; lia | apply Z.ltb_lt; simpl List.length; lia]. }
  rewrite E', Nat2Z.id, nth_error_last. reflexivity.
Qed.
End FrameFacts.

(** ** The formulas on a populated argument *)

Section FormulaFacts.
Import CalculatePerformanceSummary.
Local Open Scope float_scope.

Lemma populated_column trades name :
  populated trades -> In name Trade_fields ->
  has_column (as_frame trades) name = true.
Proof.
  intros H Hin. destruct (populated_as_frame trades H) as [Hc _].
  now apply has_trade_columns_In.
Qed.

Lemma column_of_trades {A : Type} trades (field : Trade -> A) :
  map (fun r => field (snd r)) (rows (as_frame trades))
  = map field (trades_of trades).
Proof.
  now rewrite map_map_snd, trades_of_as_frame.
Qed.

Lemma net_profit_eq trades :
  has_column (as_frame trades) "profit" = true ->
  net_profit trades = Ok (Float64.sum (map profit (trades_of trades))).
Proof.
  intros H. unfold net_profit.
  rewrite (getattr_ok _ _ _ H). simpl. now rewrite column_of_trades.
Qed.

Lemma where_profit_eq trades mask :
  has_column (as_frame trades) "profit" = true ->
  exists df,
    where_ (as_frame trades) "profit" profit mask = Ok df /\
    columns df = columns (as_frame trades) /\
    map profit (map snd (rows df)) = filter mask (map profit (trades_of trades)).
Proof.
  intros H. unfold where_. rewrite (getattr_ok _ _ _ H). simpl.
  eexists; split; [reflexivity|]. split; [reflexivity|]. simpl.
  rewrite <- trades_of_as_frame, <- !map_map_snd.
  apply (filter_map_comm (fun r => profit (snd r)) mask).
Qed.

Lemma gross_profit_eq trades :
  has_column (as_frame trades) "profit" = true ->
  gross_profit trades = Ok (Float64.sum (filter gt0 (map profit (trades_of trades)))).
Proof.
  intros H. unfold gross_profit.
  destruct (where_profit_eq trades gt0 H) as (df & -> & Hc & Hp). simpl.
  rewrite getattr_ok by (unfold has_column in *; now rewrite Hc).
  simpl. now rewrite map_map_snd, Hp.
Qed.

Lemma gross_loss_eq trades :
  has_column (as_frame trades) "profit" = true ->
  gross_loss trades = Ok (Float64.sum (filter lt0 (map profit (trades_of trades)))).
Proof.
  intros H. unfold gross_loss.
  destruct (where_profit_eq trades lt0 H) as (df & -> & Hc & Hp). simpl.
  rewrite getattr_ok by (unfold has_column in *; now rewrite Hc).
  simpl. now rewrite map_map_snd, Hp.
Qed.

(** Whatever [gross_profit] returns was computed from a frame that has the
    profit column. *)
Lemma gross_profit_inv trades gp :
  gross_profit trades = Ok gp -> has_column (as_frame trades) "profit" = true.
Proof.
  unfold gross_profit, where_, getattr.
  destruct (has_column (as_frame trades) "profit"); [auto | discriminate].
Qed.

Lemma filter_Forall {A : Type} (p : A -> bool) xs :
  Forall (fun x => p x = true) (filter p xs).
Proof.
  apply Forall_forall. intros x Hx. now apply filter_In in Hx.
Qed.

Lemma winners_sum_signed xs :
  signed false (Prim2SF (Float64.sum (filter gt0 xs))) = true.
Proof.
  apply sum_signed. eapply Forall_impl; [|apply filter_Forall].
  intros x. apply gt0_signed.
Qed.

Lemma losers_sum_signed xs :
  signed true (Prim2SF (Float64.sum (filter lt0 xs))) = true.
Proof.
  apply sum_signed. eapply Forall_impl; [|apply filter_Forall].
  intros x. apply lt0_signed.
Qed.

(** In exact arithmetic the winning and the losing profits make up the
    whole: what is left over is zero or missing. *)
Lemma exact_sum_split xs :
  (Exact.sum xs == Exact.sum (filter gt0 xs) + Exact.sum (filter lt0 xs))%Q.
Proof.
  induction xs as [|x xs IH]; simpl; [reflexivity|].
  destruct (gt0 x) eqn:Hg.
  - rewrite (gt0_not_lt0 x Hg). simpl. rewrite IH. ring.
  - destruct (lt0 x) eqn:Hl; simpl.
    + rewrite IH. ring.
    + rewrite (neither_exact_zero x Hg Hl), IH. ring.
Qed.
End FormulaFacts.

(** ** Gross profit, gross loss and net profit *)

Section ProfitClaims.
Import CalculatePerformanceSummary.
Local Open Scope float_scope.

(** C3 (as amended).  For every populated trade collection the three sums
    are returned; Gross Profit, the binary64 sum of the profits above 0, is
    [>= 0]; Gross Loss, the binary64 sum of the profits below 0, is [<= 0],
    an infinity included in either case; and the profits themselves split
    exactly: in exact arithmetic their sum is the sum of those above 0 plus
    the sum of those below 0.  Nothing is said of the three values returned
    among themselves: each is rounded on its own and may overflow. *)
Theorem gross_profit_nonneg_gross_loss_nonpos (trades : trades_arg) :
  populated trades ->
  let profits := map profit (trades_of trades) in
  gross_profit trades = Ok (Float64.sum (filter gt0 profits)) /\
  gross_loss trades = Ok (Float64.sum (filter lt0 profits)) /\
  net_profit trades = Ok (Float64.sum profits) /\
  (0 <=? Float64.sum (filter gt0 profits)) = true /\
  (Float64.sum (filter lt0 profits) <=? 0) = true /\
  (Exact.sum profits
   == Exact.sum (filter gt0 profits) + Exact.sum (filter lt0 profits))%Q.
Proof.
  intros H profits.
  assert (Hc : has_column (as_frame trades) "profit" = true).
  { apply populated_column; [exact H | simpl; tauto]. }
  split; [now apply gross_profit_eq|].
  split; [now apply gross_loss_eq|].
  split; [now apply net_profit_eq|].
  split; [rewrite leb0_signed; apply winners_sum_signed|].
  split; [rewrite leb_0_signed; apply losers_sum_signed|].
  apply exact_sum_split.
Qed.

Lemma gross_profit_nonneg_gross_loss_nonpos_witness :
  gross_profit (AsList Sample.small_profits) = Ok 0x1.3333333333334p-2 /\
  gross_loss (AsList Sample.small_profits) = Ok (- Sample.three_tenths) /\
  (0 <=? 0x1.3333333333334p-2) = true /\
  (- Sample.three_tenths <=? 0) = true.
Proof.
  destruct (gross_profit_nonneg_gross_loss_nonpos (AsList Sample.small_profits))
    as (Hp & Hl & _ & Hp0 & Hl0 & _).
  - simpl. discriminate.
  - split; [exact Hp|]. split; [exact Hl|]. split; [exact Hp0 | exact Hl0].
Defined.

(** C3, as stated, fails, by rounding and by overflow: on the profits 0.1,
    -0.3, 0.2 the Net Profit returned is 2^-55 while Gross Profit + Gross
    Loss is 2^-54; on the profits 2^1023, 2^1023, -2^1023, -2^1023 the Net
    Profit returned is +infinity, Gross Profit is +infinity, Gross Loss is
    -infinity, and their sum is NaN. *)
Lemma net_profit_is_not_gross_profit_plus_gross_loss :
  (exists np gp gl,
     net_profit (AsList Sample.small_profits) = Ok np /\
     gross_profit (AsList Sample.small_profits) = Ok gp /\
     gross_loss (AsList Sample.small_profits) = Ok gl /\
     np = 0x1p-55 /\ gp + gl = 0x1p-54 /\ (np =? gp + gl) = false) /\
  (net_profit (AsList Sample.huge_profits) = Ok infinity /\
   gross_profit (AsList Sample.huge_profits) = Ok infinity /\
   gross_loss (AsList Sample.huge_profits) = Ok neg_infinity /\
   infinity + neg_infinity = nan /\
   (infinity =? infinity + neg_infinity) = false).
Proof.
  split.
  - do 3 eexists. repeat split; reflexivity.
  - repeat split; reflexivity.
Qed.

(** C2 (as amended).  Profit Factor returns Gross Profit itself exactly when
    Gross Profit is 0; otherwise it returns the quotient by |Gross Loss|,
    and when Gross Loss is 0 that quotient is +infinity. *)
Theorem profit_factor_without_losses_is_infinite (trades : trades_arg) gp gl :
  gross_profit trades = Ok gp ->
  gross_loss trades = Ok gl ->
  ((gp =? 0) = true -> profit_factor trades = Ok gp) /\
  ((gp =? 0) = false -> profit_factor trades = Ok (gp / abs gl)) /\
  ((gp =? 0) = false -> (gl =? 0) = true -> profit_factor trades = Ok infinity).
Proof.
  intros Hp Hl.
  assert (Hpf : profit_factor trades
                = if negb (gp =? 0) then Ok (gp / abs gl) else Ok gp).
  { unfold profit_factor.
    change (gross_profit (AsFrame (as_frame trades))) with (gross_profit trades).
    change (gross_loss (AsFrame (as_frame trades))) with (gross_loss trades).
    rewrite Hp, Hl. reflexivity. }
  split; [|split].
  - intros E. now rewrite Hpf, E.
  - intros E. now rewrite Hpf, E.
  - intros E E0. rewrite Hpf, E. simpl. f_equal.
    apply div_by_abs_zero; auto.
    pose proof (gross_profit_inv _ _ Hp) as Hc.
    rewrite (gross_profit_eq _ Hc) in Hp. inversion Hp; subst gp.
    apply winners_sum_signed.
Qed.

Lemma profit_factor_without_losses_is_infinite_witness :
  profit_factor (AsList Sample.two_winners) = Ok infinity.
Proof.
  apply (profit_factor_without_losses_is_infinite
           (AsList Sample.two_winners) 20 0); reflexivity.
Defined.

(** C2, as stated, fails: with two winning trades of 10 each and no losing
    trade, Gross Loss is 0, Gross Profit is 20 and Profit Factor is
    +infinity, not 20. *)
Lemma profit_factor_is_not_gross_profit :
  gross_loss (AsList Sample.two_winners) = Ok 0 /\
  gross_profit (AsList Sample.two_winners) = Ok 20 /\
  (20 =? 0) = false /\
  profit_factor (AsList Sample.two_winners) = Ok infinity /\
  profit_factor (AsList Sample.two_winners) <> Ok 20.
Proof.
  repeat split; try reflexivity.
  intros H. apply (f_equal (fun r => match r with
                                     | Ok x => x =? 20
                                     | Raise _ => false
                                     end)) in H.
  discriminate H.
Qed.
End ProfitClaims.

(** ** The empty collection *)

Section EmptyCollection.
Context {pandas : Pandas}.
Import CalculatePerformanceSummary.

(** The first formula the orchestrator evaluates is [net_profit]: when it
    raises, the orchestrator raises the same exception. *)
Lemma performance_summary_first_metric trades e :
  net_profit trades = Raise e ->
  PerformanceSummary.performance_summary trades = Raise e.
Proof.
  intros H. unfold PerformanceSummary.performance_summary. now rewrite H.
Qed.

Lemma filter_none {A : Type} (p : A -> bool) xs :
  (forall x, In x xs -> p x = false) -> filter p xs = [].
Proof.
  induction xs as [|x xs IH]; intros H; simpl; auto.
  rewrite (H x) by (now left). apply IH. intros y Hy. apply H. now right.
Qed.

(** C10.  The empty list converts to a frame without columns, so the first
    metric, Net Profit, raises on reading the profit column, and with it
    [performance_summary]; the base of the percentages has no first trade
    either.  This is what [performance_summary_short] meets when no trade
    is short. *)
Theorem performance_summary_of_empty_list_raises :
  columns (DataFrame_of_list []) = [] /\
  net_profit (AsList []) = Raise AttributeError /\
  initial_capital (AsList []) = Raise IndexError /\
  PerformanceSummary.performance_summary (AsList []) = Raise AttributeError /\
  (forall self_trades : list Trade,
     (forall t, In t self_trades -> type t = LONG) ->
     DataFrameTV.performance_summary_short self_trades = Raise AttributeError).
Proof.
  split; [reflexivity|]. split; [reflexivity|]. split; [reflexivity|].
  split; [now apply performance_summary_first_metric|].
  intros self_trades H. unfold DataFrameTV.performance_summary_short.
  rewrite filter_none.
  - now apply performance_summary_first_metric.
  - intros t Ht. now rewrite (H t Ht).
Qed.

End EmptyCollection.

Lemma performance_summary_of_empty_list_raises_witness :
  DataFrameTV.performance_summary_short Sample.long_only = Raise AttributeError.
Proof.
  apply (proj2 (proj2 (proj2 (proj2
           (performance_summary_of_empty_list_raises (pandas := PandasRef.pandas)))))).
  intros t [<-|[<-|[]]]; reflexivity.
Defined.

(** ** Buy and hold *)

Section BuyAndHold.
Import CalculatePerformanceSummary.
Local Open Scope float_scope.

Lemma rows_cons_inv (rs : list (Label * Trade)) first rest :
  map snd rs = first :: rest ->
  exists r rs', rs = r :: rs' /\ snd r = first /\ map snd rs' = rest.
Proof.
  destruct rs as [|r rs']; simpl; intros H; inversion H. eauto.
Qed.

Lemma last_map {A B : Type} (f : A -> B) xs x :
  f (last xs x) = last (map f xs) (f x).
Proof.
  revert x; induction xs as [|y xs IH]; intros x; [reflexivity|].
  destruct xs as [|z xs]; [reflexivity|].
  change (f (last (z :: xs) x) = last (map f (z :: xs)) (f x)). apply IH.
Qed.

(** C5.  On a populated collection Buy and Hold is (last price - first
    trade's entry price) x first trade's size, where the last price is the
    last trade's exit price, or its entry price when the exit price is
    missing. *)
Theorem buy_and_hold_first_entry_to_last_exit (trades : trades_arg) first rest :
  populated trades ->
  trades_of trades = first :: rest ->
  let final := last rest first in
  let last_price :=
    if Float64.isnan (exit_price final) then entry_price final
    else exit_price final in
  buy_and_hold trades = Ok ((last_price - entry_price first) * contract first).
Proof.
  intros H E final last_price.
  pose proof (populated_column trades "entry_price" H) as Hentry.
  pose proof (populated_column trades "exit_price" H) as Hexit.
  pose proof (populated_column trades "contract" H) as Hsize.
  unfold buy_and_hold.
  rewrite (getattr_ok _ _ entry_price) by (apply Hentry; simpl; tauto).
  rewrite (getattr_ok _ _ contract) by (apply Hsize; simpl; tauto).
  rewrite !column_of_trades, E. simpl map. cbn [bind]. rewrite !iloc_0_cons.
  cbn [bind]. unfold iloc_getattr.
  rewrite Hentry by (simpl; tauto). rewrite Hexit by (simpl; tauto).
  rewrite <- trades_of_as_frame in E.
  destruct (rows_cons_inv _ _ _ E) as (r & rs & -> & Hr & Hrs).
  rewrite iloc_last. cbn [bind].
  assert (Hf : snd (last rs r) = final).
  { unfold final. rewrite (last_map snd), Hr, Hrs. reflexivity. }
  rewrite !Hf. fold last_price.
  destruct (Float64.isnan (exit_price final)); reflexivity.
Qed.

Lemma buy_and_hold_first_entry_to_last_exit_witness :
  buy_and_hold (AsList Sample.falling_market) = Ok (-20).
Proof.
  apply (buy_and_hold_first_entry_to_last_exit (AsList Sample.falling_market)
           (Sample.trade LONG (Sample.day 2022 6 1) (Sample.day 2022 6 2) 100 95 2 (-10))
           [Sample.trade LONG (Sample.day 2022 6 3) (Sample.day 2022 6 4) 95 90 1 (-5)]).
  - simpl. discriminate.
  - reflexivity.
Defined.
End BuyAndHold.

(** ** Closed and open trades *)

Section ClosedAndOpen.
Import CalculatePerformanceSummary.

(** Given a frame, Total Closed Trades is the number of its rows. *)
Lemma total_closed_trades_of_frame df :
  total_closed_trades (AsFrame df) = Ok (len df).
Proof. reflexivity. Qed.


(** C7, at a frame that holds one trade whose size is missing: the frame
    path counts the trade as closed and as open, 1 + 1 for a collection of
    size 1, where the list path counts it as open only. *)
Theorem total_closed_trades_of_frame_counts_open_trade :
  len Sample.open_frame = 1 /\
  total_closed_trades (AsFrame Sample.open_frame) = Ok 1 /\
  total_open_trades (AsFrame Sample.open_frame) = Ok 1 /\
  total_closed_trades (AsList [Sample.open_trade]) = Ok 0 /\
  total_open_trades (AsList [Sample.open_trade]) = Ok 1.
Proof.
  repeat split; reflexivity.
Qed.
End ClosedAndOpen.

(** ** The trade reducer *)

Section ReducerClaims.
Context {pandas : Pandas}.

Lemma iloc_1_pair {A : Type} (x y : A) : iloc [x; y] 1 = Ok y.
Proof. reflexivity. Qed.

Lemma iloc_1_cons {A : Type} (x y : A) rest : iloc (x :: y :: rest) 1 = Ok y.
Proof.
  unfold iloc. cbn [Z.ltb Z.compare].
  assert (E : ((0 <=? 1)%Z && (1 <? Z.of_nat (List.length (x :: y :: rest)))%Z) = true).
  { apply andb_true_intro. split; [reflexivity | apply Z.ltb_lt; simpl List.length; lia]. }
  rewrite E. reflexivity.
Qed.

Lemma not_whitespace_not_space c :
  AsSpecified.is_whitespace c = false -> Ascii.eqb c space = false.
Proof.
  intros H. destruct (Ascii.eqb c space) eqn:E; [|reflexivity].
  apply Ascii.eqb_eq in E. subst c. discriminate H.
Qed.

Lemma split_word_then_space role rest :
  AsSpecified.no_whitespace role = true ->
  Str.split space (role ++ String space rest) = role :: Str.split space rest.
Proof.
  induction role as [|c role IH]; simpl; intros H; [reflexivity|].
  apply andb_prop in H. destruct H as [Hc Hrole].
  apply negb_true_iff in Hc.
  change (Ascii.eqb c " ") with (Ascii.eqb c space).
  rewrite (not_whitespace_not_space c Hc), (IH Hrole). reflexivity.
Qed.

Lemma split_word s :
  AsSpecified.no_whitespace s = true -> Str.split space s = [s].
Proof.
  induction s as [|c s IH]; simpl; intros H; [reflexivity|].
  apply andb_prop in H. destruct H as [Hc Hs].
  apply negb_true_iff in Hc.
  change (Ascii.eqb c " ") with (Ascii.eqb c space).
  rewrite (not_whitespace_not_space c Hc), (IH Hs). reflexivity.
Qed.

Lemma tokens_from_word s :
  AsSpecified.no_whitespace s = true -> AsSpecified.tokens_from s = (s, []).
Proof.
  induction s as [|c s IH]; simpl; intros H; [reflexivity|].
  apply andb_prop in H. destruct H as [Hc Hs].
  apply negb_true_iff in Hc. now rewrite (IH Hs), Hc.
Qed.

Lemma tokens_from_word_then_space role rest :
  AsSpecified.no_whitespace role = true ->
  AsSpecified.tokens_from (role ++ String space rest)
  = (role, AsSpecified.push (fst (AsSpecified.tokens_from rest))
             (snd (AsSpecified.tokens_from rest))).
Proof.
  induction role as [|c role IH]; simpl; intros H.
  - destruct (AsSpecified.tokens_from rest); reflexivity.
  - apply andb_prop in H. destruct H as [Hc Hrole].
    apply negb_true_iff in Hc. now rewrite (IH Hrole), Hc.
Qed.

(** On a Type field of the documented form, two words separated by one
    space, the split at spaces and the split on whitespace give the same
    two tokens. *)
Lemma split_of_documented_type role direction :
  AsSpecified.word role -> AsSpecified.word direction ->
  Str.split space (role ++ " " ++ direction) = [role; direction] /\
  AsSpecified.split_whitespace (role ++ " " ++ direction) = [role; direction].
Proof.
  intros [Hr Hrole] [Hd Hdir].
  change (role ++ " " ++ direction)%string
    with (role ++ String space direction)%string.
  split.
  - now rewrite (split_word_then_space role direction Hrole), (split_word _ Hdir).
  - unfold AsSpecified.split_whitespace.
    rewrite (tokens_from_word_then_space role direction Hrole).
    rewrite (tokens_from_word _ Hdir). simpl.
    destruct direction; [congruence|]. destruct role; [congruence | reflexivity].
Qed.

(** Splitting at the spaces: the text before the first space is the first
    piece, the text up to the next space, or to the end, the second. *)
Lemma split_before_space first rest :
  contains space first = false ->
  Str.split space (first ++ String space rest) = first :: Str.split space rest.
Proof.
  induction first as [|c first IH]; simpl; intros H; [reflexivity|].
  apply orb_false_elim in H. destruct H as [Hc Hfirst].
  change (Ascii.eqb c " ") with (Ascii.eqb c space).
  rewrite Hc, (IH Hfirst). reflexivity.
Qed.

Lemma split_without_space s :
  contains space s = false -> Str.split space s = [s].
Proof.
  induction s as [|c s IH]; simpl; intros H; [reflexivity|].
  apply orb_false_elim in H. destruct H as [Hc Hs].
  change (Ascii.eqb c " ") with (Ascii.eqb c space).
  rewrite Hc, (IH Hs). reflexivity.
Qed.

Lemma second_piece first second tail :
  contains space first = false -> contains space second = false ->
  tail = EmptyString \/ (exists rest, tail = String space rest) ->
  iloc (Str.split space (first ++ " " ++ second ++ tail)) 1 = Ok second.
Proof.
  intros Hfirst Hsecond Htail.
  change (first ++ " " ++ second ++ tail)%string
    with (first ++ String space (second ++ tail))%string.
  rewrite (split_before_space _ _ Hfirst).
  destruct Htail as [->|(rest & ->)].
  - assert (E : (second ++ "")%string = second)
      by (clear; induction second as [|c s IH]; simpl; [reflexivity | now rewrite IH]).
    rewrite E, (split_without_space _ Hsecond). reflexivity.
  - rewrite (split_before_space _ _ Hsecond).
    destruct (Str.split space rest); [reflexivity | apply iloc_1_cons].
Qed.

(** Lower-casing gives "long" on the case variants of that word only. *)
Ltac lower_ascii_cases c :=
  destruct c as [[] [] [] [] [] [] [] []]; vm_compute;
  (split; [intros H; try discriminate H; auto
          | intros [H|H]; try discriminate H; reflexivity]).

Lemma lower_ascii_l c :
  Str.lower_ascii c = "l"%char <-> (c = "l" \/ c = "L")%char.
Proof. lower_ascii_cases c. Qed.

Lemma lower_ascii_o c :
  Str.lower_ascii c = "o"%char <-> (c = "o" \/ c = "O")%char.
Proof. lower_ascii_cases c. Qed.

Lemma lower_ascii_n c :
  Str.lower_ascii c = "n"%char <-> (c = "n" \/ c = "N")%char.
Proof. lower_ascii_cases c. Qed.

Lemma lower_ascii_g c :
  Str.lower_ascii c = "g"%char <-> (c = "g" \/ c = "G")%char.
Proof. lower_ascii_cases c. Qed.

Lemma lower_is_long s :
  Str.lower s = "long" <-> AsSpecified.spells_long s.
Proof.
  unfold AsSpecified.spells_long. split.
  - destruct s as [|c1 [|c2 [|c3 [|c4 [|c5 s]]]]]; simpl; intros H;
      try discriminate H.
    injection H as H1 H2 H3 H4.
    exists c1, c2, c3, c4. split; [reflexivity|].
    split; [now apply lower_ascii_l|]. split; [now apply lower_ascii_o|].
    split; [now apply lower_ascii_n | now apply lower_ascii_g].
  - intros (c1 & c2 & c3 & c4 & -> & H1 & H2 & H3 & H4). simpl.
    apply lower_ascii_l in H1. apply lower_ascii_o in H2.
    apply lower_ascii_n in H3. apply lower_ascii_g in H4.
    now rewrite H1, H2, H3, H4.
Qed.

(** C6 (as amended).  On a group of two rows [convert] takes the second
    row as the entry row and the first as the exit row.  The direction is
    read from the entry row's Type, cut at the single spaces: the second
    piece, which is the text between the first space and the next one or
    the end (and is empty when two spaces follow each other), gives long
    when it is a case variant of the word long, and short otherwise.  Price,
    contracts, signal, profit, percent, drawdown, run-up and cumulative
    fields and the entry time come from the entry row; time, price and
    signal of the exit from the exit row. *)
Theorem convert_takes_entry_from_second_row
    (exit_row entry_row : RawRow) (first second tail : string)
    (entered exited : Timestamp) :
  raw_type entry_row = (first ++ " " ++ second ++ tail)%string ->
  contains space first = false -> contains space second = false ->
  tail = EmptyString \/ (exists rest, tail = String space rest) ->
  to_datetime (raw_date_time entry_row) = Ok entered ->
  to_datetime (raw_date_time exit_row) = Ok exited ->
  exists trade,
    ConvertTradeTV.convert [exit_row; entry_row] = Ok trade /\
    (type trade = LONG <-> AsSpecified.spells_long second) /\
    (type trade = SHORT <-> ~ AsSpecified.spells_long second) /\
    entry_date trade = entered /\
    entry_price trade = raw_price entry_row /\
    contract trade = raw_contracts entry_row /\
    entry_signal trade = raw_signal entry_row /\
    exit_date trade = Some exited /\
    exit_price trade = raw_price exit_row /\
    exit_signal trade = raw_signal exit_row /\
    profit trade = raw_profit entry_row /\
    profit_percent trade = raw_profit_percent entry_row /\
    draw_down trade = raw_draw_down entry_row /\
    draw_down_percent trade = raw_draw_down_percent entry_row /\
    run_up trade = raw_run_up entry_row /\
    run_up_percent trade = raw_run_up_percent entry_row /\
    cum_profit trade = raw_cum_profit entry_row /\
    cum_profit_percent trade = raw_cum_profit_percent entry_row.
Proof.
  intros Htype Hfirst Hsecond Htail Hin Hout. unfold ConvertTradeTV.convert.
  rewrite iloc_1_pair, iloc_0_cons. cbn [bind].
  rewrite Htype, (second_piece _ _ _ Hfirst Hsecond Htail). cbn [bind].
  rewrite Hin, Hout. cbn [bind].
  eexists. split; [reflexivity|]. cbn.
  rewrite <- lower_is_long.
  destruct (String.eqb_spec (Str.lower second) "long") as [E|E].
  - split; [tauto|]. split; [|repeat split]. split; [discriminate | tauto].
  - split; [split; [discriminate | tauto]|]. split; [tauto | repeat split].
Qed.

(** The filter of [__init__] measures the pair (key, group) that the
    iteration yields, which has length 2 whatever the group holds: no group
    is dropped. *)
Lemma init_filter_keeps_every_group (trades : list RawRow) :
  filter (fun trade => (DataFrameTV.len_tuple trade =? 2)%nat)
    (DataFrameTV.groupby_trade_no trades)
  = DataFrameTV.groupby_trade_no trades.
Proof.
  generalize (DataFrameTV.groupby_trade_no trades). intros gs.
  induction gs as [|g gs IH]; [reflexivity|].
  cbn [filter]. unfold DataFrameTV.len_tuple at 1. cbn [Nat.eqb]. now rewrite IH.
Qed.

Lemma mapM_length {A B : Type} (f : A -> result B) xs : forall ys,
  mapM f xs = Ok ys -> List.length ys = List.length xs.
Proof.
  induction xs as [|x xs IH]; simpl; intros ys H.
  - inversion H; reflexivity.
  - destruct (f x); simpl in H; [|discriminate].
    destruct (mapM f xs); simpl in H; [|discriminate].
    inversion H; subst. simpl. f_equal. now apply IH.
Qed.

(** When the reducer returns, it returns one trade per distinct
    identifier. *)
Lemma init_length (trades : list RawRow) out :
  DataFrameTV.init trades = Ok out ->
  List.length out = List.length (DataFrameTV.group_keys trades).
Proof.
  unfold DataFrameTV.init. rewrite init_filter_keeps_every_group. intros H.
  apply mapM_length in H. rewrite H.
  unfold DataFrameTV.groupby_trade_no. now rewrite length_map.
Qed.

Lemma init_nil : DataFrameTV.init [] = Ok [].
Proof. reflexivity. Qed.

Lemma insert_key_In k ks x :
  In x (DataFrameTV.insert_key k ks) <-> x = k \/ In x ks.
Proof.
  induction ks as [|k' ks IH]; simpl.
  - intuition.
  - destruct (k <? k')%Z; simpl; [intuition|].
    destruct (k =? k')%Z eqn:E; simpl.
    + apply Z.eqb_eq in E. subst k'. intuition.
    + rewrite IH. intuition.
Qed.

Lemma group_keys_In (trades : list RawRow) r :
  In r trades -> In (raw_trade_no r) (DataFrameTV.group_keys trades).
Proof.
  unfold DataFrameTV.group_keys.
  induction trades as [|r' trades IH]; simpl; [tauto|].
  rewrite insert_key_In. intros [->|H]; auto.
Qed.

Lemma mapM_raises_some {A B : Type} (f : A -> result B) xs x e :
  In x xs -> f x = Raise e -> exists e', mapM f xs = Raise e'.
Proof.
  induction xs as [|y xs IH]; intros Hin Hx; [contradiction|].
  simpl. destruct (f y) as [b|e0] eqn:Hy; [|now exists e0].
  destruct Hin as [->|Hin]; [congruence|].
  destruct (IH Hin Hx) as (e' & ->). now exists e'.
Qed.

(** Whenever an identifier appears on exactly one row, the reducer raises. *)
Lemma init_raises_on_single_row (trades : list RawRow) r :
  In r trades ->
  filter (fun r' => (raw_trade_no r' =? raw_trade_no r)%Z) trades = [r] ->
  exists e, DataFrameTV.init trades = Raise e.
Proof.
  intros Hin Hgroup. unfold DataFrameTV.init.
  rewrite init_filter_keeps_every_group.
  apply (mapM_raises_some _ _ (raw_trade_no r, [r]) IndexError); [|reflexivity].
  unfold DataFrameTV.groupby_trade_no. apply in_map_iff.
  exists (raw_trade_no r). split; [now rewrite Hgroup | now apply group_keys_In].
Qed.

(** C1, at malformed groups: an identifier with a single row makes the
    reducer raise [IndexError], and an identifier with three rows yields a
    trade, built from its first two rows. *)
Theorem init_does_not_drop_malformed_groups :
  DataFrameTV.init Sample.one_leg = Raise IndexError /\
  (exists t, DataFrameTV.init (pandas := PandasRef.pandas) Sample.three_legs = Ok [t]) /\
  List.length (DataFrameTV.group_keys Sample.three_legs) = 1.
Proof.
  split; [reflexivity|]. split; [|reflexivity].
  eexists. reflexivity.
Qed.
End ReducerClaims.

Lemma convert_takes_entry_from_second_row_witness :
  exists trade,
    ConvertTradeTV.convert
      [Sample.row 3 "Exit Long" "2022-06-02 10:00" 110 1 10;
       Sample.row 3 "Entry Long" "2022-06-01 10:00" 100 1 10] = Ok trade /\
    type trade = LONG /\
    entry_price trade = 100%float /\ exit_price trade = 110%float.
Proof.
  destruct (convert_takes_entry_from_second_row (pandas := PandasRef.pandas)
              (Sample.row 3 "Exit Long" "2022-06-02 10:00" 110 1 10)
              (Sample.row 3 "Entry Long" "2022-06-01 10:00" 100 1 10)
              "Entry" "Long" ""
              (mkTimestamp 2022 6 1 36000000000000)
              (mkTimestamp 2022 6 2 36000000000000))
    as (trade & Htrade & Hlong & _ & _ & Hentry & _ & _ & _ & Hexit & _).
  - reflexivity.
  - reflexivity.
  - reflexivity.
  - now left.
  - reflexivity.
  - reflexivity.
  - exists trade. split; [exact Htrade|]. split; [|split; [exact Hentry | exact Hexit]].
    apply Hlong. exists "L"%char, "o"%char, "n"%char, "g"%char.
    split; [reflexivity|]. split; [now right|]. split; [now left|].
    split; now left.
Defined.

(** C6, as stated, fails: the claim splits the Type on whitespace, the code
    at single spaces.  On an entry row whose Type is Entry and Long
    separated by two spaces, the whitespace split gives the tokens Entry and
    Long, hence a long trade, while the code finds the empty text between
    the two spaces and makes the trade short. *)
Lemma convert_splits_at_single_spaces :
  AsSpecified.split_whitespace "Entry  Long" = ["Entry"; "Long"] /\
  Str.split space "Entry  Long" = ["Entry"; ""; "Long"] /\
  Str.lower "Long" = "long" /\
  exists trade,
    ConvertTradeTV.convert
      [Sample.row 3 "Exit  Long" "2022-06-02 10:00" 110 1 10;
       Sample.row 3 "Entry  Long" "2022-06-01 10:00" 100 1 10] = Ok trade /\
    type trade = SHORT.
Proof.
  split; [reflexivity|]. split; [reflexivity|]. split; [reflexivity|].
  eexists. split; reflexivity.
Qed.

(** ** The store *)

Section StoreFacts.
Lemma nth_error_app_length (s : store) o : nth_error (s ++ [o]) (List.length s) = Some o.
Proof.
  induction s as [|x s IH]; simpl; auto.
Qed.

Lemma nth_error_app_old (s : store) o a :
  a < List.length s -> nth_error (s ++ [o]) a = nth_error s a.
Proof.
  intros H. now apply nth_error_app1.
Qed.

Lemma update_app_length (s : store) o o' :
  update (s ++ [o]) (List.length s) o' = s ++ [o'].
Proof.
  induction s as [|x s IH]; simpl; [reflexivity | now rewrite IH].
Qed.

Lemma nth_error_update_same (s : store) a o :
  a < List.length s -> nth_error (update s a o) a = Some o.
Proof.
  revert a; induction s as [|x s IH]; intros [|a] H; simpl in *; try lia; auto.
  apply IH. lia.
Qed.

Lemma nth_error_update_other (s : store) a b o :
  b <> a -> nth_error (update s a o) b = nth_error s b.
Proof.
  revert a b; induction s as [|x s IH]; intros [|a] [|b] H; simpl; auto; try congruence.
Qed.

Lemma nth_error_length (s : store) a o : nth_error s a = Some o -> a < List.length s.
Proof.
  intros H. apply nth_error_Some. congruence.
Qed.
End StoreFacts.

(** ** The calls on the store *)

Create HintDb keeps.

Section CallFacts.
Context {pandas : Pandas}.

Lemma keeps_ret {A : Type} (x : A) : keeps (ret x).
Proof. intros s. exists []. simpl. now rewrite app_nil_r. Qed.

Lemma keeps_lift {A : Type} (r : result A) : keeps (lift r).
Proof. intros s. exists []. simpl. now rewrite app_nil_r. Qed.

Lemma keeps_load a : keeps (load a).
Proof.
  intros s. exists []. unfold load.
  destruct (nth_error s a); simpl; now rewrite app_nil_r.
Qed.

Lemma keeps_alloc o : keeps (alloc o).
Proof. intros s. exists [o]. reflexivity. Qed.

Lemma keeps_bind {A B : Type} (m : M A) (k : A -> M B) :
  keeps m -> (forall x, keeps (k x)) -> keeps (bindM m k).
Proof.
  intros Hm Hk s. unfold bindM. destruct (Hm s) as [fresh E].
  destruct (m s) as [[x|e] s']; simpl in E; subst s'.
  - destruct (Hk x (s ++ fresh)) as [fresh' E']. exists (fresh ++ fresh').
    now rewrite E', app_assoc.
  - now exists fresh.
Qed.

(** An assignment does not keep the store. *)
Lemma assign_does_not_keep o o' : o <> o' -> ~ keeps (assign 0 o').
Proof.
  intros Hne H. destruct (H [o]) as [fresh E]. simpl in E.
  injection E as E _. congruence.
Qed.

#[local] Hint Resolve keeps_ret keeps_lift keeps_load keeps_alloc : keeps.

Ltac keeps_steps :=
  repeat first
    [ apply keeps_bind; [|intros ?]
    | progress auto with keeps
    | progress cbv zeta
    | match goal with
      | |- keeps (match ?o with AsList _ => _ | AsFrame _ => _ end) => destruct o
      | |- keeps (if ?b then _ else _) => destruct b
      end ].

Lemma DataFrame_if_list_keeps a : keeps (OnStore.DataFrame_if_list a).
Proof. unfold OnStore.DataFrame_if_list. keeps_steps. Qed.

Lemma frame_keeps a : keeps (OnStore.frame a).
Proof. unfold OnStore.frame. keeps_steps. Qed.

#[local] Hint Resolve DataFrame_if_list_keeps frame_keeps : keeps.

Lemma column_keeps {A : Type} a name (field : Trade -> A) :
  keeps (OnStore.column a name field).
Proof. unfold OnStore.column. keeps_steps. Qed.

Lemma row_field_keeps {A : Type} a i name (field : Trade -> A) :
  keeps (OnStore.row_field a i name field).
Proof. unfold OnStore.row_field. keeps_steps. Qed.

Lemma select_keeps a name field mask :
  keeps (OnStore.select a name field mask).
Proof. unfold OnStore.select. keeps_steps. Qed.

#[local] Hint Resolve column_keeps row_field_keeps select_keeps : keeps.

Lemma initial_capital_keeps a : keeps (OnStore.initial_capital a).
Proof. unfold OnStore.initial_capital. keeps_steps. Qed.

#[local] Hint Resolve initial_capital_keeps : keeps.

Lemma net_profit_keeps a : keeps (OnStore.net_profit a).
Proof. unfold OnStore.net_profit. keeps_steps. Qed.

#[local] Hint Resolve net_profit_keeps : keeps.

Lemma net_profit_percent_keeps a : keeps (OnStore.net_profit_percent a).
Proof. unfold OnStore.net_profit_percent. keeps_steps. Qed.

#[local] Hint Resolve net_profit_percent_keeps : keeps.

Lemma gross_profit_keeps a : keeps (OnStore.gross_profit a).
Proof. unfold OnStore.gross_profit. keeps_steps. Qed.

#[local] Hint Resolve gross_profit_keeps : keeps.

Lemma gross_profit_percent_keeps a : keeps (OnStore.gross_profit_percent a).
Proof. unfold OnStore.gross_profit_percent. keeps_steps. Qed.

#[local] Hint Resolve gross_profit_percent_keeps : keeps.

Lemma gross_loss_keeps a : keeps (OnStore.gross_loss a).
Proof. unfold OnStore.gross_loss. keeps_steps. Qed.

#[local] Hint Resolve gross_loss_keeps : keeps.

Lemma gross_loss_percent_keeps a : keeps (OnStore.gross_loss_percent a).
Proof. unfold OnStore.gross_loss_percent. keeps_steps. Qed.

#[local] Hint Resolve gross_loss_percent_keeps : keeps.

Lemma max_run_up_keeps a : keeps (OnStore.max_run_up a).
Proof. unfold OnStore.max_run_up. keeps_steps. Qed.

#[local] Hint Resolve max_run_up_keeps : keeps.

Lemma max_run_up_percent_keeps a : keeps (OnStore.max_run_up_percent a).
Proof. unfold OnStore.max_run_up_percent. keeps_steps. Qed.

#[local] Hint Resolve max_run_up_percent_keeps : keeps.

Lemma max_draw_down_keeps a : keeps (OnStore.max_draw_down a).
Proof. unfold OnStore.max_draw_down. keeps_steps. Qed.

#[local] Hint Resolve max_draw_down_keeps : keeps.

Lemma max_draw_down_percent_keeps a : keeps (OnStore.max_draw_down_percent a).
Proof. unfold OnStore.max_draw_down_percent. keeps_steps. Qed.

#[local] Hint Resolve max_draw_down_percent_keeps : keeps.

Lemma buy_and_hold_keeps a : keeps (OnStore.buy_and_hold a).
Proof. unfold OnStore.buy_and_hold. keeps_steps. Qed.

#[local] Hint Resolve buy_and_hold_keeps : keeps.

Lemma buy_and_hold_percent_keeps a : keeps (OnStore.buy_and_hold_percent a).
Proof. unfold OnStore.buy_and_hold_percent. keeps_steps. Qed.

#[local] Hint Resolve buy_and_hold_percent_keeps : keeps.

Lemma profit_factor_keeps a : keeps (OnStore.profit_factor a).
Proof. unfold OnStore.profit_factor. keeps_steps. Qed.

#[local] Hint Resolve profit_factor_keeps : keeps.

Lemma max_contract_held_keeps a : keeps (OnStore.max_contract_held a).
Proof. unfold OnStore.max_contract_held. keeps_steps. Qed.

#[local] Hint Resolve max_contract_held_keeps : keeps.

Lemma total_closed_trades_keeps a : keeps (OnStore.total_closed_trades a).
Proof. unfold OnStore.total_closed_trades. keeps_steps. Qed.

#[local] Hint Resolve total_closed_trades_keeps : keeps.

Lemma total_open_trades_keeps a : keeps (OnStore.total_open_trades a).
Proof. unfold OnStore.total_open_trades. keeps_steps. Qed.

#[local] Hint Resolve total_open_trades_keeps : keeps.

Lemma number_winning_trades_keeps a : keeps (OnStore.number_winning_trades a).
Proof. unfold OnStore.number_winning_trades. keeps_steps. Qed.

#[local] Hint Resolve number_winning_trades_keeps : keeps.

Lemma number_losing_trades_keeps a : keeps (OnStore.number_losing_trades a).
Proof. unfold OnStore.number_losing_trades. keeps_steps. Qed.

#[local] Hint Resolve number_losing_trades_keeps : keeps.

Lemma avg_trade_keeps a : keeps (OnStore.avg_trade a).
Proof. unfold OnStore.avg_trade. keeps_steps. Qed.

#[local] Hint Resolve avg_trade_keeps : keeps.

Lemma avg_trade_percent_keeps a : keeps (OnStore.avg_trade_percent a).
Proof. unfold OnStore.avg_trade_percent. keeps_steps. Qed.

#[local] Hint Resolve avg_trade_percent_keeps : keeps.

Lemma avg_winning_trade_keeps a : keeps (OnStore.avg_winning_trade a).
Proof. unfold OnStore.avg_winning_trade. keeps_steps. Qed.

#[local] Hint Resolve avg_winning_trade_keeps : keeps.

Lemma avg_winning_trade_percent_keeps a : keeps (OnStore.avg_winning_trade_percent a).
Proof. unfold OnStore.avg_winning_trade_percent. keeps_steps. Qed.

#[local] Hint Resolve avg_winning_trade_percent_keeps : keeps.

Lemma avg_losing_trade_keeps a : keeps (OnStore.avg_losing_trade a).
Proof. unfold OnStore.avg_losing_trade. keeps_steps. Qed.

#[local] Hint Resolve avg_losing_trade_keeps : keeps.

Lemma avg_losing_trade_percent_keeps a : keeps (OnStore.avg_losing_trade_percent a).
Proof. unfold OnStore.avg_losing_trade_percent. keeps_steps. Qed.

#[local] Hint Resolve avg_losing_trade_percent_keeps : keeps.

Lemma ratio_avg_win_avg_loss_keeps a : keeps (OnStore.ratio_avg_win_avg_loss a).
Proof. unfold OnStore.ratio_avg_win_avg_loss. keeps_steps. Qed.

#[local] Hint Resolve ratio_avg_win_avg_loss_keeps : keeps.

Lemma largest_winning_trade_keeps a : keeps (OnStore.largest_winning_trade a).
Proof. unfold OnStore.largest_winning_trade. keeps_steps. Qed.

#[local] Hint Resolve largest_winning_trade_keeps : keeps.

Lemma largest_winning_trade_percent_keeps a : keeps (OnStore.largest_winning_trade_percent a).
Proof. unfold OnStore.largest_winning_trade_percent. keeps_steps. Qed.

#[local] Hint Resolve largest_winning_trade_percent_keeps : keeps.

Lemma largest_losing_trade_keeps a : keeps (OnStore.largest_losing_trade a).
Proof. unfold OnStore.largest_losing_trade. keeps_steps. Qed.

#[local] Hint Resolve largest_losing_trade_keeps : keeps.

Lemma largest_losing_trade_percent_keeps a : keeps (OnStore.largest_losing_trade_percent a).
Proof. unfold OnStore.largest_losing_trade_percent. keeps_steps. Qed.

#[local] Hint Resolve largest_losing_trade_percent_keeps : keeps.

Lemma avg_bars_in_trades_keeps a : keeps (OnStore.avg_bars_in_trades a).
Proof. unfold OnStore.avg_bars_in_trades. keeps_steps. Qed.

#[local] Hint Resolve avg_bars_in_trades_keeps : keeps.

Lemma avg_bars_in_winning_trades_keeps a : keeps (OnStore.avg_bars_in_winning_trades a).
Proof. unfold OnStore.avg_bars_in_winning_trades. keeps_steps. Qed.

#[local] Hint Resolve avg_bars_in_winning_trades_keeps : keeps.

Lemma avg_bars_in_losing_trades_keeps a : keeps (OnStore.avg_bars_in_losing_trades a).
Proof. unfold OnStore.avg_bars_in_losing_trades. keeps_steps. Qed.

#[local] Hint Resolve avg_bars_in_losing_trades_keeps : keeps.

Lemma performance_summary_keeps a : keeps (OnStore.performance_summary a).
Proof. unfold OnStore.performance_summary. keeps_steps. Qed.

(** Running a call step by step: the store is the one the call was given,
    followed by the objects built so far. *)
Lemma load_old (s l : store) a o :
  nth_error s a = Some o -> load a (s ++ l) = (Ok o, s ++ l).
Proof.
  intros H. unfold load.
  rewrite nth_error_app1 by (apply nth_error_Some; congruence). now rewrite H.
Qed.

Lemma load_new (s l : store) i :
  load (List.length s + i) (s ++ l)
  = match nth_error l i with
    | Some o => (Ok o, s ++ l)
    | None => (Raise NameError, s ++ l)
    end.
Proof.
  unfold load. rewrite nth_error_app2 by lia.
  replace (List.length s + i - List.length s) with i by lia. reflexivity.
Qed.

Lemma alloc_app (s l : store) o :
  alloc o (s ++ l) = (Ok (List.length s + List.length l), s ++ (l ++ [o])).
Proof. unfold alloc. now rewrite length_app, app_assoc. Qed.

Lemma lookup_old (s l : store) a o :
  nth_error s a = Some o -> nth_error (s ++ l) a = Some o.
Proof.
  intros H. rewrite nth_error_app1 by (apply nth_error_Some; congruence). exact H.
Qed.

Lemma lookup_new (s l : store) i :
  nth_error (s ++ l) (List.length s + i) = nth_error l i.
Proof.
  rewrite nth_error_app2 by lia.
  now replace (List.length s + i - List.length s) with i by lia.
Qed.

Lemma computes_from_nil {A : Type} (m : addr -> M A) (f : trades_arg -> result A) :
  (forall s a o, nth_error s a = Some o ->
     exists fresh, m a (s ++ []) = (f o, s ++ fresh)) ->
  computes m f.
Proof.
  intros H s a o Ho. destruct (H s a o Ho) as [fresh E].
  rewrite app_nil_r in E. now exists fresh.
Qed.

Ltac called lemma s l a' H :=
  let fresh := fresh "fresh" in
  let E := fresh "E" in
  edestruct (lemma (s ++ l) a') as [fresh E];
  [ first [ apply lookup_old; exact H | rewrite lookup_new; reflexivity ]
  | rewrite E; clear E; rewrite <- (app_assoc s l fresh) ].

Ltac run_step H :=
  first
    [ rewrite (load_old _ _ _ _ H)
    | rewrite load_new
    | rewrite alloc_app
    | progress cbn [nth_error List.length app as_frame bind]
    | progress cbv zeta
    | match goal with
      | |- context [match ?o with AsList _ => _ | AsFrame _ => _ end] =>
          is_var o; destruct o
      end
    | match goal with
      | |- context [match ?r with Ok _ => _ | Raise _ => _ end] => destruct r
      end
    | match goal with
      | |- context [if ?b then _ else _] => destruct b
      end ].

Ltac run_leaf H :=
  unfold OnStore.DataFrame_if_list, OnStore.column, OnStore.row_field,
    OnStore.select, OnStore.frame, bindM, ret, lift;
  repeat run_step H;
  eexists; reflexivity.

Lemma initial_capital_computes : computes OnStore.initial_capital CalculatePerformanceSummary.initial_capital.
Proof.
  apply computes_from_nil. intros s a o H.
  unfold OnStore.initial_capital, CalculatePerformanceSummary.initial_capital.
  run_leaf H.
Qed.

Lemma net_profit_computes : computes OnStore.net_profit CalculatePerformanceSummary.net_profit.
Proof.
  apply computes_from_nil. intros s a o H.
  unfold OnStore.net_profit, CalculatePerformanceSummary.net_profit.
  run_leaf H.
Qed.

Lemma gross_profit_computes : computes OnStore.gross_profit CalculatePerformanceSummary.gross_profit.
Proof.
  apply computes_from_nil. intros s a o H.
  unfold OnStore.gross_profit, CalculatePerformanceSummary.gross_profit.
  run_leaf H.
Qed.

Lemma gross_loss_computes : computes OnStore.gross_loss CalculatePerformanceSummary.gross_loss.
Proof.
  apply computes_from_nil. intros s a o H.
  unfold OnStore.gross_loss, CalculatePerformanceSummary.gross_loss.
  run_leaf H.
Qed.

Lemma max_run_up_computes : computes OnStore.max_run_up CalculatePerformanceSummary.max_run_up.
Proof.
  apply computes_from_nil. intros s a o H.
  unfold OnStore.max_run_up, CalculatePerformanceSummary.max_run_up.
  run_leaf H.
Qed.

Lemma max_run_up_percent_computes : computes OnStore.max_run_up_percent CalculatePerformanceSummary.max_run_up_percent.
Proof.
  apply computes_from_nil. intros s a o H.
  unfold OnStore.max_run_up_percent, CalculatePerformanceSummary.max_run_up_percent.
  run_leaf H.
Qed.

Lemma max_draw_down_computes : computes OnStore.max_draw_down CalculatePerformanceSummary.max_draw_down.
Proof.
  apply computes_from_nil. intros s a o H.
  unfold OnStore.max_draw_down, CalculatePerformanceSummary.max_draw_down.
  run_leaf H.
Qed.

Lemma max_draw_down_percent_computes : computes OnStore.max_draw_down_percent CalculatePerformanceSummary.max_draw_down_percent.
Proof.
  apply computes_from_nil. intros s a o H.
  unfold OnStore.max_draw_down_percent, CalculatePerformanceSummary.max_draw_down_percent.
  run_leaf H.
Qed.

Lemma buy_and_hold_computes : computes OnStore.buy_and_hold CalculatePerformanceSummary.buy_and_hold.
Proof.
  apply computes_from_nil. intros s a o H.
  unfold OnStore.buy_and_hold, CalculatePerformanceSummary.buy_and_hold.
  run_leaf H.
Qed.

Lemma max_contract_held_computes : computes OnStore.max_contract_held CalculatePerformanceSummary.max_contract_held.
Proof.
  apply computes_from_nil. intros s a o H.
  unfold OnStore.max_contract_held, CalculatePerformanceSummary.max_contract_held.
  run_leaf H.
Qed.

Lemma total_closed_trades_computes : computes OnStore.total_closed_trades CalculatePerformanceSummary.total_closed_trades.
Proof.
  apply computes_from_nil. intros s a o H.
  unfold OnStore.total_closed_trades, CalculatePerformanceSummary.total_closed_trades.
  run_leaf H.
Qed.

Lemma total_open_trades_computes : computes OnStore.total_open_trades CalculatePerformanceSummary.total_open_trades.
Proof.
  apply computes_from_nil. intros s a o H.
  unfold OnStore.total_open_trades, CalculatePerformanceSummary.total_open_trades.
  run_leaf H.
Qed.

Lemma number_winning_trades_computes : computes OnStore.number_winning_trades CalculatePerformanceSummary.number_winning_trades.
Proof.
  apply computes_from_nil. intros s a o H.
  unfold OnStore.number_winning_trades, CalculatePerformanceSummary.number_winning_trades.
  run_leaf H.
Qed.

Lemma number_losing_trades_computes : computes OnStore.number_losing_trades CalculatePerformanceSummary.number_losing_trades.
Proof.
  apply computes_from_nil. intros s a o H.
  unfold OnStore.number_losing_trades, CalculatePerformanceSummary.number_losing_trades.
  run_leaf H.
Qed.

Lemma avg_trade_computes : computes OnStore.avg_trade CalculatePerformanceSummary.avg_trade.
Proof.
  apply computes_from_nil. intros s a o H.
  unfold OnStore.avg_trade, CalculatePerformanceSummary.avg_trade.
  run_leaf H.
Qed.

Lemma avg_trade_percent_computes : computes OnStore.avg_trade_percent CalculatePerformanceSummary.avg_trade_percent.
Proof.
  apply computes_from_nil. intros s a o H.
  unfold OnStore.avg_trade_percent, CalculatePerformanceSummary.avg_trade_percent.
  run_leaf H.
Qed.

Lemma avg_winning_trade_computes : computes OnStore.avg_winning_trade CalculatePerformanceSummary.avg_winning_trade.
Proof.
  apply computes_from_nil. intros s a o H.
  unfold OnStore.avg_winning_trade, CalculatePerformanceSummary.avg_winning_trade.
  run_leaf H.
Qed.

Lemma avg_winning_trade_percent_computes : computes OnStore.avg_winning_trade_percent CalculatePerformanceSummary.avg_winning_trade_percent.
Proof.
  apply computes_from_nil. intros s a o H.
  unfold OnStore.avg_winning_trade_percent, CalculatePerformanceSummary.avg_winning_trade_percent.
  run_leaf H.
Qed.

Lemma avg_losing_trade_computes : computes OnStore.avg_losing_trade CalculatePerformanceSummary.avg_losing_trade.
Proof.
  apply computes_from_nil. intros s a o H.
  unfold OnStore.avg_losing_trade, CalculatePerformanceSummary.avg_losing_trade.
  run_leaf H.
Qed.

Lemma avg_losing_trade_percent_computes : computes OnStore.avg_losing_trade_percent CalculatePerformanceSummary.avg_losing_trade_percent.
Proof.
  apply computes_from_nil. intros s a o H.
  unfold OnStore.avg_losing_trade_percent, CalculatePerformanceSummary.avg_losing_trade_percent.
  run_leaf H.
Qed.

Lemma largest_winning_trade_computes : computes OnStore.largest_winning_trade CalculatePerformanceSummary.largest_winning_trade.
Proof.
  apply computes_from_nil. intros s a o H.
  unfold OnStore.largest_winning_trade, CalculatePerformanceSummary.largest_winning_trade.
  run_leaf H.
Qed.

Lemma largest_winning_trade_percent_computes : computes OnStore.largest_winning_trade_percent CalculatePerformanceSummary.largest_winning_trade_percent.
Proof.
  apply computes_from_nil. intros s a o H.
  unfold OnStore.largest_winning_trade_percent, CalculatePerformanceSummary.largest_winning_trade_percent.
  run_leaf H.
Qed.

Lemma largest_losing_trade_computes : computes OnStore.largest_losing_trade CalculatePerformanceSummary.largest_losing_trade.
Proof.
  apply computes_from_nil. intros s a o H.
  unfold OnStore.largest_losing_trade, CalculatePerformanceSummary.largest_losing_trade.
  run_leaf H.
Qed.

Lemma largest_losing_trade_percent_computes : computes OnStore.largest_losing_trade_percent CalculatePerformanceSummary.largest_losing_trade_percent.
Proof.
  apply computes_from_nil. intros s a o H.
  unfold OnStore.largest_losing_trade_percent, CalculatePerformanceSummary.largest_losing_trade_percent.
  run_leaf H.
Qed.

Lemma avg_bars_in_trades_computes : computes OnStore.avg_bars_in_trades CalculatePerformanceSummary.avg_bars_in_trades.
Proof.
  apply computes_from_nil. intros s a o H.
  unfold OnStore.avg_bars_in_trades, CalculatePerformanceSummary.avg_bars_in_trades.
  run_leaf H.
Qed.

Lemma avg_bars_in_winning_trades_computes : computes OnStore.avg_bars_in_winning_trades CalculatePerformanceSummary.avg_bars_in_winning_trades.
Proof.
  apply computes_from_nil. intros s a o H.
  unfold OnStore.avg_bars_in_winning_trades, CalculatePerformanceSummary.avg_bars_in_winning_trades.
  run_leaf H.
Qed.

Lemma avg_bars_in_losing_trades_computes : computes OnStore.avg_bars_in_losing_trades CalculatePerformanceSummary.avg_bars_in_losing_trades.
Proof.
  apply computes_from_nil. intros s a o H.
  unfold OnStore.avg_bars_in_losing_trades, CalculatePerformanceSummary.avg_bars_in_losing_trades.
  run_leaf H.
Qed.

Ltac run_calls H :=
  unfold OnStore.DataFrame_if_list, OnStore.column, OnStore.row_field,
    OnStore.select, OnStore.frame, bindM, ret, lift;
  repeat first
    [ match goal with
      | |- context [OnStore.initial_capital ?a' (?s ++ ?l)] =>
          called initial_capital_computes s l a' H
      | |- context [OnStore.net_profit ?a' (?s ++ ?l)] =>
          called net_profit_computes s l a' H
      | |- context [OnStore.gross_profit ?a' (?s ++ ?l)] =>
          called gross_profit_computes s l a' H
      | |- context [OnStore.gross_loss ?a' (?s ++ ?l)] =>
          called gross_loss_computes s l a' H
      | |- context [OnStore.buy_and_hold ?a' (?s ++ ?l)] =>
          called buy_and_hold_computes s l a' H
      | |- context [OnStore.avg_winning_trade ?a' (?s ++ ?l)] =>
          called avg_winning_trade_computes s l a' H
      | |- context [OnStore.avg_losing_trade ?a' (?s ++ ?l)] =>
          called avg_losing_trade_computes s l a' H
      end
    | run_step H ];
  eexists; reflexivity.

Lemma net_profit_percent_computes : computes OnStore.net_profit_percent CalculatePerformanceSummary.net_profit_percent.
Proof.
  apply computes_from_nil. intros s a o H.
  unfold OnStore.net_profit_percent, CalculatePerformanceSummary.net_profit_percent.
  run_calls H.
Qed.

Lemma gross_profit_percent_computes : computes OnStore.gross_profit_percent CalculatePerformanceSummary.gross_profit_percent.
Proof.
  apply computes_from_nil. intros s a o H.
  unfold OnStore.gross_profit_percent, CalculatePerformanceSummary.gross_profit_percent.
  run_calls H.
Qed.

Lemma gross_loss_percent_computes : computes OnStore.gross_loss_percent CalculatePerformanceSummary.gross_loss_percent.
Proof.
  apply computes_from_nil. intros s a o H.
  unfold OnStore.gross_loss_percent, CalculatePerformanceSummary.gross_loss_percent.
  run_calls H.
Qed.

Lemma buy_and_hold_percent_computes : computes OnStore.buy_and_hold_percent CalculatePerformanceSummary.buy_and_hold_percent.
Proof.
  apply computes_from_nil. intros s a o H.
  unfold OnStore.buy_and_hold_percent, CalculatePerformanceSummary.buy_and_hold_percent.
  run_calls H.
Qed.

Lemma profit_factor_computes : computes OnStore.profit_factor CalculatePerformanceSummary.profit_factor.
Proof.
  apply computes_from_nil. intros s a o H.
  unfold OnStore.profit_factor, CalculatePerformanceSummary.profit_factor.
  run_calls H.
Qed.

Lemma ratio_avg_win_avg_loss_computes : computes OnStore.ratio_avg_win_avg_loss CalculatePerformanceSummary.ratio_avg_win_avg_loss.
Proof.
  apply computes_from_nil. intros s a o H.
  unfold OnStore.ratio_avg_win_avg_loss, CalculatePerformanceSummary.ratio_avg_win_avg_loss.
  run_calls H.
Qed.

(** The report on the store returns what the report as a function of the
    object returns, and keeps the store: this is how [monthly_performance]
    takes its calls of [performance_summary]. *)
Lemma performance_summary_computes :
  computes OnStore.performance_summary PerformanceSummary.performance_summary.
Proof.
  apply computes_from_nil. intros s a o H.
  unfold OnStore.performance_summary, PerformanceSummary.performance_summary.
  unfold bindM, ret.
  repeat first
    [ match goal with
      | |- context [OnStore.net_profit ?a' (?s ++ ?l)] =>
          called net_profit_computes s l a' H
      | |- context [OnStore.net_profit_percent ?a' (?s ++ ?l)] =>
          called net_profit_percent_computes s l a' H
      | |- context [OnStore.gross_profit ?a' (?s ++ ?l)] =>
          called gross_profit_computes s l a' H
      | |- context [OnStore.gross_profit_percent ?a' (?s ++ ?l)] =>
          called gross_profit_percent_computes s l a' H
      | |- context [OnStore.gross_loss ?a' (?s ++ ?l)] =>
          called gross_loss_computes s l a' H
      | |- context [OnStore.gross_loss_percent ?a' (?s ++ ?l)] =>
          called gross_loss_percent_computes s l a' H
      | |- context [OnStore.max_run_up ?a' (?s ++ ?l)] =>
          called max_run_up_computes s l a' H
      | |- context [OnStore.max_run_up_percent ?a' (?s ++ ?l)] =>
          called max_run_up_percent_computes s l a' H
      | |- context [OnStore.max_draw_down ?a' (?s ++ ?l)] =>
          called max_draw_down_computes s l a' H
      | |- context [OnStore.max_draw_down_percent ?a' (?s ++ ?l)] =>
          called max_draw_down_percent_computes s l a' H
      | |- context [OnStore.buy_and_hold ?a' (?s ++ ?l)] =>
          called buy_and_hold_computes s l a' H
      | |- context [OnStore.buy_and_hold_percent ?a' (?s ++ ?l)] =>
          called buy_and_hold_percent_computes s l a' H
      | |- context [OnStore.profit_factor ?a' (?s ++ ?l)] =>
          called profit_factor_computes s l a' H
      | |- context [OnStore.max_contract_held ?a' (?s ++ ?l)] =>
          called max_contract_held_computes s l a' H
      | |- context [OnStore.total_closed_trades ?a' (?s ++ ?l)] =>
          called total_closed_trades_computes s l a' H
      | |- context [OnStore.total_open_trades ?a' (?s ++ ?l)] =>
          called total_open_trades_computes s l a' H
      | |- context [OnStore.number_winning_trades ?a' (?s ++ ?l)] =>
          called number_winning_trades_computes s l a' H
      | |- context [OnStore.number_losing_trades ?a' (?s ++ ?l)] =>
          called number_losing_trades_computes s l a' H
      | |- context [OnStore.avg_trade ?a' (?s ++ ?l)] =>
          called avg_trade_computes s l a' H
      | |- context [OnStore.avg_trade_percent ?a' (?s ++ ?l)] =>
          called avg_trade_percent_computes s l a' H
      | |- context [OnStore.avg_winning_trade ?a' (?s ++ ?l)] =>
          called avg_winning_trade_computes s l a' H
      | |- context [OnStore.avg_winning_trade_percent ?a' (?s ++ ?l)] =>
          called avg_winning_trade_percent_computes s l a' H
      | |- context [OnStore.avg_losing_trade ?a' (?s ++ ?l)] =>
          called avg_losing_trade_computes s l a' H
      | |- context [OnStore.avg_losing_trade_percent ?a' (?s ++ ?l)] =>
          called avg_losing_trade_percent_computes s l a' H
      | |- context [OnStore.ratio_avg_win_avg_loss ?a' (?s ++ ?l)] =>
          called ratio_avg_win_avg_loss_computes s l a' H
      | |- context [OnStore.largest_winning_trade ?a' (?s ++ ?l)] =>
          called largest_winning_trade_computes s l a' H
      | |- context [OnStore.largest_winning_trade_percent ?a' (?s ++ ?l)] =>
          called largest_winning_trade_percent_computes s l a' H
      | |- context [OnStore.largest_losing_trade ?a' (?s ++ ?l)] =>
          called largest_losing_trade_computes s l a' H
      | |- context [OnStore.largest_losing_trade_percent ?a' (?s ++ ?l)] =>
          called largest_losing_trade_percent_computes s l a' H
      | |- context [OnStore.avg_bars_in_trades ?a' (?s ++ ?l)] =>
          called avg_bars_in_trades_computes s l a' H
      | |- context [OnStore.avg_bars_in_winning_trades ?a' (?s ++ ?l)] =>
          called avg_bars_in_winning_trades_computes s l a' H
      | |- context [OnStore.avg_bars_in_losing_trades ?a' (?s ++ ?l)] =>
          called avg_bars_in_losing_trades_computes s l a' H
      end
    | progress cbn [bind]
    | match goal with
      | |- context [match ?r with Ok _ => _ | Raise _ => _ end] => destruct r
      end ];
  eexists; reflexivity.
Qed.
End CallFacts.

#[global] Hint Resolve performance_summary_keeps
  initial_capital_keeps net_profit_keeps net_profit_percent_keeps
  gross_profit_keeps gross_profit_percent_keeps gross_loss_keeps
  gross_loss_percent_keeps max_run_up_keeps max_run_up_percent_keeps
  max_draw_down_keeps max_draw_down_percent_keeps buy_and_hold_keeps
  buy_and_hold_percent_keeps profit_factor_keeps max_contract_held_keeps
  total_closed_trades_keeps total_open_trades_keeps
  number_winning_trades_keeps number_losing_trades_keeps avg_trade_keeps
  avg_trade_percent_keeps avg_winning_trade_keeps
  avg_winning_trade_percent_keeps avg_losing_trade_keeps
  avg_losing_trade_percent_keeps ratio_avg_win_avg_loss_keeps
  largest_winning_trade_keeps largest_winning_trade_percent_keeps
  largest_losing_trade_keeps largest_losing_trade_percent_keeps
  avg_bars_in_trades_keeps avg_bars_in_winning_trades_keeps
  avg_bars_in_losing_trades_keeps : keeps.

(** ** [monthly_performance] on the store *)

Section MonthlyOnStore.
Context {pandas : Pandas}.

(** Given a list, the function works on a frame of its own, which it adds to
    the store. *)
Lemma monthly_performance_of_list (s : store) a flag l :
  nth_error s a = Some (AsList l) ->
  PerformanceSummary.monthly_performance a flag s
  = match PerformanceSummary.set_index_entry_date (DataFrame_of_list l) with
    | Ok df => (monthly_report flag df, s ++ [AsFrame df])
    | Raise e => (Raise e, s ++ [AsFrame (DataFrame_of_list l)])
    end.
Proof.
  intros H. unfold PerformanceSummary.monthly_performance, bindM, load, alloc.
  rewrite H, nth_error_app_length. unfold lift, as_frame.
  destruct (PerformanceSummary.set_index_entry_date (DataFrame_of_list l)) as [df|e];
    [|reflexivity].
  unfold assign. rewrite update_app_length. unfold monthly_report, ret.
  destruct (Grouper.groupby_month df) as [monthly|e]; [|reflexivity].
  cbn [bind].
  destruct (mapM (PerformanceSummary.monthly_rows flag) monthly); reflexivity.
Qed.

(** Given a frame, the function assigns the index of that very frame. *)
Lemma monthly_performance_of_frame (s : store) a flag df0 :
  nth_error s a = Some (AsFrame df0) ->
  PerformanceSummary.monthly_performance a flag s
  = match PerformanceSummary.set_index_entry_date df0 with
    | Ok df => (monthly_report flag df, update s a (AsFrame df))
    | Raise e => (Raise e, s)
    end.
Proof.
  intros H. unfold PerformanceSummary.monthly_performance, bindM, load, ret.
  rewrite H. rewrite H. unfold lift, as_frame.
  destruct (PerformanceSummary.set_index_entry_date df0) as [df|e]; [|reflexivity].
  unfold assign, monthly_report.
  destruct (Grouper.groupby_month df) as [monthly|e]; [|reflexivity].
  cbn [bind].
  destruct (mapM (PerformanceSummary.monthly_rows flag) monthly); reflexivity.
Qed.

Lemma set_index_entry_date_inv df df' :
  PerformanceSummary.set_index_entry_date df = Ok df' ->
  columns df' = columns df /\
  rows df' = map (fun r => (TimeLabel (entry_date (snd r)), snd r)) (rows df).
Proof.
  unfold PerformanceSummary.set_index_entry_date, getattr.
  destruct (has_column df "entry_date"); simpl; intros H; inversion H; auto.
Qed.

Lemma set_index_entry_date_again df df' :
  PerformanceSummary.set_index_entry_date df = Ok df' ->
  PerformanceSummary.set_index_entry_date df' = Ok df'.
Proof.
  intros H. destruct (set_index_entry_date_inv df df' H) as [Hc Hr].
  unfold PerformanceSummary.set_index_entry_date, getattr, has_column in *.
  rewrite Hc.
  destruct (existsb (fun column => String.eqb "entry_date" (fst column))
              (columns df)); [|discriminate].
  simpl. f_equal. destruct df' as [c r]; simpl in *. subst c r.
  f_equal. rewrite map_map. reflexivity.
Qed.
End MonthlyOnStore.

Section FrameEffect.
Context {pandas : Pandas}.

(** C9 (as amended).  A call of [monthly_performance] leaves a list argument
    and every other object of the store as they were.  Of a frame argument
    it leaves the columns and every trade as they were and, when the frame
    has the column entry_date, replaces every index label by the entry time
    of its row; a frame without that column stays as it was.  A call of
    [performance_summary] or of a formula leaves every object of the store
    as it was: the store afterwards is the store before, followed by the
    frames the call has built.  [performance_summary] returns what it
    returns on the object alone, and calling [monthly_performance] again on
    the argument gives the same result. *)
Theorem monthly_performance_only_reindexes_a_frame (s : store) (a : addr) (flag : bool) :
  (forall l, nth_error s a = Some (AsList l) ->
     nth_error (snd (PerformanceSummary.monthly_performance a flag s)) a
     = Some (AsList l)) /\
  (forall df, nth_error s a = Some (AsFrame df) ->
     exists df',
       nth_error (snd (PerformanceSummary.monthly_performance a flag s)) a
       = Some (AsFrame df') /\
       columns df' = columns df /\
       map snd (rows df') = map snd (rows df) /\
       (has_column df "entry_date" = true ->
        map fst (rows df')
        = map (fun r => TimeLabel (entry_date (snd r))) (rows df)) /\
       (has_column df "entry_date" = false -> df' = df)) /\
  (forall b, b < List.length s -> b <> a ->
     nth_error (snd (PerformanceSummary.monthly_performance a flag s)) b
     = nth_error s b) /\
  (keeps (OnStore.performance_summary a) /\
   keeps (OnStore.initial_capital a) /\
   keeps (OnStore.net_profit a) /\
   keeps (OnStore.net_profit_percent a) /\
   keeps (OnStore.gross_profit a) /\
   keeps (OnStore.gross_profit_percent a) /\
   keeps (OnStore.gross_loss a) /\
   keeps (OnStore.gross_loss_percent a) /\
   keeps (OnStore.max_run_up a) /\
   keeps (OnStore.max_run_up_percent a) /\
   keeps (OnStore.max_draw_down a) /\
   keeps (OnStore.max_draw_down_percent a) /\
   keeps (OnStore.buy_and_hold a) /\
   keeps (OnStore.buy_and_hold_percent a) /\
   keeps (OnStore.profit_factor a) /\
   keeps (OnStore.max_contract_held a) /\
   keeps (OnStore.total_closed_trades a) /\
   keeps (OnStore.total_open_trades a) /\
   keeps (OnStore.number_winning_trades a) /\
   keeps (OnStore.number_losing_trades a) /\
   keeps (OnStore.avg_trade a) /\
   keeps (OnStore.avg_trade_percent a) /\
   keeps (OnStore.avg_winning_trade a) /\
   keeps (OnStore.avg_winning_trade_percent a) /\
   keeps (OnStore.avg_losing_trade a) /\
   keeps (OnStore.avg_losing_trade_percent a) /\
   keeps (OnStore.ratio_avg_win_avg_loss a) /\
   keeps (OnStore.largest_winning_trade a) /\
   keeps (OnStore.largest_winning_trade_percent a) /\
   keeps (OnStore.largest_losing_trade a) /\
   keeps (OnStore.largest_losing_trade_percent a) /\
   keeps (OnStore.avg_bars_in_trades a) /\
   keeps (OnStore.avg_bars_in_winning_trades a) /\
   keeps (OnStore.avg_bars_in_losing_trades a)) /\
  (forall o, nth_error s a = Some o ->
     exists fresh,
       OnStore.performance_summary a s
       = (PerformanceSummary.performance_summary o, s ++ fresh)) /\
  fst (PerformanceSummary.monthly_performance a flag
         (snd (PerformanceSummary.monthly_performance a flag s)))
  = fst (PerformanceSummary.monthly_performance a flag s).
Proof.
  split; [|split; [|split; [|split; [|split]]]].
  - intros l H. rewrite (monthly_performance_of_list s a flag l H).
    pose proof (nth_error_length s a _ H) as Ha.
    destruct (PerformanceSummary.set_index_entry_date (DataFrame_of_list l));
      simpl; now rewrite nth_error_app_old.
  - intros df H. rewrite (monthly_performance_of_frame s a flag df H).
    pose proof (nth_error_length s a _ H) as Ha.
    destruct (PerformanceSummary.set_index_entry_date df) as [df'|e] eqn:E; simpl.
    + exists df'. rewrite nth_error_update_same by exact Ha.
      destruct (set_index_entry_date_inv df df' E) as [Hc Hr].
      split; [reflexivity|]. split; [exact Hc|].
      split; [rewrite Hr, map_map; reflexivity|].
      split; [intros _; rewrite Hr, map_map; reflexivity|].
      intros Hno. unfold PerformanceSummary.set_index_entry_date, getattr in E.
      rewrite Hno in E. discriminate E.
    + exists df. split; [exact H|]. split; [reflexivity|]. split; [reflexivity|].
      split; [|reflexivity].
      intros Hyes. unfold PerformanceSummary.set_index_entry_date, getattr in E.
      rewrite Hyes in E. discriminate E.
  - intros b Hb Hba.
    destruct (nth_error s a) as [[l|df]|] eqn:H.
    + rewrite (monthly_performance_of_list s a flag l H).
      destruct (PerformanceSummary.set_index_entry_date (DataFrame_of_list l));
        simpl; now rewrite nth_error_app_old.
    + rewrite (monthly_performance_of_frame s a flag df H).
      destruct (PerformanceSummary.set_index_entry_date df); simpl; auto.
      now apply nth_error_update_other.
    + unfold PerformanceSummary.monthly_performance, bindM, load. now rewrite H.
  - repeat split; auto with keeps.
  - intros o H. exact (performance_summary_computes s a o H).
  - destruct (nth_error s a) as [[l|df]|] eqn:H.
    + pose proof (nth_error_length s a _ H) as Ha.
      rewrite (monthly_performance_of_list s a flag l H).
      destruct (PerformanceSummary.set_index_entry_date (DataFrame_of_list l))
        as [df|e] eqn:E; simpl.
      * rewrite (monthly_performance_of_list _ a flag l), E; [reflexivity|].
        now rewrite nth_error_app_old.
      * rewrite (monthly_performance_of_list _ a flag l), E; [reflexivity|].
        now rewrite nth_error_app_old.
    + pose proof (nth_error_length s a _ H) as Ha.
      rewrite (monthly_performance_of_frame s a flag df H).
      destruct (PerformanceSummary.set_index_entry_date df) as [df'|e] eqn:E; simpl.
      * rewrite (monthly_performance_of_frame _ a flag df').
        -- now rewrite (set_index_entry_date_again df df' E).
        -- now apply nth_error_update_same.
      * now rewrite (monthly_performance_of_frame s a flag df H), E.
    + unfold PerformanceSummary.monthly_performance, bindM, load. rewrite H.
      simpl. now rewrite H.
Qed.
End FrameEffect.

Lemma monthly_performance_only_reindexes_a_frame_witness :
  exists df',
    nth_error
      (snd (PerformanceSummary.monthly_performance 0 false
              [AsFrame Sample.ranged_frame])) 0
    = Some (AsFrame df') /\
    map fst (rows df')
    = [TimeLabel (Sample.day 2022 6 1); TimeLabel (Sample.day 2022 6 3)].
Proof.
  destruct (proj1 (proj2 (monthly_performance_only_reindexes_a_frame
                            [AsFrame Sample.ranged_frame] 0 false))
              Sample.ranged_frame eq_refl)
    as (df' & Hstored & _ & _ & Hindex & _).
  exists df'. split; [exact Hstored | exact (Hindex eq_refl)].
Defined.

(** C9, as stated, fails: given a frame under the default index 0, 1,
    [monthly_performance] leaves that frame indexed by the entry times. *)
Lemma monthly_performance_changes_the_index_of_its_frame :
  exists df',
    nth_error
      (snd (PerformanceSummary.monthly_performance 0 false
              [AsFrame Sample.ranged_frame])) 0
    = Some (AsFrame df') /\
    map fst (rows Sample.ranged_frame) = [RangeLabel 0; RangeLabel 1] /\
    map fst (rows df')
    = [TimeLabel (Sample.day 2022 6 1); TimeLabel (Sample.day 2022 6 3)] /\
    df' <> Sample.ranged_frame.
Proof.
  eexists. split; [reflexivity|]. split; [reflexivity|]. split; [reflexivity|].
  intros H. apply (f_equal (fun df => map fst (rows df))) in H. discriminate H.
Qed.

(** ** The orchestrator on a frame that has rows *)

Lemma has_column_same_columns df rs name :
  has_column (mkDataFrame (columns df) rs) name = has_column df name.
Proof. reflexivity. Qed.

Lemma where_ok df name field mask :
  has_column df name = true ->
  where_ df name field mask
  = Ok (mkDataFrame (columns df) (filter (fun r => mask (field (snd r))) (rows df))).
Proof.
  intros H. unfold where_. now rewrite (getattr_ok _ _ _ H).
Qed.

Lemma iloc_getattr_first {A : Type} df r rs name (field : Trade -> A) :
  rows df = r :: rs -> has_column df name = true ->
  iloc_getattr df 0 name field = Ok (field (snd r)).
Proof.
  intros Hr Hc. unfold iloc_getattr. now rewrite Hr, iloc_0_cons, Hc.
Qed.

Lemma iloc_getattr_last {A : Type} df r rs name (field : Trade -> A) :
  rows df = r :: rs -> has_column df name = true ->
  iloc_getattr df (-1) name field = Ok (field (snd (last rs r))).
Proof.
  intros Hr Hc. unfold iloc_getattr. now rewrite Hr, iloc_last, Hc.
Qed.

Lemma iloc_column_first {A : Type} df r rs (f : Label * Trade -> A) :
  rows df = r :: rs -> iloc (map f (rows df)) 0 = Ok (f r).
Proof.
  intros Hr. rewrite Hr. apply iloc_0_cons.
Qed.

Lemma if_Ok {A : Type} (c : bool) (x y : A) :
  (if c then Ok x else Ok y) = Ok (if c then x else y).
Proof. now destruct c. Qed.

Lemma column_dtype_same_columns df rs name :
  column_dtype (mkDataFrame (columns df) rs) name = column_dtype df name.
Proof. reflexivity. Qed.

Section Durations.
Context {pandas : Pandas}.
Import CalculatePerformanceSummary.

Lemma duration_mean_ok df :
  has_column df "exit_date" = true -> has_column df "entry_date" = true ->
  column_dtype df "exit_date" = Some datetime64 ->
  duration_mean df
  = Ok (mean_duration_1s (map (fun r => exit_date (snd r)) (rows df))
          (map (fun r => entry_date (snd r)) (rows df))).
Proof.
  intros Hx He Hd. unfold duration_mean.
  now rewrite (getattr_ok _ _ _ Hx), (getattr_ok _ _ _ He), Hd.
Qed.

End Durations.

Lemma exit_date_dtype_iff l :
  exit_date_dtype l = datetime64
  <-> exists trade, In trade l /\ exit_date trade <> None.
Proof.
  unfold exit_date_dtype.
  destruct (existsb has_exit_date l) eqn:E.
  - split; [intros _ | reflexivity].
    apply existsb_exists in E. destruct E as (t & Ht & Hx).
    exists t. split; [exact Ht|]. unfold has_exit_date in Hx.
    destruct (exit_date t); [discriminate | discriminate Hx].
  - split; [discriminate|]. intros (t & Ht & Hx). exfalso.
    assert (Hsome : existsb has_exit_date l = true).
    { apply existsb_exists. exists t. split; [exact Ht|].
      unfold has_exit_date. destruct (exit_date t); [reflexivity | congruence]. }
    congruence.
Qed.


Ltac column Hc :=
  rewrite ?has_column_same_columns;
  apply (has_trade_columns_In _ _ Hc); simpl; tauto.

Ltac frame_steps Hc Hr :=
  repeat first
    [ rewrite getattr_ok by column Hc
    | rewrite where_ok by column Hc
    | rewrite (iloc_getattr_first _ _ _ _ _ Hr) by column Hc
    | rewrite (iloc_getattr_last _ _ _ _ _ Hr) by column Hc
    | rewrite (iloc_column_first _ _ _ _ Hr)
    | rewrite if_Ok
    | progress cbn [bind as_frame columns] ].

Ltac dated_steps Hc Hd :=
  repeat first
    [ rewrite duration_mean_ok
        by first [ column Hc | rewrite ?column_dtype_same_columns; exact Hd ]
    | progress cbn [bind as_frame columns] ].

Section OrchestratorFacts.
Context {pandas : Pandas}.
Import CalculatePerformanceSummary.

(** On a frame with the columns of [Trade] and at least one row every
    formula returns, and the first entry of the vector is the sum of the
    profit column. *)
Lemma performance_summary_of_group df r rs :
  has_trade_columns df = true -> rows df = r :: rs ->
  column_dtype df "exit_date" = Some datetime64 ->
  exists s,
    PerformanceSummary.performance_summary (AsFrame df) = Ok s /\
    net_profit_of s = Float64.sum (map profit (map snd (rows df))).
Proof.
  intros Hc Hr Hd.
  unfold PerformanceSummary.performance_summary.
  unfold net_profit_percent, gross_profit_percent, gross_loss_percent,
    buy_and_hold_percent, profit_factor, ratio_avg_win_avg_loss.
  unfold net_profit, gross_profit, gross_loss, max_run_up, max_run_up_percent,
    max_draw_down, max_draw_down_percent, buy_and_hold, max_contract_held,
    total_closed_trades, total_open_trades, number_winning_trades,
    number_losing_trades, avg_trade, avg_trade_percent, avg_winning_trade,
    avg_winning_trade_percent, avg_losing_trade, avg_losing_trade_percent,
    largest_winning_trade, largest_winning_trade_percent,
    largest_losing_trade, largest_losing_trade_percent, avg_bars_in_trades,
    avg_bars_in_winning_trades, avg_bars_in_losing_trades,
    initial_capital.
  frame_steps Hc Hr. dated_steps Hc Hd.
  eexists. split; [reflexivity|].
  rewrite map_map. reflexivity.
Qed.


(** The orchestrator raises on a frame without rows: the base of the
    percentages has no first row. *)
Lemma performance_summary_of_empty_group df :
  has_trade_columns df = true -> rows df = [] ->
  PerformanceSummary.performance_summary (AsFrame df) = Raise IndexError.
Proof.
  intros Hc Hr.
  unfold PerformanceSummary.performance_summary, net_profit_percent, net_profit,
    initial_capital, iloc_getattr.
  cbn [as_frame]. rewrite getattr_ok by column Hc. cbn [bind].
  now rewrite Hr.
Qed.
End OrchestratorFacts.

(** ** Monthly groups *)

Section GroupFacts.
Import Grouper.












Lemma filter_all {A : Type} (p : A -> bool) xs :
  (forall x, In x xs -> p x = true) -> filter p xs = xs.
Proof.
  induction xs as [|x xs IH]; intros H; simpl; [reflexivity|].
  rewrite (H x) by (now left). f_equal. apply IH. intros y Hy. apply H. now right.
Qed.



End GroupFacts.

(** ** Calendar months *)

Section CalendarFacts.
Import Grouper.












End CalendarFacts.

(** ** The monthly table *)

Section MonthlyTable.
Context {pandas : Pandas}.
Import Grouper.

Lemma mapM_index_time (rs : list (Label * Trade)) :
  mapM (fun r => t <- index_time r ;; Ok (t, r))
    (map (fun r => (TimeLabel (entry_date (snd r)), snd r)) rs)
  = Ok (map (fun r => (entry_date (snd r), (TimeLabel (entry_date (snd r)), snd r))) rs).
Proof.
  induction rs as [|r rs IH]; simpl; [reflexivity|]. now rewrite IH.
Qed.

(** The groups that [monthly_performance] iterates over when it is given a
    non-empty list: one per calendar month from the first to the last. *)
Lemma monthly_groups_of_list (l : list Trade) :
  l <> [] ->
  exists df,
    PerformanceSummary.set_index_entry_date (DataFrame_of_list l) = Ok df /\
    groupby_month df
    = Ok (map (fun k => (Calendar.month_end k,
                         mkDataFrame (Trade_dtypes (exit_date_dtype l))
                           (bucket (timed_rows l) k)))
            (months l)).
Proof.
  intros Hl. unfold PerformanceSummary.set_index_entry_date.
  rewrite getattr_ok
    by (apply (populated_column (AsList l)); [exact Hl | simpl; tauto]).
  cbn [bind]. eexists. split; [reflexivity|].
  unfold groupby_month. cbn [rows columns].
  rewrite mapM_index_time. cbn [bind].
  rewrite (columns_of_list l Hl).
  assert (E : map (fun r : Label * Trade =>
                     (entry_date (snd r), (TimeLabel (entry_date (snd r)), snd r)))
                (rows (DataFrame_of_list l))
              = map (fun t => (entry_date t, (TimeLabel (entry_date t), t))) l).
  { rewrite <- (rows_of_list l) at 2. now rewrite map_map. }
  rewrite E. reflexivity.
Qed.






End MonthlyTable.



(** ** Months without a trade *)

Section EmptyMonths.
Context {pandas : Pandas}.
Import Grouper.

Lemma mapM_raises {A B : Type} (f : A -> result B) e xs :
  (forall x, In x xs -> f x = Raise e \/ exists y, f x = Ok y) ->
  (exists x, In x xs /\ f x = Raise e) ->
  mapM f xs = Raise e.
Proof.
  induction xs as [|x xs IH]; intros Hall (x0 & Hin & Hx0); [contradiction|].
  simpl. destruct (Hall x (or_introl eq_refl)) as [Hx|(y & Hx)]; rewrite Hx;
    [reflexivity|].
  cbn [bind]. rewrite IH; [reflexivity | |].
  - intros x' Hx'. apply Hall. now right.
  - destruct Hin as [<-|Hin]; [congruence|]. now exists x0.
Qed.

Lemma performance_summary_ok_or_index_error df :
  has_trade_columns df = true ->
  column_dtype df "exit_date" = Some datetime64 ->
  PerformanceSummary.performance_summary (AsFrame df) = Raise IndexError \/
  exists s, PerformanceSummary.performance_summary (AsFrame df) = Ok s.
Proof.
  intros Hc Hd. destruct (rows df) as [|r rs] eqn:Hr.
  - left. now apply performance_summary_of_empty_group.
  - right.
    destruct (performance_summary_of_group df r rs Hc Hr Hd) as (s & Hs & _).
    now exists s.
Qed.

Lemma where_type_ok df t :
  has_column df "type" = true ->
  where_type df t
  = Ok (mkDataFrame (columns df)
          (filter (fun r => TradeType_eqb (type (snd r)) t) (rows df))).
Proof.
  intros H. unfold where_type. now rewrite (getattr_ok _ _ _ H).
Qed.

Lemma monthly_rows_ok_or_index_error flag (g : Timestamp * DataFrame) :
  has_trade_columns (snd g) = true ->
  column_dtype (snd g) "exit_date" = Some datetime64 ->
  PerformanceSummary.monthly_rows flag g = Raise IndexError \/
  exists y, PerformanceSummary.monthly_rows flag g = Ok y.
Proof.
  intros Hc Hd. unfold PerformanceSummary.monthly_rows.
  destruct (performance_summary_ok_or_index_error (snd g) Hc Hd) as [->|(s & ->)];
    [now left|].
  cbn [bind]. destruct flag; [|right; eexists; reflexivity].
  rewrite !where_type_ok by column Hc. cbn [bind].
  destruct (performance_summary_ok_or_index_error
              (mkDataFrame (columns (snd g))
                 (filter (fun r => TradeType_eqb (type (snd r)) LONG) (rows (snd g))))
              Hc Hd) as [->|(sl & ->)]; [now left|].
  cbn [bind].
  destruct (performance_summary_ok_or_index_error
              (mkDataFrame (columns (snd g))
                 (filter (fun r => TradeType_eqb (type (snd r)) SHORT) (rows (snd g))))
              Hc Hd) as [->|(ss & ->)]; [now left|].
  cbn [bind]. right. eexists. reflexivity.
Qed.

(** Whenever a calendar month between the first and the last entry holds no
    trade, [monthly_performance] raises [IndexError], with or without the
    separation of long and short trades; the exit times are taken to be
    held as times, or the first month raises [TypeError] before. *)
Lemma monthly_performance_raises_on_empty_month (l : list Trade) flag k :
  l <> [] -> (exists trade, In trade l /\ exit_date trade <> None) ->
  In k (months l) -> month_trades l k = [] ->
  fst (DataFrameTV.monthly_performance l flag) = Raise IndexError.
Proof.
  intros Hl Hdated Hk Hempty.
  destruct (monthly_groups_of_list l Hl) as (df & Hdf & Hgroups).
  rewrite (proj2 (exit_date_dtype_iff l) Hdated) in Hgroups.
  unfold DataFrameTV.monthly_performance.
  rewrite (monthly_performance_of_list [AsList l] 0 flag l eq_refl), Hdf.
  cbn [fst]. unfold monthly_report. rewrite Hgroups. cbn [bind].
  rewrite (mapM_raises _ IndexError); [reflexivity | |].
  - intros g Hg. apply in_map_iff in Hg. destruct Hg as (k' & <- & _).
    now apply monthly_rows_ok_or_index_error.
  - exists (Calendar.month_end k,
            mkDataFrame (Trade_dtypes datetime64) (bucket (timed_rows l) k)).
    split; [apply in_map_iff; now exists k|].
    unfold PerformanceSummary.monthly_rows. cbn [fst snd].
    rewrite performance_summary_of_empty_group; [reflexivity | reflexivity |].
    cbn [rows]. unfold month_trades in Hempty.
    now apply map_eq_nil in Hempty.
Qed.

(** C8, at a list with a month without trades and at a month without short
    trades: January and March hold a trade, February none, and the call
    raises [IndexError] instead of returning two rows; a month of long
    trades only gives one row when all trades are reported together, and
    [IndexError] when long and short trades are asked for separately. *)
Theorem monthly_performance_raises_on_months_without_trades :
  months Sample.skipped_month = [24264; 24265; 24266]%Z /\
  month_trades Sample.skipped_month 24265 = [] /\
  fst (DataFrameTV.monthly_performance Sample.skipped_month false)
  = Raise IndexError /\
  (exists s,
     fst (DataFrameTV.monthly_performance Sample.long_only false)
     = Ok [("2022-01-31", s)]) /\
  fst (DataFrameTV.monthly_performance Sample.long_only true) = Raise IndexError.
Proof.
  split; [reflexivity|]. split; [reflexivity|].
  split; [|split].
  - apply (monthly_performance_raises_on_empty_month _ false 24265%Z);
      [ discriminate
      | eexists; split; [now left | discriminate]
      | vm_compute; tauto
      | reflexivity ].
  - eexists. reflexivity.
  - reflexivity.
Qed.
End EmptyMonths.

(** * Further properties of the code *)

(** ** Sequences of fallible steps *)

Section Sequences.
Lemma mapM_Forall2 {A B : Type} (f : A -> result B) xs : forall ys,
  mapM f xs = Ok ys -> Forall2 (fun x y => f x = Ok y) xs ys.
Proof.
  induction xs as [|x xs IH]; simpl; intros ys H.
  - inversion H. constructor.
  - destruct (f x) as [y|e] eqn:Hx; simpl in H; [|discriminate].
    destruct (mapM f xs) as [ys'|e]; simpl in H; [|discriminate].
    inversion H; subst. constructor; auto.
Qed.

Lemma Forall2_map_l {A B C : Type} (g : A -> B) (P : B -> C -> Prop) xs ys :
  Forall2 P (map g xs) ys <-> Forall2 (fun x y => P (g x) y) xs ys.
Proof.
  split.
  - revert ys. induction xs as [|x xs IH]; simpl; intros ys H; inversion H; subst;
      constructor; auto.
  - induction 1; simpl; constructor; auto.
Qed.

Lemma mapM_Ok_iff {A B : Type} (f : A -> result B) xs :
  (exists ys, mapM f xs = Ok ys) <-> (forall x, In x xs -> exists y, f x = Ok y).
Proof.
  induction xs as [|x xs IH]; simpl.
  - split; [intros _ x [] | intros _; now exists []].
  - split.
    + intros (ys & H) x' [<-|Hin].
      * destruct (f x) as [y|e]; [now exists y | discriminate].
      * destruct (f x) as [y|e]; [|discriminate]. cbn [bind] in H.
        destruct (mapM f xs) as [ys'|e]; [|discriminate].
        apply (proj1 IH); [now exists ys' | exact Hin].
    + intros H. destruct (H x (or_introl eq_refl)) as (y & ->). cbn [bind].
      destruct (proj2 IH (fun x' Hx' => H x' (or_intror Hx'))) as (ys & ->).
      now eexists.
Qed.


End Sequences.

(** What is known of the formulas once the orchestrator has returned. *)
Ltac formulas_returned H :=
  unfold PerformanceSummary.performance_summary in H;
  repeat match type of H with
         | bind (Ok _) _ = Ok _ => cbn [bind] in H
         | bind ?m _ = Ok _ =>
             let E := fresh "E" in
             destruct m eqn:E; cbn [bind] in H; [|discriminate H]
         end;
  injection H as H; subst.


(** ** The orchestrator returns on every collection that has a trade *)

Section OrchestratorTotal.
Context {pandas : Pandas}.
Import CalculatePerformanceSummary.

Lemma dropna_subset_ok df name field :
  has_column df name = true ->
  dropna_subset df name field
  = Ok (mkDataFrame (columns df)
          (filter (fun r => negb (Float64.isnan (field (snd r)))) (rows df))).
Proof.
  intros H. unfold dropna_subset. now rewrite H.
Qed.





End OrchestratorTotal.




(** ** The entries of the report *)

Section Entries.
Context {pandas : Pandas}.
Import CalculatePerformanceSummary.

(** X3.  Whenever [performance_summary] returns, every formula has
    returned and each of the 32 labels holds the value of the formula of
    that name: the list of values and the list of labels, written
    separately in the code, are aligned. *)
Theorem performance_summary_entries_are_their_formulas (trades : trades_arg) s :
  PerformanceSummary.performance_summary trades = Ok s ->
  reports s "Net Profit" VFloat (net_profit trades) /\
  reports s "Net Profit %" VFloat (net_profit_percent trades) /\
  reports s "Gross Profit" VFloat (gross_profit trades) /\
  reports s "Gross Profit %" VFloat (gross_profit_percent trades) /\
  reports s "Gross Loss" VFloat (gross_loss trades) /\
  reports s "Gross Loss %" VFloat (gross_loss_percent trades) /\
  reports s "Max Run Up" VFloat (max_run_up trades) /\
  reports s "Max Run Up %" VFloat (max_run_up_percent trades) /\
  reports s "Max Draw Down" VFloat (max_draw_down trades) /\
  reports s "Max Draw Down %" VFloat (max_draw_down_percent trades) /\
  reports s "Buy and Hold" VFloat (buy_and_hold trades) /\
  reports s "Buy and Hold %" VFloat (buy_and_hold_percent trades) /\
  reports s "Profit Factor" VFloat (profit_factor trades) /\
  reports s "Max Contract Held" VFloat (max_contract_held trades) /\
  reports s "Total Closed Trades" VInt (total_closed_trades trades) /\
  reports s "Total Open Trades" VInt (total_open_trades trades) /\
  reports s "Number Winning Trades" VInt (number_winning_trades trades) /\
  reports s "Number Losing Trades" VInt (number_losing_trades trades) /\
  reports s "Avg Trade" VFloat (avg_trade trades) /\
  reports s "Avg Trade %" VFloat (avg_trade_percent trades) /\
  reports s "Avg Winning Trade" VFloat (avg_winning_trade trades) /\
  reports s "Avg Winning Trade %" VFloat (avg_winning_trade_percent trades) /\
  reports s "Avg Losing Trade" VFloat (avg_losing_trade trades) /\
  reports s "Avg Losing Trade %" VFloat (avg_losing_trade_percent trades) /\
  reports s "Ratio Avg Win Avg Loss" VFloat (ratio_avg_win_avg_loss trades) /\
  reports s "Largest Winning Trade" VFloat (largest_winning_trade trades) /\
  reports s "Largest Winning Trade %" VFloat (largest_winning_trade_percent trades) /\
  reports s "Largest Losing Trade" VFloat (largest_losing_trade trades) /\
  reports s "Largest Losing Trade %" VFloat (largest_losing_trade_percent trades) /\
  reports s "Avg Bars in Trades" VTimedelta (avg_bars_in_trades trades) /\
  reports s "Avg Bars in Winning Trades" VTimedelta
    (avg_bars_in_winning_trades trades) /\
  reports s "Avg Bars in Losing Trades" VTimedelta
    (avg_bars_in_losing_trades trades).
Proof.
  intros H. formulas_returned H. unfold reports.
  repeat split; eexists; (split; [reflexivity|]); reflexivity.
Qed.
End Entries.

Lemma performance_summary_entries_are_their_formulas_witness :
  exists s,
    PerformanceSummary.performance_summary (AsList Sample.small_profits) = Ok s /\
    reports s "Total Closed Trades" VInt
      (CalculatePerformanceSummary.total_closed_trades (AsList Sample.small_profits)) /\
    reports s "Largest Losing Trade %" VFloat
      (CalculatePerformanceSummary.largest_losing_trade_percent
         (AsList Sample.small_profits)).
Proof.
  eexists. split; [reflexivity|].
  split;
    apply (performance_summary_entries_are_their_formulas
             (AsList Sample.small_profits) _ eq_refl).
Defined.
(** ** Counting trades *)

Section Counting.
Import CalculatePerformanceSummary.

Lemma count_split {A : Type} (value : A -> float) (p q : A -> bool) xs :
  (forall x, p x = true -> q x = false) ->
  Float64.count (map value (filter p xs)) + Float64.count (map value (filter q xs))
  <= List.length (filter (fun x => negb (Float64.isnan (value x))) xs).
Proof.
  intros Hpq. unfold Float64.count, Float64.dropna.
  induction xs as [|x xs IH]; simpl; [lia|].
  destruct (p x) eqn:Hp.
  - rewrite (Hpq x Hp). simpl.
    destruct (Float64.isnan (value x)); simpl; lia.
  - destruct (q x); simpl; destruct (Float64.isnan (value x)); simpl; lia.
Qed.

Lemma filter_length_le' {A : Type} (p : A -> bool) xs :
  List.length (filter p xs) <= List.length xs.
Proof.
  induction xs as [|x xs IH]; simpl; [lia|]. destruct (p x); simpl; lia.
Qed.

(** X4.  On a populated collection the winning and the losing trades
    together never outnumber the closed trades: a trade is counted as
    winning or as losing only if its size is present, and never as both. *)
Theorem winning_plus_losing_at_most_closed (trades : trades_arg) :
  populated trades ->
  exists winning losing closed,
    number_winning_trades trades = Ok winning /\
    number_losing_trades trades = Ok losing /\
    total_closed_trades trades = Ok closed /\
    winning + losing <= closed.
Proof.
  intros H. destruct (populated_as_frame trades H) as [Hc _].
  unfold number_winning_trades, number_losing_trades.
  rewrite !where_ok by column Hc. cbn [bind].
  rewrite !getattr_ok by column Hc. cbn [bind rows].
  pose proof (count_split (fun r : Label * Trade => contract (snd r))
                (fun r => gt0 (profit (snd r))) (fun r => lt0 (profit (snd r)))
                (rows (as_frame trades))
                (fun r Hr => gt0_not_lt0 _ Hr)) as Hle.
  destruct trades as [l|df]; cbn [total_closed_trades as_frame] in *.
  - rewrite dropna_subset_ok by column Hc. cbn [bind].
    do 3 eexists. split; [reflexivity|]. split; [reflexivity|].
    split; [reflexivity|]. unfold len. cbn [rows]. exact Hle.
  - do 3 eexists. split; [reflexivity|]. split; [reflexivity|].
    split; [reflexivity|]. unfold len.
    etransitivity; [exact Hle | apply filter_length_le'].
Qed.
End Counting.

Lemma winning_plus_losing_at_most_closed_witness :
  exists winning losing closed,
    CalculatePerformanceSummary.number_winning_trades (AsList Sample.small_profits)
    = Ok winning /\
    CalculatePerformanceSummary.number_losing_trades (AsList Sample.small_profits)
    = Ok losing /\
    CalculatePerformanceSummary.total_closed_trades (AsList Sample.small_profits)
    = Ok closed /\
    winning + losing <= closed.
Proof.
  apply (winning_plus_losing_at_most_closed (AsList Sample.small_profits)).
  simpl. discriminate.
Defined.

(** ** Drawdown and the averages of a missing kind *)

Section Extremes.
Import CalculatePerformanceSummary.
Local Open Scope float_scope.

Lemma SFeqb_refl x : x <> S754_nan -> SFeqb x x = true.
Proof.
  unfold SFeqb, SFcompare.
  destruct x as [s|s| |s m e]; intros H.
  - reflexivity.
  - destruct s; reflexivity.
  - congruence.
  - assert (He : IntDef.Z.compare e e = Eq) by apply Z.compare_refl.
    assert (Hm : PosDef.Pos.compare_cont Eq m m = Eq)
      by apply Pos.compare_cont_refl.
    destruct s; rewrite He, Hm; reflexivity.
Qed.

Lemma fold_pick_In (better : float -> float -> bool) ys : forall x,
  In (fold_left (fun acc y => if better acc y then y else acc) ys x) (x :: ys).
Proof.
  induction ys as [|y ys IH]; intros x; simpl; [now left|].
  destruct (IH (if better x y then y else x)) as [E|Hin]; [|now right; right].
  rewrite <- E. destruct (better x y); [right; now left | now left].
Qed.

Lemma max_In xs x ys :
  Float64.dropna xs = x :: ys -> In (Float64.max xs) (Float64.dropna xs).
Proof.
  intros E. unfold Float64.max. rewrite E. apply (fold_pick_In PrimFloat.leb).
Qed.

Lemma opp_signed s x :
  signed s (Prim2SF x) = true -> signed (negb s) (Prim2SF (- x)) = true.
Proof.
  rewrite FloatAxioms.opp_spec.
  destruct (Prim2SF x) as [s0|s0| |s0 m e]; simpl; try discriminate; auto;
    intros E; apply eqb_prop in E; subst s0; apply eqb_reflx.
Qed.

Lemma leb0_notnan x : (0 <=? x) = true -> Float64.isnan x = false.
Proof.
  rewrite leb0_signed. intros H.
  unfold Float64.isnan, is_nan. rewrite FloatAxioms.eqb_spec.
  rewrite SFeqb_refl; [reflexivity|].
  destruct (Prim2SF x); try discriminate.
Qed.

(** X5.  When every trade of a populated collection records a drawdown that
    is [>= 0], Max Draw Down is returned as a number [<= 0]: the largest
    recorded drawdown, negated. *)
Theorem max_draw_down_is_not_positive (trades : trades_arg) :
  populated trades ->
  (forall t, In t (trades_of trades) -> (0 <=? draw_down t) = true) ->
  exists worst,
    max_draw_down trades = Ok (- worst) /\
    In worst (map draw_down (trades_of trades)) /\
    (- worst <=? 0) = true.
Proof.
  intros H Hall. destruct (populated_as_frame trades H) as [Hc Hrows].
  unfold max_draw_down. rewrite getattr_ok by column Hc. cbn [bind].
  rewrite column_of_trades.
  destruct (trades_of trades) as [|t ts] eqn:Et.
  { exfalso. apply Hrows. rewrite <- trades_of_as_frame in Et.
    now apply map_eq_nil in Et. }
  assert (Hcol : forall d, In d (map draw_down (t :: ts)) -> (0 <=? d) = true).
  { intros d Hd. apply in_map_iff in Hd. destruct Hd as (t' & <- & Ht). auto. }
  assert (Edrop : Float64.dropna (map draw_down (t :: ts)) = map draw_down (t :: ts)).
  { unfold Float64.dropna. apply filter_all.
    intros d Hd. now rewrite (leb0_notnan d (Hcol d Hd)). }
  pose proof (max_In _ _ _ Edrop) as Hin. rewrite Edrop in Hin.
  exists (Float64.max (map draw_down (t :: ts))).
  split; [reflexivity|]. split; [exact Hin|].
  rewrite leb_0_signed. apply (opp_signed false).
  rewrite <- leb0_signed. now apply Hcol.
Qed.

Lemma Prim2SF_nan : Prim2SF nan = S754_nan.
Proof. reflexivity. Qed.

Lemma div_nan_l x : nan / x = nan.
Proof.
  apply Prim2SF_inj. rewrite FloatAxioms.div_spec, Prim2SF_nan. reflexivity.
Qed.

Lemma div_abs_nan_r x : x / abs nan = nan.
Proof.
  apply Prim2SF_inj.
  rewrite FloatAxioms.div_spec, FloatAxioms.abs_spec, Prim2SF_nan.
  simpl SFabs. unfold SF64div, SFdiv. destruct (Prim2SF x); reflexivity.
Qed.

(** X6.  With no winning trade, or with no losing trade, the averages over
    the missing kind are NaN and so is Ratio Avg Win Avg Loss: an empty
    subset raises nothing and is reported as NaN. *)
Theorem ratio_avg_win_avg_loss_of_a_missing_kind (trades : trades_arg) :
  populated trades ->
  let profits := map profit (trades_of trades) in
  (filter gt0 profits = [] ->
   avg_winning_trade trades = Ok nan /\ ratio_avg_win_avg_loss trades = Ok nan) /\
  (filter lt0 profits = [] ->
   avg_losing_trade trades = Ok nan /\ ratio_avg_win_avg_loss trades = Ok nan).
Proof.
  intros H profits. destruct (populated_as_frame trades H) as [Hc _].
  assert (Hw : avg_winning_trade trades = Ok (Float64.mean (filter gt0 profits))).
  { unfold avg_winning_trade. rewrite where_ok by column Hc. cbn [bind].
    rewrite getattr_ok by column Hc. cbn [bind rows].
    now rewrite (filter_map_comm (fun r : Label * Trade => profit (snd r))),
      column_of_trades. }
  assert (Hl : avg_losing_trade trades = Ok (Float64.mean (filter lt0 profits))).
  { unfold avg_losing_trade. rewrite where_ok by column Hc. cbn [bind].
    rewrite getattr_ok by column Hc. cbn [bind rows].
    now rewrite (filter_map_comm (fun r : Label * Trade => profit (snd r))),
      column_of_trades. }
  assert (Hr : ratio_avg_win_avg_loss trades
               = Ok (Float64.mean (filter gt0 profits)
                     / abs (Float64.mean (filter lt0 profits)))).
  { unfold ratio_avg_win_avg_loss.
    change (avg_winning_trade (AsFrame (as_frame trades)))
      with (avg_winning_trade trades).
    change (avg_losing_trade (AsFrame (as_frame trades)))
      with (avg_losing_trade trades).
    now rewrite Hw, Hl. }
  split; intros E.
  - rewrite Hw, Hr, E. split; [reflexivity|].
    change (Float64.mean []) with nan. now rewrite div_nan_l.
  - rewrite Hl, Hr, E. split; [reflexivity|].
    change (Float64.mean []) with nan. now rewrite div_abs_nan_r.
Qed.
End Extremes.

Lemma max_draw_down_is_not_positive_witness :
  exists worst,
    CalculatePerformanceSummary.max_draw_down (AsList Sample.two_winners)
    = Ok (- worst)%float /\
    (- worst <=? 0)%float = true.
Proof.
  destruct (max_draw_down_is_not_positive (AsList Sample.two_winners))
    as (worst & Hm & _ & Hle).
  - simpl. discriminate.
  - intros t [<-|[<-|[]]]; reflexivity.
  - exists worst. split; [exact Hm | exact Hle].
Defined.

Lemma ratio_avg_win_avg_loss_of_a_missing_kind_witness :
  CalculatePerformanceSummary.avg_losing_trade (AsList Sample.two_winners) = Ok nan /\
  CalculatePerformanceSummary.ratio_avg_win_avg_loss (AsList Sample.two_winners)
  = Ok nan.
Proof.
  apply (proj2 (ratio_avg_win_avg_loss_of_a_missing_kind (AsList Sample.two_winners)
                  ltac:(simpl; discriminate))).
  reflexivity.
Defined.

(** ** The extremes are extremes *)

Section Order.
Local Open Scope float_scope.

Lemma SFleb_rank x y :
  x <> S754_nan -> y <> S754_nan ->
  (SFleb x y = true <-> rank_le (rank x) (rank y)).
Proof.
  intros Hx Hy. unfold SFleb, SFcompare.
  destruct x as [sx|sx| |sx mx ex]; [| | congruence |];
  destruct y as [sy|sy| |sy my ey]; try congruence;
    try (destruct sx); try (destruct sy); simpl;
    try (split; [intros _; lia | reflexivity]);
    try (split; [discriminate | lia]).
  - change (IntDef.Z.compare ex ey) with (Z.compare ex ey).
    change (PosDef.Pos.compare_cont Eq mx my) with (Pos.compare mx my).
    destruct (Z.compare_spec ex ey); [destruct (Pos.compare_spec mx my)| |]; simpl;
      (split; [try discriminate; intros _; lia | try reflexivity; lia]).
  - change (IntDef.Z.compare ex ey) with (Z.compare ex ey).
    change (PosDef.Pos.compare_cont Eq mx my) with (Pos.compare mx my).
    destruct (Z.compare_spec ex ey); [destruct (Pos.compare_spec mx my)| |]; simpl;
      (split; [try discriminate; intros _; lia | try reflexivity; lia]).
Qed.

Lemma notnan_SF x : Float64.isnan x = false -> Prim2SF x <> S754_nan.
Proof.
  unfold Float64.isnan, is_nan. rewrite FloatAxioms.eqb_spec. intros H E.
  rewrite E in H. discriminate H.
Qed.

Lemma leb_rank x y :
  Float64.isnan x = false -> Float64.isnan y = false ->
  ((x <=? y) = true <-> rank_le (rank (Prim2SF x)) (rank (Prim2SF y))).
Proof.
  intros Hx Hy. rewrite FloatAxioms.leb_spec.
  apply SFleb_rank; now apply notnan_SF.
Qed.

Lemma rank_le_refl a : rank_le a a.
Proof. destruct a as [[c e] m]. unfold rank_le. lia. Qed.

Lemma rank_le_trans a b c : rank_le a b -> rank_le b c -> rank_le a c.
Proof.
  destruct a as [[c1 e1] m1], b as [[c2 e2] m2], c as [[c3 e3] m3].
  unfold rank_le. lia.
Qed.

Lemma rank_not_le a b : ~ rank_le a b -> rank_le b a.
Proof.
  destruct a as [[c1 e1] m1], b as [[c2 e2] m2]. unfold rank_le. lia.
Qed.

(** The running maximum of a column without missing values. *)
Lemma fold_max_upper ys : forall x,
  Float64.isnan x = false ->
  (forall y, In y ys -> Float64.isnan y = false) ->
  let m := fold_left (fun acc y => if acc <=? y then y else acc) ys x in
  Float64.isnan m = false /\
  forall y, In y (x :: ys) -> (y <=? m) = true.
Proof.
  induction ys as [|y ys IH]; intros x Hx Hys; cbn [fold_left].
  - split; [exact Hx|]. intros y [<-|[]].
    apply leb_rank; auto. apply rank_le_refl.
  - assert (Hy : Float64.isnan y = false) by (apply Hys; now left).
    assert (Hstep : Float64.isnan (if x <=? y then y else x) = false)
      by (destruct (x <=? y); assumption).
    destruct (IH (if x <=? y then y else x) Hstep
                (fun y' Hy' => Hys y' (or_intror Hy'))) as [Hm Hle].
    split; [exact Hm|].
    pose proof (Hle _ (or_introl eq_refl)) as Hstep_le.
    apply leb_rank in Hstep_le; auto.
    intros z [<-|[<-|Hz]].
    + apply leb_rank; auto.
      eapply rank_le_trans; [|exact Hstep_le].
      destruct (x <=? y) eqn:E.
      * now apply leb_rank.
      * apply rank_le_refl.
    + apply leb_rank; auto.
      eapply rank_le_trans; [|exact Hstep_le].
      destruct (x <=? y) eqn:E.
      * apply rank_le_refl.
      * apply rank_not_le. intros Hle'. apply leb_rank in Hle'; auto. congruence.
    + apply Hle. now right.
Qed.

Lemma fold_min_lower ys : forall x,
  Float64.isnan x = false ->
  (forall y, In y ys -> Float64.isnan y = false) ->
  let m := fold_left (fun acc y => if y <=? acc then y else acc) ys x in
  Float64.isnan m = false /\
  forall y, In y (x :: ys) -> (m <=? y) = true.
Proof.
  induction ys as [|y ys IH]; intros x Hx Hys; cbn [fold_left].
  - split; [exact Hx|]. intros y [<-|[]].
    apply leb_rank; auto. apply rank_le_refl.
  - assert (Hy : Float64.isnan y = false) by (apply Hys; now left).
    assert (Hstep : Float64.isnan (if y <=? x then y else x) = false)
      by (destruct (y <=? x); assumption).
    destruct (IH (if y <=? x then y else x) Hstep
                (fun y' Hy' => Hys y' (or_intror Hy'))) as [Hm Hle].
    split; [exact Hm|].
    pose proof (Hle _ (or_introl eq_refl)) as Hstep_le.
    apply leb_rank in Hstep_le; auto.
    intros z [<-|[<-|Hz]].
    + apply leb_rank; auto.
      eapply rank_le_trans; [exact Hstep_le|].
      destruct (y <=? x) eqn:E.
      * now apply leb_rank.
      * apply rank_le_refl.
    + apply leb_rank; auto.
      eapply rank_le_trans; [exact Hstep_le|].
      destruct (y <=? x) eqn:E.
      * apply rank_le_refl.
      * apply rank_not_le. intros Hle'. apply leb_rank in Hle'; auto. congruence.
    + apply Hle. now right.
Qed.

Lemma dropna_In xs x :
  In x (Float64.dropna xs) <-> In x xs /\ Float64.isnan x = false.
Proof.
  unfold Float64.dropna. rewrite filter_In.
  destruct (Float64.isnan x); simpl; intuition congruence.
Qed.

Lemma max_largest xs : largest_of xs (Float64.max xs).
Proof.
  unfold largest_of, Float64.max.
  destruct (Float64.dropna xs) as [|x ys] eqn:E; split; try congruence.
  intros _.
  assert (Hx : Float64.isnan x = false)
    by (apply (dropna_In xs); rewrite E; now left).
  assert (Hys : forall y, In y ys -> Float64.isnan y = false)
    by (intros y Hy; apply (dropna_In xs); rewrite E; now right).
  destruct (fold_max_upper ys x Hx Hys) as [Hm Hle].
  split; [|split; [exact Hm|]].
  - apply (dropna_In xs). rewrite E. apply (fold_pick_In PrimFloat.leb).
  - intros v Hv Hnan. apply Hle. rewrite <- E. now apply dropna_In.
Qed.

Lemma min_smallest xs : smallest_of xs (Float64.min xs).
Proof.
  unfold smallest_of, Float64.min.
  destruct (Float64.dropna xs) as [|x ys] eqn:E; split; try congruence.
  intros _.
  assert (Hx : Float64.isnan x = false)
    by (apply (dropna_In xs); rewrite E; now left).
  assert (Hys : forall y, In y ys -> Float64.isnan y = false)
    by (intros y Hy; apply (dropna_In xs); rewrite E; now right).
  destruct (fold_min_lower ys x Hx Hys) as [Hm Hle].
  split; [|split; [exact Hm|]].
  - apply (dropna_In xs). rewrite E.
    apply (fold_pick_In (fun acc y => y <=? acc)).
  - intros v Hv Hnan. apply Hle. rewrite <- E. now apply dropna_In.
Qed.
End Order.

Section ExtremesAreExtremes.
Import CalculatePerformanceSummary.
Local Open Scope float_scope.

(** X7.  On a populated collection the extremes of the report are extremes
    of their columns, missing values skipped: Max Run Up and Max Contract
    Held are the largest run-up and the largest size, Max Draw Down is the
    largest drawdown negated, Largest Winning Trade is the largest profit
    above 0 and Largest Losing Trade the smallest profit below 0.  Each is a
    value of its column that no other value passes, or NaN when the column
    holds nothing to compare. *)
Theorem extremes_are_the_largest_and_the_smallest (trades : trades_arg) :
  populated trades ->
  let column (field : Trade -> float) := map field (trades_of trades) in
  exists run size down best worst,
    max_run_up trades = Ok run /\
    max_contract_held trades = Ok size /\
    max_draw_down trades = Ok (- down) /\
    largest_winning_trade trades = Ok best /\
    largest_losing_trade trades = Ok worst /\
    largest_of (column run_up) run /\
    largest_of (column contract) size /\
    largest_of (column draw_down) down /\
    largest_of (filter gt0 (column profit)) best /\
    smallest_of (filter lt0 (column profit)) worst.
Proof.
  intros H column. destruct (populated_as_frame trades H) as [Hc _].
  unfold max_run_up, max_contract_held, max_draw_down, largest_winning_trade,
    largest_losing_trade.
  rewrite !where_ok by column Hc. cbn [bind].
  rewrite !getattr_ok by column Hc. cbn [bind rows].
  rewrite !(filter_map_comm (fun r : Label * Trade => profit (snd r))).
  rewrite !column_of_trades. fold (column run_up) (column contract)
    (column draw_down) (column profit).
  do 5 eexists. repeat (split; [reflexivity|]).
  split; [apply max_largest|]. split; [apply max_largest|].
  split; [apply max_largest|]. split; [apply max_largest | apply min_smallest].
Qed.
End ExtremesAreExtremes.

Lemma extremes_are_the_largest_and_the_smallest_witness :
  exists run size down best worst,
    CalculatePerformanceSummary.max_run_up (AsList Sample.small_profits) = Ok run /\
    CalculatePerformanceSummary.max_contract_held (AsList Sample.small_profits)
    = Ok size /\
    CalculatePerformanceSummary.max_draw_down (AsList Sample.small_profits)
    = Ok (- down)%float /\
    CalculatePerformanceSummary.largest_winning_trade (AsList Sample.small_profits)
    = Ok best /\
    CalculatePerformanceSummary.largest_losing_trade (AsList Sample.small_profits)
    = Ok worst /\
    largest_of (map run_up Sample.small_profits) run /\
    largest_of (map contract Sample.small_profits) size /\
    largest_of (map draw_down Sample.small_profits) down /\
    largest_of (filter gt0 (map profit Sample.small_profits)) best /\
    smallest_of (filter lt0 (map profit Sample.small_profits)) worst.
Proof.
  apply (extremes_are_the_largest_and_the_smallest (AsList Sample.small_profits)).
  simpl. discriminate.
Defined.

(** ** The sign of the averages and of the ratios *)

Section SignOfQuotients.
Variables prec emax : Z.

Lemma binary_round_aux_sign_bit s m e l :
  (0 <= m)%Z -> sign_bit s (binary_round_aux prec emax s m e l) = true.
Proof.
  intros H. unfold binary_round_aux.
  pose proof (shr_fexp_nonneg prec emax m e l H) as H1.
  destruct (shr_fexp prec emax m e l) as [mrs' e']; simpl in H1.
  pose proof (shr_fexp_nonneg prec emax _ e' loc_Exact
                (round_nearest_even_nonneg _ (loc_of_shr_record mrs') H1)) as H2.
  destruct (shr_fexp prec emax _ e' loc_Exact) as [mrs'' e'']; simpl in H2.
  destruct (shr_m mrs'') as [|p|p]; simpl.
  - apply eqb_reflx.
  - destruct (e'' <=? emax - prec)%Z; simpl; apply eqb_reflx.
  - lia.
Qed.

Lemma binary_round_sign_bit s m e :
  sign_bit s (binary_round prec emax s m e) = true.
Proof.
  unfold binary_round.
  destruct (shl_align m e _) as [mz ez].
  apply binary_round_aux_sign_bit. lia.
Qed.

Lemma SFdiv_core_binary_nonneg mx ex my ey :
  (0 <= fst (fst (SFdiv_core_binary prec emax (Z.pos mx) ex (Z.pos my) ey)))%Z.
Proof.
  unfold SFdiv_core_binary.
  set (s := (ex - ey - _)%Z).
  set (m' := match s with
             | 0%Z => Z.pos mx
             | Z.pos _ => IntDef.Z.shiftl (Z.pos mx) s
             | Z.neg _ => 0%Z
             end).
  assert (Hm : (0 <= m')%Z).
  { unfold m'. destruct s; try lia.
    change (IntDef.Z.shiftl (Z.pos mx) (Z.pos p)) with (Z.shiftl (Z.pos mx) (Z.pos p)).
    apply Z.shiftl_nonneg. lia. }
  change (IntDef.Z.div_eucl m' (Z.pos my)) with (Z.div_eucl m' (Z.pos my)).
  pose proof (Z.div_pos m' (Z.pos my) Hm ltac:(lia)) as Hq.
  unfold Z.div in Hq.
  destruct (Z.div_eucl m' (Z.pos my)) as [q r]. exact Hq.
Qed.

(** Dividing by a number whose sign bit is clear keeps the sign of the
    dividend, when the quotient is a number at all. *)
Lemma SFdiv_signed s x y :
  signed s x = true -> sign_bit false y = true ->
  SFdiv prec emax x y = S754_nan \/ signed s (SFdiv prec emax x y) = true.
Proof.
  destruct x as [sx|sx| |sx mx ex], y as [sy|sy| |sy my ey]; simpl;
    intros Hx Hy; try discriminate; auto;
    try (destruct sy; [discriminate Hy|]; rewrite xorb_false_r; now right).
  destruct sy; [discriminate Hy|]. rewrite xorb_false_r. right.
  apply eqb_prop in Hx. subst sx.
  pose proof (SFdiv_core_binary_nonneg mx ex my ey) as Hq.
  destruct (SFdiv_core_binary prec emax (Z.pos mx) ex (Z.pos my) ey) as [[mz ez] lz].
  apply binary_round_aux_signed. exact Hq.
Qed.
End SignOfQuotients.

Section SignedFormulas.
Import CalculatePerformanceSummary.
Local Open Scope float_scope.

Lemma div_signed s x y :
  signed s (Prim2SF x) = true -> sign_bit false (Prim2SF y) = true ->
  x / y = nan \/ signed s (Prim2SF (x / y)) = true.
Proof.
  intros Hx Hy.
  destruct (SFdiv_signed prec emax s _ _ Hx Hy) as [E|E].
  - left. apply Prim2SF_inj. rewrite FloatAxioms.div_spec. unfold SF64div.
    now rewrite E.
  - right. rewrite FloatAxioms.div_spec. exact E.
Qed.

Lemma of_nat_sign_bit n : sign_bit false (Prim2SF (Float64.of_nat n)) = true.
Proof.
  unfold Float64.of_nat. rewrite FloatAxioms.of_uint63_spec.
  pose proof (Uint63.to_Z_bounded (Uint63.of_Z (Z.of_nat n))) as Hb.
  change (Uint63Axioms.to_Z (Uint63.of_Z (Z.of_nat n)))
    with (Uint63.to_Z (Uint63.of_Z (Z.of_nat n))).
  destruct (Uint63.to_Z (Uint63.of_Z (Z.of_nat n))) as [|p|p]; simpl.
  - reflexivity.
  - apply binary_round_sign_bit.
  - lia.
Qed.

Lemma abs_sign_bit x :
  signed true (Prim2SF x) = true -> sign_bit false (Prim2SF (abs x)) = true.
Proof.
  rewrite FloatAxioms.abs_spec.
  destruct (Prim2SF x); simpl; auto; discriminate.
Qed.

(** The mean of a column whose values all have one sign has that sign, or
    is NaN when nothing is left to average. *)
Lemma mean_signed s xs :
  Forall (fun x => signed s (Prim2SF x) = true) xs ->
  Float64.mean xs = nan \/ signed s (Prim2SF (Float64.mean xs)) = true.
Proof.
  intros H. unfold Float64.mean.
  destruct (Float64.count xs) as [|n]; [now left|].
  apply div_signed; [now apply sum_signed | apply of_nat_sign_bit].
Qed.

Lemma winners_signed xs :
  Forall (fun x => signed false (Prim2SF x) = true) (filter gt0 xs).
Proof.
  eapply Forall_impl; [|apply filter_Forall]. intros x. apply gt0_signed.
Qed.

Lemma losers_signed xs :
  Forall (fun x => signed true (Prim2SF x) = true) (filter lt0 xs).
Proof.
  eapply Forall_impl; [|apply filter_Forall]. intros x. apply lt0_signed.
Qed.

Lemma nan_or_signed_false x :
  x = nan \/ signed false (Prim2SF x) = true -> x = nan \/ (0 <=? x) = true.
Proof. rewrite leb0_signed. auto. Qed.

Lemma nan_or_signed_true x :
  x = nan \/ signed true (Prim2SF x) = true -> x = nan \/ (x <=? 0) = true.
Proof. rewrite leb_0_signed. auto. Qed.

(** X8.  On a populated collection the average of the winning trades is
    never below 0 and the average of the losing trades never above 0, and
    neither Ratio Avg Win Avg Loss nor Profit Factor is ever negative: each
    is a number of the expected sign, an infinity included, or NaN. *)
Theorem averages_and_ratios_keep_their_sign (trades : trades_arg) :
  populated trades ->
  exists avg_win avg_loss ratio factor,
    avg_winning_trade trades = Ok avg_win /\
    avg_losing_trade trades = Ok avg_loss /\
    ratio_avg_win_avg_loss trades = Ok ratio /\
    profit_factor trades = Ok factor /\
    (avg_win = nan \/ (0 <=? avg_win) = true) /\
    (avg_loss = nan \/ (avg_loss <=? 0) = true) /\
    (ratio = nan \/ (0 <=? ratio) = true) /\
    (factor = nan \/ (0 <=? factor) = true).
Proof.
  intros H. destruct (populated_as_frame trades H) as [Hc _].
  set (profits := map profit (trades_of trades)).
  assert (Hw : avg_winning_trade trades = Ok (Float64.mean (filter gt0 profits))).
  { unfold avg_winning_trade. rewrite where_ok by column Hc. cbn [bind].
    rewrite getattr_ok by column Hc. cbn [bind rows].
    now rewrite (filter_map_comm (fun r : Label * Trade => profit (snd r))),
      column_of_trades. }
  assert (Hl : avg_losing_trade trades = Ok (Float64.mean (filter lt0 profits))).
  { unfold avg_losing_trade. rewrite where_ok by column Hc. cbn [bind].
    rewrite getattr_ok by column Hc. cbn [bind rows].
    now rewrite (filter_map_comm (fun r : Label * Trade => profit (snd r))),
      column_of_trades. }
  assert (Hr : ratio_avg_win_avg_loss trades
               = Ok (Float64.mean (filter gt0 profits)
                     / abs (Float64.mean (filter lt0 profits)))).
  { unfold ratio_avg_win_avg_loss.
    change (avg_winning_trade (AsFrame (as_frame trades)))
      with (avg_winning_trade trades).
    change (avg_losing_trade (AsFrame (as_frame trades)))
      with (avg_losing_trade trades).
    now rewrite Hw, Hl. }
  assert (Hcp : has_column (as_frame trades) "profit" = true) by column Hc.
  assert (Hf : profit_factor trades
               = Ok (if negb (Float64.sum (filter gt0 profits) =? 0)
                     then Float64.sum (filter gt0 profits)
                          / abs (Float64.sum (filter lt0 profits))
                     else Float64.sum (filter gt0 profits))).
  { unfold profit_factor.
    change (gross_profit (AsFrame (as_frame trades))) with (gross_profit trades).
    change (gross_loss (AsFrame (as_frame trades))) with (gross_loss trades).
    rewrite (gross_profit_eq trades Hcp), (gross_loss_eq trades Hcp). cbn [bind].
    fold profits. now destruct (negb (Float64.sum (filter gt0 profits) =? 0)). }
  pose proof (mean_signed false _ (winners_signed profits)) as Sw.
  pose proof (mean_signed true _ (losers_signed profits)) as Sl.
  pose proof (winners_sum_signed profits) as Gw.
  pose proof (losers_sum_signed profits) as Gl.
  do 4 eexists.
  split; [exact Hw|]. split; [exact Hl|]. split; [exact Hr|]. split; [exact Hf|].
  split; [now apply nan_or_signed_false|].
  split; [now apply nan_or_signed_true|].
  split.
  - apply nan_or_signed_false.
    destruct Sw as [->|Sw]; [left; apply div_nan_l|].
    destruct Sl as [->|Sl]; [left; apply div_abs_nan_r|].
    apply div_signed; [exact Sw | now apply abs_sign_bit].
  - apply nan_or_signed_false.
    destruct (negb (Float64.sum (filter gt0 profits) =? 0)); [|now right].
    apply div_signed; [exact Gw | now apply abs_sign_bit].
Qed.
End SignedFormulas.

Lemma averages_and_ratios_keep_their_sign_witness :
  exists avg_win avg_loss ratio factor,
    CalculatePerformanceSummary.avg_winning_trade (AsList Sample.small_profits)
    = Ok avg_win /\
    CalculatePerformanceSummary.avg_losing_trade (AsList Sample.small_profits)
    = Ok avg_loss /\
    CalculatePerformanceSummary.ratio_avg_win_avg_loss (AsList Sample.small_profits)
    = Ok ratio /\
    CalculatePerformanceSummary.profit_factor (AsList Sample.small_profits)
    = Ok factor /\
    (avg_win = nan \/ (0 <=? avg_win)%float = true) /\
    (avg_loss = nan \/ (avg_loss <=? 0)%float = true) /\
    (ratio = nan \/ (0 <=? ratio)%float = true) /\
    (factor = nan \/ (0 <=? factor)%float = true).
Proof.
  apply (averages_and_ratios_keep_their_sign (AsList Sample.small_profits)).
  simpl. discriminate.
Defined.

(** ** The summaries of the long and of the short trades *)

Section Directions.
Context {pandas : Pandas}.
Import CalculatePerformanceSummary.






End Directions.


(** ** A list and the frame built from it *)

Section ListAndFrame.
Context {pandas : Pandas}.
Import CalculatePerformanceSummary.




End ListAndFrame.


(** ** More on the trade reducer *)

Section ReducerMore.
Context {pandas : Pandas}.

(** X11.  [convert] reads the first two rows of its group and nothing else:
    further rows, which the reducer does not filter out, change neither the
    trade nor the exception. *)
Theorem convert_reads_the_first_two_rows_only (first second : RawRow) rest :
  ConvertTradeTV.convert (first :: second :: rest)
  = ConvertTradeTV.convert [first; second].
Proof.
  unfold ConvertTradeTV.convert.
  now rewrite !iloc_1_cons, !iloc_0_cons.
Qed.

(** X12.  On a Type field made of two words separated by one space, the
    first word plays no part: the direction is long exactly when the second
    word, lower-cased, is "long", whether the first says Entry, Exit or
    anything else, and the row in second position is taken as the entry. *)
Theorem convert_ignores_the_role (exit_row entry_row : RawRow)
    (role direction : string) (entered exited : Timestamp) :
  AsSpecified.word role -> AsSpecified.word direction ->
  raw_type entry_row = (role ++ " " ++ direction)%string ->
  to_datetime (raw_date_time entry_row) = Ok entered ->
  to_datetime (raw_date_time exit_row) = Ok exited ->
  exists t,
    ConvertTradeTV.convert [exit_row; entry_row] = Ok t /\
    (type t = LONG <-> Str.lower direction = "long") /\
    (type t = SHORT <-> Str.lower direction <> "long") /\
    entry_price t = raw_price entry_row /\
    exit_price t = raw_price exit_row.
Proof.
  intros Hrole Hdir Htype Hin Hout.
  destruct (split_of_documented_type role direction Hrole Hdir) as [Hsplit _].
  unfold ConvertTradeTV.convert.
  rewrite iloc_1_pair, iloc_0_cons. cbn [bind].
  rewrite Htype, Hsplit, iloc_1_pair. cbn [bind]. rewrite Hin, Hout. cbn [bind].
  eexists. split; [reflexivity|]. cbn [type entry_price exit_price].
  destruct (String.eqb_spec (Str.lower direction) "long") as [E|E].
  - repeat split; auto; intros; congruence.
  - repeat split; auto; intros; congruence.
Qed.

Lemma insert_key_sorted k ks :
  Sorted Z.lt ks -> Sorted Z.lt (DataFrameTV.insert_key k ks).
Proof.
  induction ks as [|k' ks IH]; simpl; intros H.
  - repeat constructor.
  - destruct (k <? k')%Z eqn:E1.
    + apply Z.ltb_lt in E1. constructor; [exact H | now constructor].
    + destruct (k =? k')%Z eqn:E2; [exact H|].
      apply Z.ltb_ge in E1. apply Z.eqb_neq in E2.
      inversion H as [|? ? Hs Hhd]; subst.
      constructor; [now apply IH|].
      destruct ks as [|k'' ks]; simpl.
      * constructor. lia.
      * inversion Hhd; subst.
        destruct (k <? k'')%Z; [constructor; lia|].
        destruct (k =? k'')%Z; constructor; lia.
Qed.

Lemma group_keys_sorted (trades : list RawRow) :
  Sorted Z.lt (DataFrameTV.group_keys trades).
Proof.
  unfold DataFrameTV.group_keys.
  induction (map raw_trade_no trades) as [|k ks IH]; simpl;
    [constructor | now apply insert_key_sorted].
Qed.

Lemma group_keys_In_inv (trades : list RawRow) k :
  In k (DataFrameTV.group_keys trades) ->
  exists r, In r trades /\ raw_trade_no r = k.
Proof.
  unfold DataFrameTV.group_keys.
  induction trades as [|r trades IH]; simpl; [tauto|].
  rewrite insert_key_In. intros [->|H]; [now exists r; auto|].
  destruct (IH H) as (r' & Hr' & E). exists r'. auto.
Qed.

(** X13.  When the reducer returns, its trades correspond one to one, in
    ascending order of identifier, to the distinct identifiers of the table:
    each is what [convert] builds from the rows of its identifier, taken in
    the order of the table.  No identifier is left out and none yields two
    trades. *)
Theorem init_returns_one_trade_per_identifier (trades : list RawRow) out :
  DataFrameTV.init trades = Ok out ->
  Forall2
    (fun k t =>
       ConvertTradeTV.convert
         (filter (fun r => (raw_trade_no r =? k)%Z) trades) = Ok t)
    (DataFrameTV.group_keys trades) out /\
  Sorted Z.lt (DataFrameTV.group_keys trades) /\
  (forall k, In k (DataFrameTV.group_keys trades)
             <-> exists r, In r trades /\ raw_trade_no r = k).
Proof.
  intros H. split; [|split].
  - unfold DataFrameTV.init in H. rewrite init_filter_keeps_every_group in H.
    apply mapM_Forall2 in H. unfold DataFrameTV.groupby_trade_no in H.
    apply Forall2_map_l in H. exact H.
  - apply group_keys_sorted.
  - intros k. split; [apply group_keys_In_inv|].
    intros (r & Hr & <-). now apply group_keys_In.
Qed.

End ReducerMore.

Lemma convert_ignores_the_role_witness :
  exists t,
    ConvertTradeTV.convert
      [Sample.row 3 "Entry Long" "2022-06-02 10:00" 110 1 10;
       Sample.row 3 "Exit Long" "2022-06-01 10:00" 100 1 10] = Ok t /\
    (type t = LONG <-> Str.lower "Long" = "long").
Proof.
  destruct (convert_ignores_the_role (pandas := PandasRef.pandas)
              (Sample.row 3 "Entry Long" "2022-06-02 10:00" 110 1 10)
              (Sample.row 3 "Exit Long" "2022-06-01 10:00" 100 1 10)
              "Exit" "Long"
              (mkTimestamp 2022 6 1 36000000000000)
              (mkTimestamp 2022 6 2 36000000000000))
    as (t & Ht & Hlong & _).
  - split; [discriminate | reflexivity].
  - split; [discriminate | reflexivity].
  - reflexivity.
  - reflexivity.
  - reflexivity.
  - exists t. split; [exact Ht | exact Hlong].
Defined.

Lemma init_returns_one_trade_per_identifier_witness :
  exists t,
    Forall2
      (fun k t =>
         ConvertTradeTV.convert
           (filter (fun r => (raw_trade_no r =? k)%Z) Sample.one_pair) = Ok t)
      [7%Z] [t].
Proof.
  destruct (DataFrameTV.init Sample.one_pair) as [out|e] eqn:E;
    [|vm_compute in E; discriminate E].
  destruct (init_returns_one_trade_per_identifier Sample.one_pair out E)
    as (Hall & _).
  change (DataFrameTV.group_keys Sample.one_pair) with [7%Z] in Hall.
  inversion Hall as [|k t ks ts Ht Hrest]; subst.
  inversion Hrest; subst.
  exists t. exact Hall.
Defined.


(** ** What makes the reducer raise *)

Section ReducerOutcome.
Context {pandas : Pandas}.

Lemma split_nonempty sep s : Str.split sep s <> [].
Proof.
  destruct s as [|c s]; simpl; [discriminate|].
  destruct (Ascii.eqb c sep); [discriminate|].
  destruct (Str.split sep s); discriminate.
Qed.

Lemma split_without_separator s :
  contains space s = false -> Str.split space s = [s].
Proof.
  induction s as [|c s IH]; simpl; intros H; [reflexivity|].
  apply orb_false_elim in H. destruct H as [Hc Hs].
  rewrite Hc, (IH Hs). reflexivity.
Qed.

Lemma split_with_separator s :
  contains space s = true ->
  exists first second rest, Str.split space s = first :: second :: rest.
Proof.
  induction s as [|c s IH]; simpl; intros H; [discriminate|].
  destruct (Ascii.eqb c space) eqn:Hc.
  - destruct (Str.split space s) as [|tok toks] eqn:E;
      [now destruct (split_nonempty space s) | now eauto].
  - simpl in H. destruct (IH H) as (a & b & rest & ->). now eauto.
Qed.

Lemma iloc_1_short {A : Type} (xs : list A) :
  List.length xs < 2 -> iloc xs 1 = Raise IndexError.
Proof.
  destruct xs as [|x [|y xs]]; simpl; intros H; [reflexivity | reflexivity | lia].
Qed.

(** X14.  What [convert] does on a group.  With fewer than two rows it
    raises [IndexError]; so it does when the Type of the row in second
    position holds no space.  On two rows or more it returns a trade exactly
    when that Type holds a space and the Date/Time cells of the first two
    rows are read as times. *)
Theorem convert_returns_iff_type_and_times_are_read
    (pair_trade : list RawRow) :
  (List.length pair_trade < 2 ->
   ConvertTradeTV.convert pair_trade = Raise IndexError) /\
  (forall exit_row entry_row rest,
     pair_trade = exit_row :: entry_row :: rest ->
     (contains space (raw_type entry_row) = false ->
      ConvertTradeTV.convert pair_trade = Raise IndexError) /\
     ((exists t, ConvertTradeTV.convert pair_trade = Ok t)
      <-> contains space (raw_type entry_row) = true /\
          (exists entered, to_datetime (raw_date_time entry_row) = Ok entered) /\
          (exists exited, to_datetime (raw_date_time exit_row) = Ok exited))).
Proof.
  split.
  - intros H. unfold ConvertTradeTV.convert. now rewrite (iloc_1_short _ H).
  - intros exit_row entry_row rest ->. unfold ConvertTradeTV.convert.
    rewrite iloc_1_cons, iloc_0_cons. cbn [bind].
    destruct (contains space (raw_type entry_row)) eqn:Hsp.
    + split; [discriminate|].
      destruct (split_with_separator _ Hsp) as (a & b & toks & ->).
      rewrite iloc_1_cons. cbn [bind].
      destruct (to_datetime (raw_date_time entry_row)) as [entered|e]; cbn [bind].
      * destruct (to_datetime (raw_date_time exit_row)) as [exited|e]; cbn [bind].
        -- split; [intros _ | intros _; now eexists].
           split; [reflexivity|]. split; now eexists.
        -- split; [intros (t & H); discriminate H|].
           intros (_ & _ & (d & H)). discriminate H.
      * split; [intros (t & H); discriminate H|].
        intros (_ & (d & H) & _). discriminate H.
    + rewrite (split_without_separator _ Hsp). cbn [iloc bind].
      split; [reflexivity|].
      split; [intros (t & H); discriminate H | intros (H & _); discriminate H].
Qed.

(** X15.  The reducer returns exactly when [convert] returns on the rows of
    every identifier of the table; one group on which it raises makes the
    whole construction raise, and an identifier with a single row is such a
    group: no group is skipped. *)
Theorem init_returns_iff_every_group_converts (trades : list RawRow) :
  ((exists out, DataFrameTV.init trades = Ok out)
   <-> (forall r, In r trades ->
        exists t, ConvertTradeTV.convert (group_of trades r) = Ok t)) /\
  (forall r, In r trades -> List.length (group_of trades r) < 2 ->
   exists e, DataFrameTV.init trades = Raise e).
Proof.
  assert (Hiff : (exists out, DataFrameTV.init trades = Ok out)
                 <-> (forall r, In r trades ->
                      exists t, ConvertTradeTV.convert (group_of trades r) = Ok t)).
  { unfold DataFrameTV.init. rewrite init_filter_keeps_every_group, mapM_Ok_iff.
    unfold DataFrameTV.groupby_trade_no, group_of. split.
    - intros H r Hr.
      apply (H (raw_trade_no r, _)). apply in_map_iff.
      exists (raw_trade_no r). split; [reflexivity | now apply group_keys_In].
    - intros H g Hg. apply in_map_iff in Hg. destruct Hg as (k & <- & Hk).
      apply group_keys_In_inv in Hk. destruct Hk as (r & Hr & <-).
      exact (H r Hr). }
  split; [exact Hiff|].
  intros r Hr Hshort.
  destruct (DataFrameTV.init trades) as [out|e] eqn:E; [|now exists e].
  exfalso. destruct (proj1 Hiff (ex_intro _ out eq_refl) r Hr) as (t & Ht).
  unfold ConvertTradeTV.convert in Ht.
  rewrite (iloc_1_short _ Hshort) in Ht. discriminate Ht.
Qed.
End ReducerOutcome.

Lemma convert_returns_iff_type_and_times_are_read_witness :
  (exists t, ConvertTradeTV.convert Sample.one_pair = Ok t)
  <-> contains space "Entry Long" = true /\
      (exists entered, to_datetime "2022-06-01 10:00" = Ok entered) /\
      (exists exited, to_datetime "2022-06-02 10:00" = Ok exited).
Proof.
  apply (proj2 (convert_returns_iff_type_and_times_are_read Sample.one_pair)
           _ _ [] eq_refl).
Defined.

Lemma init_returns_iff_every_group_converts_witness :
  exists e, DataFrameTV.init Sample.one_leg = Raise e.
Proof.
  apply (proj2 (init_returns_iff_every_group_converts Sample.one_leg)
           (Sample.row 1 "Entry Long" "2022-06-01 10:00" 100 1 nan)).
  - now left.
  - vm_compute. lia.
Defined.

(** ** The outcome of the monthly report *)

Section MonthlyOutcome.
Context {pandas : Pandas}.
Import Grouper.






End MonthlyOutcome.


